(** * Tablestore Go client: the retrying transport, the public operations
      and the row codec

    A shallow embedding of [tablestore/api.go]: [doRequest] with its
    retry loop, and the public operations [ListTable], [CreateTable],
    [PutRow], [GetRow] and [GetRange].  What [api.go] calls but does not
    define (the protobuf codec, [net/http], the signer, the row reader,
    the package constants) is a field of the record [Env].  The row
    codec, which lives in another file of the package, is modelled in
    the module [RowCodec].  Definitions come first, properties after. *)

From Stdlib Require Import ZArith List String Ascii Bool Lia.
Import ListNotations.

Local Open Scope Z_scope.
Local Open Scope string_scope.

(** ** Go values *)

(** [uint] on a 64-bit target; [count++] wraps around. *)
Definition uint_modulus : Z := 2 ^ 64.
Definition uint_max : Z := uint_modulus - 1.
Definition uint_incr (c : Z) : Z := (c + 1) mod uint_modulus.

(** [int32(x)] for an [int] x: the low 32 bits, read as two's complement. *)
Definition int32_of (x : Z) : Z := (x + 2 ^ 31) mod 2 ^ 32 - 2 ^ 31.

(** [len(s)] of a Go string or byte slice.  A Go [string] and a [[]byte]
    are both modelled by [string] (a list of 8-bit characters). *)
Definition len (s : string) : Z := Z.of_nat (String.length s).

(** Result of a collaborator that returns [(value, error)]: the error is
    identified by its [Error()] text. *)
Inductive result (A : Type) : Type :=
| Ok (a : A)
| Err (msg : string).
Arguments Ok {A} a.
Arguments Err {A} msg.

(** The [error] values [api.go] hands to its callers: an error known by
    its text ([fmt.Errorf], or an error passed through from a
    collaborator), or one of the package's validation errors. *)
Inductive error : Type :=
| ErrorText (msg : string)
| errTableNameTooLong (name : string)
| errPrimaryKeyTooMuch
| errCreateTableNoPrimaryKey
| errInvalidInput.

(** [fmt.Errorf(format, ...)] once the format is expanded. *)
Definition Errorf (msg : string) : error := ErrorText msg.

(** ** The outside world *)

Definition Header := list (string * string).

Fixpoint Header_Set (h : Header) (k v : string) : Header :=
  match h with
  | [] => [(k, v)]
  | (k', v') :: t => if String.eqb k' k then (k, v) :: t else (k', v') :: Header_Set t k v
  end.

Record HttpRequest : Type := mkHttpRequest {
  hMethod : string;
  hUrl : string;
  hBody : string;
  hHeader : Header
}.

(** What a call does to the outside world, oldest event first. *)
Inductive Event : Type :=
| EvPost (hreq : HttpRequest)   (* one request handed to postReq *)
| EvSleep (ms : Z).             (* time.Sleep *)

Definition World := list Event.

Definition is_post (e : Event) : bool :=
  match e with EvPost _ => true | EvSleep _ => false end.

(** Number of requests issued so far. *)
Definition attempts (w : World) : nat := List.length (filter is_post w).

(** [proto.Message]: the two functions of the protobuf library that
    [api.go] uses on a message type.  [proto.Unmarshal(body, m)] resets
    [m] and then fills it from [body]: [proto_Unmarshal] is the message
    of a decoding without error, and [proto_Partial m body] is what a
    decoding that fails leaves in [m]. *)
Class ProtoMessage (T : Type) : Type := {
  proto_Marshal : T -> result string;
  proto_Unmarshal : string -> result T;
  proto_Partial : T -> string -> T
}.

(** [tsprotocol.Error]; [Code] is a required field, so a message that
    unmarshals without error has it. *)
Record pb_Error : Type := mk_pb_Error {
  Code : string;
  Message : option string
}.

(** A [nil] request: the message type of a call without a body. *)
Inductive NoMessage : Type := .

#[export] Instance ProtoMessage_NoMessage : ProtoMessage NoMessage := {
  proto_Marshal := fun m => match m with end;
  proto_Unmarshal := fun _ => Err "nil message";
  proto_Partial := fun m _ => m
}.

Record TableStoreConfig : Type := mkConfig {
  RetryTimes : Z   (* uint *)
}.

Record TableStoreClient : Type := mkClient {
  endPoint : string;
  instanceName : string;
  accessKeyId : string;
  accessKeySecret : string;
  config : TableStoreConfig
}.

(** Outcome of running Go code from a world: it returns a value, it
    panics, or the model's fuel ran out before the retry loop ended. *)
Inductive Res (A : Type) : Type :=
| Val (a : A) (w : World)
| Panic (w : World)
| OutOfFuel.
Arguments Val {A} a w.
Arguments Panic {A} w.
Arguments OutOfFuel {A}.

Definition M (A : Type) : Type := World -> Res A.

Definition ret {A} (a : A) : M A := fun w => Val a w.
Definition panic {A} : M A := fun w => Panic w.
Definition bind {A B} (m : M A) (k : A -> M B) : M B :=
  fun w => match m w with
           | Val a w' => k a w'
           | Panic w' => Panic w'
           | OutOfFuel => OutOfFuel
           end.
Definition emit (e : Event) : M unit := fun w => Val tt (w ++ [e])%list.

Declare Scope go_scope.
Delimit Scope go_scope with go.
Notation "x <- m ;; k" := (bind m (fun x => k))
  (at level 61, m at next level, right associativity) : go_scope.
Notation "m ;;; k" := (bind m (fun _ => k))
  (at level 61, right associativity) : go_scope.

(** Dereference of a pointer that may be nil. *)
Definition deref {A} (p : option A) : M A :=
  match p with Some a => ret a | None => panic end.

(** ** The package's request and response structs

    As [api.go] reads and builds them.  A pointer that the caller may
    leave nil is an [option]; field names carry the struct's name since
    several structs share them. *)

(** An [interface{}] column value. *)
Inductive interface_value : Type :=
| V_nil
| V_int64 (z : Z)
| V_float64 (bits : Z)
| V_bool (b : bool)
| V_string (s : string)
| V_bytes (s : string).

Record PrimaryKeyColumn : Type := mkPrimaryKeyColumn {
  pkc_ColumnName : string;
  pkc_Value : interface_value
}.

Record PrimaryKey : Type := mkPrimaryKey {
  PrimaryKeys : list PrimaryKeyColumn
}.

Record DataColumn : Type := mkDataColumn {
  dc_ColumnName : string;
  dc_Value : interface_value;
  dc_Timestamp : Z
}.

Record ConsumedCapacityUnit : Type := mkConsumedCapacityUnit {
  ccu_Read : Z;
  ccu_Write : Z
}.

(** A [ColumnFilter] is an interface value; [api.go] only calls its
    [Serialize()]. *)
Record ColumnFilter : Type := mkColumnFilter {
  cf_Serialize : string
}.

Record PrimaryKeySchema : Type := mkPrimaryKeySchema {
  pks_Name : option string;
  pks_Type : option Z;
  pks_Option : option Z
}.

Record TableMeta : Type := mkTableMeta {
  tm_TableName : string;
  tm_SchemaEntry : list (option PrimaryKeySchema)
}.

Record TableOption : Type := mkTableOption {
  to_TimeToAlive : Z;
  to_MaxVersion : Z
}.

Record ReservedThroughput : Type := mkReservedThroughput {
  rt_Readcap : Z;
  rt_Writecap : Z
}.

Record CreateTableRequest : Type := mkCreateTableRequest {
  ctr_TableMeta : option TableMeta;
  ctr_TableOption : option TableOption;
  ctr_ReservedThroughput : option ReservedThroughput
}.

Record CreateTableResponse : Type := mkCreateTableResponse { }.

Record ListTableResponse : Type := mkListTableResponse {
  ltr_TableNames : list string
}.

Record RowCondition : Type := mkRowCondition {
  rc_RowExistenceExpectation : Z;
  rc_ColumnCondition : option ColumnFilter
}.

Record PutRowChange : Type := mkPutRowChange {
  prc_TableName : string;
  prc_PrimaryKey : option PrimaryKey;
  prc_Columns : list DataColumn;
  prc_Condition : option RowCondition
}.

Record PutRowRequest : Type := mkPutRowRequest {
  prr_PutRowChange : option PutRowChange
}.

Record PutRowResponse : Type := mkPutRowResponse {
  prs_ConsumedCapacityUnit : ConsumedCapacityUnit
}.

Record TimeRange : Type := mkTimeRange {
  tr_Start : Z;
  tr_End : Z;
  tr_Specific : Z
}.

Record SingleRowQueryCriteria : Type := mkSingleRowQueryCriteria {
  srq_ColumnsToGet : list string;
  srq_TableName : string;
  srq_PrimaryKey : option PrimaryKey;
  srq_MaxVersion : Z;
  srq_TimeRange : option TimeRange;
  srq_Filter : option ColumnFilter
}.

Record GetRowRequest : Type := mkGetRowRequest {
  grr_SingleRowQueryCriteria : option SingleRowQueryCriteria
}.

Record GetRowResponse : Type := mkGetRowResponse {
  grs_PrimaryKey : PrimaryKey;
  grs_Columns : list DataColumn;
  grs_ConsumedCapacityUnit : ConsumedCapacityUnit
}.

Record RangeRowQueryCriteria : Type := mkRangeRowQueryCriteria {
  rrq_TableName : string;
  rrq_StartPrimaryKey : option PrimaryKey;
  rrq_EndPrimaryKey : option PrimaryKey;
  rrq_ColumnsToGet : list string;
  rrq_MaxVersion : Z;
  rrq_TimeRange : option TimeRange;
  rrq_Filter : option ColumnFilter;
  rrq_Direction : Z;
  rrq_Limit : Z
}.

Record GetRangeRequest : Type := mkGetRangeRequest {
  gnr_RangeRowQueryCriteria : option RangeRowQueryCriteria
}.

Record Row : Type := mkRow {
  row_PrimaryKey : option PrimaryKey;
  row_Columns : list DataColumn
}.

Record GetRangeResponse : Type := mkGetRangeResponse {
  gns_Rows : list Row;
  gns_ConsumedCapacityUnit : ConsumedCapacityUnit;
  gns_NextStartPrimaryKey : option PrimaryKey
}.

(** Rows as [readRowsWithHeader] hands them back. *)
Record PlainBufferCell : Type := mkPlainBufferCell {
  cellName : string;
  cellValue : interface_value;   (* cellValue.Value *)
  cellTimestamp : Z
}.

Record PlainBufferRow : Type := mkPlainBufferRow {
  primaryKey : list PlainBufferCell;
  cells : list PlainBufferCell
}.

(** ** The [tsprotocol] messages

    The generated protobuf structs, with the fields [api.go] touches.
    Optional and message-typed fields are pointers, nil in a message
    made by [new]. *)

Record pb_PrimaryKeySchema : Type := mk_pb_PrimaryKeySchema {
  pbk_Name : option string;
  pbk_Type : option Z;
  pbk_Option : option Z
}.

Record pb_TableMeta : Type := mk_pb_TableMeta {
  pbm_TableName : option string;
  pbm_PrimaryKey : list pb_PrimaryKeySchema
}.

Record pb_CapacityUnit : Type := mk_pb_CapacityUnit {
  pbu_Read : option Z;
  pbu_Write : option Z
}.

Record pb_ReservedThroughput : Type := mk_pb_ReservedThroughput {
  pbt_CapacityUnit : option pb_CapacityUnit
}.

Record pb_TableOptions : Type := mk_pb_TableOptions {
  pbo_TimeToLive : option Z;
  pbo_MaxVersions : option Z
}.

Record pb_CreateTableRequest : Type := mk_pb_CreateTableRequest {
  pbc_TableMeta : option pb_TableMeta;
  pbc_ReservedThroughput : option pb_ReservedThroughput;
  pbc_TableOptions : option pb_TableOptions
}.

Record pb_CreateTableResponse : Type := mk_pb_CreateTableResponse { }.

Record pb_ListTableResponse : Type := mk_pb_ListTableResponse {
  pbl_TableNames : list string
}.

Record pb_Condition : Type := mk_pb_Condition {
  pbd_RowExistence : option Z;
  pbd_ColumnCondition : option string
}.

Record pb_PutRowRequest : Type := mk_pb_PutRowRequest {
  pbp_TableName : option string;
  pbp_Row : string;
  pbp_Condition : option pb_Condition
}.

Record pb_ConsumedCapacity : Type := mk_pb_ConsumedCapacity {
  pbn_CapacityUnit : option pb_CapacityUnit
}.

Record pb_PutRowResponse : Type := mk_pb_PutRowResponse {
  pbq_Consumed : option pb_ConsumedCapacity
}.

Record pb_TimeRange : Type := mk_pb_TimeRange {
  pbr_StartTime : option Z;
  pbr_EndTime : option Z;
  pbr_SpecificTime : option Z
}.

Record pb_GetRowRequest : Type := mk_pb_GetRowRequest {
  pbg_TableName : option string;
  pbg_PrimaryKey : string;
  pbg_ColumnsToGet : list string;
  pbg_TimeRange : option pb_TimeRange;
  pbg_MaxVersions : option Z;
  pbg_Filter : option string
}.

Record pb_GetRowResponse : Type := mk_pb_GetRowResponse {
  pbh_Consumed : option pb_ConsumedCapacity;
  pbh_Row : string
}.

Record pb_GetRangeRequest : Type := mk_pb_GetRangeRequest {
  pba_TableName : option string;
  pba_Direction : option Z;
  pba_ColumnsToGet : list string;
  pba_MaxVersions : option Z;
  pba_Limit : option Z;
  pba_InclusiveStartPrimaryKey : string;
  pba_ExclusiveEndPrimaryKey : string;
  pba_Filter : option string
}.

Record pb_GetRangeResponse : Type := mk_pb_GetRangeResponse {
  pbs_Consumed : option pb_ConsumedCapacity;
  pbs_Rows : string;
  pbs_NextStartPrimaryKey : string
}.

(** ** Collaborators of [api.go]

    Constants and functions that [api.go] uses and that are declared in
    other files of the package or in libraries. *)

Definition OtsHeaders := list (string * string).

Record Env : Type := mkEnv {
  (* package constants *)
  xOtsDate : string;
  xOtsApiversion : string;
  xOtsAccesskeyid : string;
  xOtsContentmd5 : string;
  xOtsInstanceName : string;
  xOtsSignature : string;
  xOtsDateFormat : string;
  ApiVersion : string;
  maxTableNameLength : Z;
  maxPrimaryKeyNum : Z;
  (* net/http, time, crypto/md5, encoding/base64 *)
  http_NewRequest_error : string -> string -> option string;  (* method, url *)
  time_Now_UTC_Format : World -> string -> string;            (* date read now, layout *)
  md5_Sum : string -> string;
  base64_EncodeToString : string -> string;
  (* otshead.signature(uri, method, secret) over the headers set so far *)
  signature : OtsHeaders -> string -> string -> string -> result string;
  (* tableStoreClient.postReq(hreq, url): the response body and the error,
     which may depend on everything that happened before *)
  postReq : World -> HttpRequest -> string -> string * option string;
  (* the protobuf codec of each message type *)
  pm_Error : ProtoMessage pb_Error;
  pm_CreateTableRequest : ProtoMessage pb_CreateTableRequest;
  pm_CreateTableResponse : ProtoMessage pb_CreateTableResponse;
  pm_ListTableResponse : ProtoMessage pb_ListTableResponse;
  pm_PutRowRequest : ProtoMessage pb_PutRowRequest;
  pm_PutRowResponse : ProtoMessage pb_PutRowResponse;
  pm_GetRowRequest : ProtoMessage pb_GetRowRequest;
  pm_GetRowResponse : ProtoMessage pb_GetRowResponse;
  pm_GetRangeRequest : ProtoMessage pb_GetRangeRequest;
  pm_GetRangeResponse : ProtoMessage pb_GetRangeResponse;
  (* methods of the package's structs, defined in other files; like the
     other collaborators they are taken to return on every input *)
  PrimaryKey_Build : option PrimaryKey -> bool -> string;
  PutRowChange_Serialize : PutRowChange -> string;
  buildCondition : RowCondition -> option Z;
  getColumnsToGet : SingleRowQueryCriteria -> list string;
  ToDirection : Z -> Z;
  readRowsWithHeader : string -> result (list PlainBufferRow)
}.

Definition hreq_Header_Set (hreq : HttpRequest) (k v : string) : HttpRequest :=
  mkHttpRequest (hMethod hreq) (hUrl hreq) (hBody hreq) (Header_Set (hHeader hreq) k v).

(** [createOtsHeaders(secret)] and [otshead.set(name, value)]. *)
Definition createOtsHeaders (secret : string) : OtsHeaders := [].
Definition otshead_set (h : OtsHeaders) (k v : string) : OtsHeaders := (h ++ [(k, v)])%list.

Definition now (E : Env) (layout : string) : M string :=
  fun w => Val (time_Now_UTC_Format E w layout) w.

Definition do_postReq (E : Env) (hreq : HttpRequest) (url : string) : M (string * option string) :=
  fun w => Val (postReq E w hreq url) (w ++ [EvPost hreq])%list.

Definition time_Sleep (ms : Z) : M unit := emit (EvSleep ms).

(** The codes [doRequest] retries on. *)
Definition is_transient (code : string) : bool :=
  String.eqb code "OTSServerBusy" || String.eqb code "OTSTimeout".

Local Open Scope go_scope.

(** [doRequest] from the label [retry] (api.go:82) to the end of the
    failure branch (api.go:145): [inl err] is [return err], [inr body] is
    the fall-through with the response body.  [body] is the variable the
    source reuses for the request body and for the response body, so a
    retry posts the body of the failed response; [count] is the [uint]
    attempt counter.  Every pass takes one unit of [fuel]. *)
Fixpoint doRequest_retry (E : Env) (c : TableStoreClient) (uri url : string)
    (fuel : nat) (body : string) (count : Z) : M (error + string) :=
  match fuel with
  | O => fun _ => OutOfFuel
  | S fuel' =>
    match http_NewRequest_error E "POST" url with
    | Some err => ret (inl (ErrorText err))
    | None =>
      let hreq := mkHttpRequest "POST" url body [] in
      let hreq := hreq_Header_Set hreq "User-Agent" "skyeye" in
      date <- now E (xOtsDateFormat E) ;;
      let hreq := hreq_Header_Set hreq (xOtsDate E) date in
      let hreq := hreq_Header_Set hreq (xOtsApiversion E) (ApiVersion E) in
      let hreq := hreq_Header_Set hreq (xOtsAccesskeyid E) (accessKeyId c) in
      let hreq := hreq_Header_Set hreq (xOtsInstanceName E) (instanceName c) in
      let md5Base64 := base64_EncodeToString E (md5_Sum E body) in
      let hreq := hreq_Header_Set hreq (xOtsContentmd5 E) md5Base64 in
      let otshead := createOtsHeaders (accessKeySecret c) in
      let otshead := otshead_set otshead (xOtsDate E) date in
      let otshead := otshead_set otshead (xOtsApiversion E) (ApiVersion E) in
      let otshead := otshead_set otshead (xOtsAccesskeyid E) (accessKeyId c) in
      let otshead := otshead_set otshead (xOtsContentmd5 E) md5Base64 in
      let otshead := otshead_set otshead (xOtsInstanceName E) (instanceName c) in
      match signature E otshead uri "POST" (accessKeySecret c) with
      | Err err => ret (inl (ErrorText err))
      | Ok sign =>
        let hreq := hreq_Header_Set hreq (xOtsSignature E) sign in
        r <- do_postReq E hreq url ;;
        let '(body, err) := r in
        match err with
        | Some err =>
          if (0 <? len body)%Z then
            match @proto_Unmarshal pb_Error (pm_Error E) body with
            | Err errn =>
              let count := uint_incr count in
              if (count <=? RetryTimes (config c))%Z then
                doRequest_retry E c uri url fuel' body count
              else
                ret (inl (Errorf ("decode resp failed: " ++ errn ++ ": " ++ err ++ ": " ++ body)))
            | Ok e =>
              if is_transient (Code e) then
                time_Sleep 10 ;;;
                let count := uint_incr count in
                if (count <=? RetryTimes (config c))%Z then
                  doRequest_retry E c uri url fuel' body count
                else
                  ret (inl (Errorf (Code e)))
              else
                ret (inl (Errorf (Code e)))
            end
          else
            ret (inl (ErrorText err))
        | None => ret (inr body)
        end
      end
    end
  end.

(** The request body (api.go:69-78): the marshalled request, or nil for
    a nil request. *)
Definition request_body {Req : Type} {PReq : ProtoMessage Req} (req : option Req)
    : result string :=
  match req with
  | Some req => proto_Marshal req
  | None => Ok ""
  end.

(** [doRequest(uri, req, resp)] for a message [resp]: the returned pair
    is [resp] as the call leaves it and the returned [error] ([None] is
    nil).  [req = None] is a nil request.  A body that does not decode
    leaves [resp] as the failed [proto.Unmarshal] leaves it.  The call
    with a nil [resp], which only [DeleteTable] makes, is [doRequest_nil]
    below. *)
Definition doRequest {Req Resp : Type} {PReq : ProtoMessage Req} {PResp : ProtoMessage Resp}
    (E : Env) (c : TableStoreClient) (fuel : nat)
    (uri : string) (req : option Req) (resp : Resp) : M (Resp * option error) :=
  let url := endPoint c ++ uri in
  match request_body req with
  | Err err => ret (resp, Some (ErrorText err))
  | Ok body =>
    r <- doRequest_retry E c uri url fuel body 0 ;;
    match r with
    | inl err => ret (resp, Some err)
    | inr body =>
      if (len body =? 0)%Z then ret (resp, None)
      else
        match proto_Unmarshal (T := Resp) body with
        | Err err =>
          ret (proto_Partial resp body, Some (Errorf ("decode resp failed: " ++ err)))
        | Ok resp' => ret (resp', None)
        end
    end
  end.

(** ** The public operations *)

Definition createTableUri := "/CreateTable".
Definition listTableUri := "/ListTable".
Definition putRowUri := "/PutRow".
Definition getRowUri := "/GetRow".
Definition getRangeUri := "/GetRange".

(** [len(x) > 0] for a slice [x] (false for nil as well). *)
Definition nonempty {A} (l : list A) : bool :=
  match l with [] => false | _ :: _ => true end.

(** The loop of [CreateTable] over [request.TableMeta.SchemaEntry]
    (api.go:185-193), appending to [req.TableMeta.PrimaryKey]. *)
Fixpoint CreateTable_keys (entries : list (option PrimaryKeySchema))
    (acc : list pb_PrimaryKeySchema) : M (list pb_PrimaryKeySchema) :=
  match entries with
  | [] => ret acc
  | key :: rest =>
    key <- deref key ;;
    keyType <- deref (pks_Type key) ;;
    match pks_Option key with
    | Some keyOption =>
      CreateTable_keys rest
        (acc ++ [mk_pb_PrimaryKeySchema (pks_Name key) (Some keyType) (Some keyOption)])%list
    | None =>
      CreateTable_keys rest
        (acc ++ [mk_pb_PrimaryKeySchema (pks_Name key) (Some keyType) None])%list
    end
  end.

Definition CreateTable (E : Env) (c : TableStoreClient) (fuel : nat)
    (request : option CreateTableRequest) : M (option CreateTableResponse * option error) :=
  request <- deref request ;;
  meta <- deref (ctr_TableMeta request) ;;
  if (len (tm_TableName meta) >? maxTableNameLength E)%Z then
    ret (None, Some (errTableNameTooLong (tm_TableName meta)))
  else if (Z.of_nat (List.length (tm_SchemaEntry meta)) >? maxPrimaryKeyNum E)%Z then
    ret (None, Some errPrimaryKeyTooMuch)
  else if (Z.of_nat (List.length (tm_SchemaEntry meta)) =? 0)%Z then
    ret (None, Some errCreateTableNoPrimaryKey)
  else
    keys <- CreateTable_keys (tm_SchemaEntry meta) [] ;;
    throughput <- deref (ctr_ReservedThroughput request) ;;
    option <- deref (ctr_TableOption request) ;;
    let req :=
      mk_pb_CreateTableRequest
        (Some (mk_pb_TableMeta (Some (tm_TableName meta)) keys))
        (Some (mk_pb_ReservedThroughput
                 (Some (mk_pb_CapacityUnit (Some (int32_of (rt_Readcap throughput)))
                                           (Some (int32_of (rt_Writecap throughput)))))))
        (Some (mk_pb_TableOptions (Some (int32_of (to_TimeToAlive option)))
                                  (Some (int32_of (to_MaxVersion option))))) in
    r <- doRequest (PReq := pm_CreateTableRequest E) (PResp := pm_CreateTableResponse E)
           E c fuel createTableUri (Some req) mk_pb_CreateTableResponse ;;
    match snd r with
    | Some err => ret (None, Some err)
    | None => ret (Some mkCreateTableResponse, None)
    end.

Definition ListTable (E : Env) (c : TableStoreClient) (fuel : nat)
    : M (option ListTableResponse * option error) :=
  r <- doRequest (Req := NoMessage) (PResp := pm_ListTableResponse E)
         E c fuel listTableUri None (mk_pb_ListTableResponse []) ;;
  let '(resp, err) := r in
  match err with
  | Some _ => ret (Some (mkListTableResponse []), None)
  | None => ret (Some (mkListTableResponse (pbl_TableNames resp)), None)
  end.

(** [*resp.Consumed.CapacityUnit.Read] and [...Write]. *)
Definition read_Consumed (consumed : option pb_ConsumedCapacity) : M ConsumedCapacityUnit :=
  consumed <- deref consumed ;;
  unit <- deref (pbn_CapacityUnit consumed) ;;
  read <- deref (pbu_Read unit) ;;
  write <- deref (pbu_Write unit) ;;
  ret (mkConsumedCapacityUnit read write).

Definition PutRow (E : Env) (c : TableStoreClient) (fuel : nat)
    (request : option PutRowRequest) : M (option PutRowResponse * option error) :=
  match request with
  | None => ret (None, None)
  | Some request =>
    match prr_PutRowChange request with
    | None => ret (None, None)
    | Some change =>
      let row := PutRowChange_Serialize E change in
      cond <- deref (prc_Condition change) ;;
      let condition :=
        mk_pb_Condition (buildCondition E cond)
          (match rc_ColumnCondition cond with
           | Some filter => Some (cf_Serialize filter)
           | None => None
           end) in
      let req := mk_pb_PutRowRequest (Some (prc_TableName change)) row (Some condition) in
      r <- doRequest (PReq := pm_PutRowRequest E) (PResp := pm_PutRowResponse E)
             E c fuel putRowUri (Some req) (mk_pb_PutRowResponse None) ;;
      let '(resp, err) := r in
      match err with
      | Some err => ret (None, Some err)
      | None =>
        consumed <- read_Consumed (pbq_Consumed resp) ;;
        ret (Some (mkPutRowResponse consumed), None)
      end
    end
  end.

Definition to_PrimaryKeyColumn (pk : PlainBufferCell) : PrimaryKeyColumn :=
  mkPrimaryKeyColumn (cellName pk) (cellValue pk).

Definition to_DataColumn (cell : PlainBufferCell) : DataColumn :=
  mkDataColumn (cellName cell) (cellValue cell) (cellTimestamp cell).

(** [GetRow] from the filter on (api.go:395-425), once the outgoing
    request [req] has passed the version / time-range test. *)
Definition GetRow_send (E : Env) (c : TableStoreClient) (fuel : nat)
    (crit : SingleRowQueryCriteria) (req : pb_GetRowRequest)
    : M (option GetRowResponse * option error) :=
  let req :=
    match srq_Filter crit with
    | Some filter =>
      mk_pb_GetRowRequest (pbg_TableName req) (pbg_PrimaryKey req) (pbg_ColumnsToGet req)
        (pbg_TimeRange req) (pbg_MaxVersions req) (Some (cf_Serialize filter))
    | None => req
    end in
  r <- doRequest (PReq := pm_GetRowRequest E) (PResp := pm_GetRowResponse E)
         E c fuel getRowUri (Some req) (mk_pb_GetRowResponse None "") ;;
  let '(resp, err) := r in
  match err with
  | Some err => ret (None, Some err)
  | None =>
    if (len (pbh_Row resp) =? 0)%Z then ret (None, None)
    else
      match readRowsWithHeader E (pbh_Row resp) with
      | Err err => ret (None, Some (ErrorText err))
      | Ok rows =>
        match rows with
        | [] => panic   (* rows[0] *)
        | row0 :: _ =>
          let pks := map to_PrimaryKeyColumn (primaryKey row0) in
          let columns := map to_DataColumn (cells row0) in
          consumed <- read_Consumed (pbh_Consumed resp) ;;
          ret (Some (mkGetRowResponse (mkPrimaryKey pks) columns consumed), None)
        end
      end
  end.

Definition GetRow (E : Env) (c : TableStoreClient) (fuel : nat)
    (request : option GetRowRequest) : M (option GetRowResponse * option error) :=
  request <- deref request ;;
  crit <- deref (grr_SingleRowQueryCriteria request) ;;
  let req := mk_pb_GetRowRequest (Some (srq_TableName crit)) "" [] None None None in
  let req :=
    if nonempty (getColumnsToGet E crit) then
      mk_pb_GetRowRequest (pbg_TableName req) (pbg_PrimaryKey req) (getColumnsToGet E crit)
        (pbg_TimeRange req) (pbg_MaxVersions req) (pbg_Filter req)
    else req in
  let req :=
    mk_pb_GetRowRequest (pbg_TableName req) (PrimaryKey_Build E (srq_PrimaryKey crit) false)
      (pbg_ColumnsToGet req) (pbg_TimeRange req) (pbg_MaxVersions req) (pbg_Filter req) in
  if negb (srq_MaxVersion crit =? 0)%Z then
    GetRow_send E c fuel crit
      (mk_pb_GetRowRequest (pbg_TableName req) (pbg_PrimaryKey req) (pbg_ColumnsToGet req)
         (pbg_TimeRange req) (Some (int32_of (srq_MaxVersion crit))) (pbg_Filter req))
  else
    match pbg_TimeRange req with   (* the outgoing request's field, not the criteria's *)
    | Some range =>
      GetRow_send E c fuel crit
        (mk_pb_GetRowRequest (pbg_TableName req) (pbg_PrimaryKey req) (pbg_ColumnsToGet req)
           (Some (mk_pb_TimeRange (pbr_StartTime range) (pbr_EndTime range)
                    (pbr_SpecificTime range)))
           (pbg_MaxVersions req) (pbg_Filter req))
    | None => ret (None, Some errInvalidInput)
    end.

(** The loop of [GetRange] over [currentRows[0].primaryKey]
    (api.go:641-645); [next] is [response.NextStartPrimaryKey]. *)
Fixpoint GetRange_next (pks : list PlainBufferCell) (next : option PrimaryKey)
    : option PrimaryKey :=
  match pks with
  | [] => next
  | pk :: rest =>
    let pkColumn := to_PrimaryKeyColumn pk in
    let next := mkPrimaryKey [] in
    let next := mkPrimaryKey (PrimaryKeys next ++ [pkColumn])%list in
    GetRange_next rest (Some next)
  end.

Definition to_Row (row : PlainBufferRow) : Row :=
  mkRow (Some (mkPrimaryKey (map to_PrimaryKeyColumn (primaryKey row))))
        (map to_DataColumn (cells row)).

Definition GetRange (E : Env) (c : TableStoreClient) (fuel : nat)
    (request : option GetRangeRequest) : M (option GetRangeResponse * option error) :=
  request <- deref request ;;
  crit <- deref (gnr_RangeRowQueryCriteria request) ;;
  let direction := ToDirection E (rrq_Direction crit) in
  let maxVersions :=
    if negb (rrq_MaxVersion crit =? 0)%Z then Some (rrq_MaxVersion crit) else None in
  let limit :=
    if negb (rrq_Limit crit =? 0)%Z then Some (rrq_Limit crit) else None in
  let columnsToGet : list string := [] in   (* req.ColumnsToGet of the new request *)
  let columnsToGet :=
    if nonempty columnsToGet then rrq_ColumnsToGet crit else columnsToGet in
  let filter :=
    match rrq_Filter crit with
    | Some filter => Some (cf_Serialize filter)
    | None => None
    end in
  let req :=
    mk_pb_GetRangeRequest (Some (rrq_TableName crit)) (Some direction) columnsToGet
      maxVersions limit
      (PrimaryKey_Build E (rrq_StartPrimaryKey crit) false)
      (PrimaryKey_Build E (rrq_EndPrimaryKey crit) false)
      filter in
  r <- doRequest (PReq := pm_GetRangeRequest E) (PResp := pm_GetRangeResponse E)
         E c fuel getRangeUri (Some req) (mk_pb_GetRangeResponse None "" "") ;;
  let '(resp, err) := r in
  match err with
  | Some err => ret (None, Some err)
  | None =>
    if (len (pbs_Rows resp) =? 0)%Z then ret (None, None)
    else
      match readRowsWithHeader E (pbs_Rows resp) with
      | Err err => ret (None, Some (ErrorText err))
      | Ok rows =>
        let response_Rows := map to_Row rows in
        consumed <- read_Consumed (pbs_Consumed resp) ;;
        if negb (len (pbs_NextStartPrimaryKey resp) =? 0)%Z then
          match readRowsWithHeader E (pbs_NextStartPrimaryKey resp) with
          | Err err => ret (None, Some (ErrorText err))
          | Ok currentRows =>
            match currentRows with
            | [] => panic   (* currentRows[0] *)
            | row0 :: _ =>
              ret (Some (mkGetRangeResponse response_Rows consumed
                           (GetRange_next (primaryKey row0) None)), None)
            end
          end
        else
          ret (Some (mkGetRangeResponse response_Rows consumed None), None)
      end
  end.

(** * The row codec

    [api.go] hands row buffers to [readRowsWithHeader] and gets them from
    [Serialize] and [Build]; the codec itself is in another file of the
    package.  It is modelled here from its specification: the data model
    of rows, the wire layout of the encode contract and the decoding
    loop of the decode contract. *)

Module RowCodec.

Local Open Scope list_scope.

Definition bytes := list ascii.

(** Modelled from the spec: the data model of a row (the row codec and
    its types are not under src/).  A key value is an integer, a
    byte-string, a string or one of the key-only sentinels; a cell value
    is an integer, a floating-point number (its 64 bits), a boolean, a
    byte-string or a string, with an optional timestamp. *)
Inductive PrimaryKeyValue : Type :=
| PK_Integer (z : Z)
| PK_Bytes (b : bytes)
| PK_String (s : string)
| PK_AutoIncrement
| PK_InfMin
| PK_InfMax.

Inductive ColumnValue : Type :=
| CV_Integer (z : Z)
| CV_Double (bits : Z)
| CV_Boolean (b : bool)
| CV_Bytes (b : bytes)
| CV_String (s : string).

Record PrimaryKeyColumn : Type := mkPrimaryKeyColumn {
  pk_name : string;
  pk_value : PrimaryKeyValue
}.

Record DataColumn : Type := mkDataColumn {
  col_name : string;
  col_value : ColumnValue;
  col_timestamp : option Z
}.

Record Row : Type := mkRow {
  row_key : list PrimaryKeyColumn;
  row_columns : list DataColumn
}.

(** Modelled from the spec: the recognized value type tags. *)
Inductive ValueType : Type :=
| VT_INTEGER | VT_DOUBLE | VT_BOOLEAN | VT_STRING | VT_BLOB
| VT_INF_MIN | VT_INF_MAX | VT_AUTO_INCREMENT.

Definition tag_byte (t : ValueType) : ascii :=
  match t with
  | VT_INTEGER => "000"
  | VT_DOUBLE => "001"
  | VT_BOOLEAN => "002"
  | VT_STRING => "003"
  | VT_BLOB => "007"
  | VT_INF_MIN => "009"
  | VT_INF_MAX => "010"
  | VT_AUTO_INCREMENT => "011"
  end%char.

Definition tag_of_byte (b : ascii) : option ValueType :=
  if Ascii.eqb b "000" then Some VT_INTEGER
  else if Ascii.eqb b "001" then Some VT_DOUBLE
  else if Ascii.eqb b "002" then Some VT_BOOLEAN
  else if Ascii.eqb b "003" then Some VT_STRING
  else if Ascii.eqb b "007" then Some VT_BLOB
  else if Ascii.eqb b "009" then Some VT_INF_MIN
  else if Ascii.eqb b "010" then Some VT_INF_MAX
  else if Ascii.eqb b "011" then Some VT_AUTO_INCREMENT
  else None.

(** Modelled from the spec: the fixed 4-byte header marker, the
    end-of-section marker and the two marks of the optional timestamp. *)
Definition HEADER : bytes := ["117"; "000"; "000"; "000"]%char.
Definition END_OF_SECTION : ascii := "255"%char.
Definition HAS_TIMESTAMP : ascii := "001"%char.
Definition NO_TIMESTAMP : ascii := "000"%char.

(** Little-endian bytes of an integer, and back. *)
Fixpoint le_bytes (n : nat) (z : Z) : bytes :=
  match n with
  | O => []
  | S n' => ascii_of_N (Z.to_N (z mod 256)) :: le_bytes n' (z / 256)
  end.

Fixpoint le_value (bs : bytes) : Z :=
  match bs with
  | [] => 0
  | b :: rest => Z.of_N (N_of_ascii b) + 256 * le_value rest
  end.

(** An [int64] on eight bytes, two's complement. *)
Definition encode_int64 (z : Z) : bytes := le_bytes 8 z.
Definition decode_int64 (bs : bytes) : Z :=
  let u := le_value bs in
  if (u <? 2 ^ 63)%Z then u else (u - 2 ^ 64)%Z.

(** A length-prefixed block: four bytes of length, then the bytes. *)
Definition encode_block (b : bytes) : bytes :=
  le_bytes 4 (Z.of_nat (List.length b)) ++ b.

(** Modelled from the spec: the running XOR over a run of bytes. *)
Definition xor_byte (a b : ascii) : ascii :=
  ascii_of_N (N.lxor (N_of_ascii a) (N_of_ascii b)).

Definition checksum (bs : bytes) : ascii := fold_left xor_byte bs "000"%char.

(** *** Encoding *)

Definition pk_type (v : PrimaryKeyValue) : ValueType :=
  match v with
  | PK_Integer _ => VT_INTEGER
  | PK_Bytes _ => VT_BLOB
  | PK_String _ => VT_STRING
  | PK_AutoIncrement => VT_AUTO_INCREMENT
  | PK_InfMin => VT_INF_MIN
  | PK_InfMax => VT_INF_MAX
  end.

Definition pk_payload (v : PrimaryKeyValue) : bytes :=
  match v with
  | PK_Integer z => encode_int64 z
  | PK_Bytes b => b
  | PK_String s => list_ascii_of_string s
  | PK_AutoIncrement | PK_InfMin | PK_InfMax => []
  end.

Definition cv_type (v : ColumnValue) : ValueType :=
  match v with
  | CV_Integer _ => VT_INTEGER
  | CV_Double _ => VT_DOUBLE
  | CV_Boolean _ => VT_BOOLEAN
  | CV_Bytes _ => VT_BLOB
  | CV_String _ => VT_STRING
  end.

Definition cv_payload (v : ColumnValue) : bytes :=
  match v with
  | CV_Integer z => encode_int64 z
  | CV_Double bits => le_bytes 8 bits
  | CV_Boolean b => [if b then "001" else "000"]%char
  | CV_Bytes b => b
  | CV_String s => list_ascii_of_string s
  end.

(** Modelled from the spec: a key column is tagged with its type, then
    come its length-prefixed name and its length-prefixed value. *)
Definition encode_pk (c : PrimaryKeyColumn) : bytes :=
  tag_byte (pk_type (pk_value c))
    :: encode_block (list_ascii_of_string (pk_name c))
    ++ encode_block (pk_payload (pk_value c)).

Definition encode_timestamp (t : option Z) : bytes :=
  match t with
  | Some t => HAS_TIMESTAMP :: encode_int64 t
  | None => [NO_TIMESTAMP]
  end.

(** Modelled from the spec: a cell is tagged with its type, then come
    its length-prefixed name, its length-prefixed value and the optional
    8-byte timestamp. *)
Definition encode_cell (c : DataColumn) : bytes :=
  tag_byte (cv_type (col_value c))
    :: encode_block (list_ascii_of_string (col_name c))
    ++ encode_block (cv_payload (col_value c))
    ++ encode_timestamp (col_timestamp c).

(** The two sections of a row, each closed by the end-of-section marker. *)
Definition encode_sections (r : Row) : bytes :=
  List.concat (map encode_pk (row_key r)) ++ [END_OF_SECTION]
    ++ List.concat (map encode_cell (row_columns r)) ++ [END_OF_SECTION].

(** Modelled from the spec: [encodeRow], whose source is not under src/.
    The buffer is the header marker, the primary-key section, the data
    section and the checksum byte of the two sections. *)
Definition encodeRow (r : Row) : bytes :=
  HEADER ++ encode_sections r ++ [checksum (encode_sections r)].

(** *** Decoding *)

Inductive DecodeError : Type :=
| MalformedHeader
| UnknownTypeTag
| ChecksumMismatch
| TruncatedBuffer.

Inductive decoded (A : Type) : Type :=
| Decoded (a : A)
| Failed (e : DecodeError).
Arguments Decoded {A} a.
Arguments Failed {A} e.

Definition and_then {A B} (d : decoded A) (k : A -> decoded B) : decoded B :=
  match d with
  | Decoded a => k a
  | Failed e => Failed e
  end.

Notation "' p <- d ;; k" := (and_then d (fun p => k))
  (at level 61, p pattern, d at next level, right associativity).

(** The next [n] bytes and what follows them. *)
Definition read_bytes (n : nat) (buf : bytes) : decoded (bytes * bytes) :=
  if (List.length buf <? n)%nat then Failed TruncatedBuffer
  else Decoded (firstn n buf, skipn n buf).

Definition read_block (buf : bytes) : decoded (bytes * bytes) :=
  ' (size, buf) <- read_bytes 4 buf ;;
  read_bytes (Z.to_nat (le_value size)) buf.

(** A payload of exactly [n] bytes. *)
Definition exactly (n : nat) (payload : bytes) : decoded bytes :=
  if (List.length payload =? n)%nat then Decoded payload else Failed TruncatedBuffer.

Definition decode_pk_value (t : ValueType) (payload : bytes) : decoded PrimaryKeyValue :=
  match t with
  | VT_INTEGER => ' p <- exactly 8 payload ;; Decoded (PK_Integer (decode_int64 p))
  | VT_BLOB => Decoded (PK_Bytes payload)
  | VT_STRING => Decoded (PK_String (string_of_list_ascii payload))
  | VT_AUTO_INCREMENT => ' _ <- exactly 0 payload ;; Decoded PK_AutoIncrement
  | VT_INF_MIN => ' _ <- exactly 0 payload ;; Decoded PK_InfMin
  | VT_INF_MAX => ' _ <- exactly 0 payload ;; Decoded PK_InfMax
  | VT_DOUBLE | VT_BOOLEAN => Failed UnknownTypeTag
  end.

Definition decode_cv_value (t : ValueType) (payload : bytes) : decoded ColumnValue :=
  match t with
  | VT_INTEGER => ' p <- exactly 8 payload ;; Decoded (CV_Integer (decode_int64 p))
  | VT_DOUBLE => ' p <- exactly 8 payload ;; Decoded (CV_Double (le_value p))
  | VT_BOOLEAN =>
    ' p <- exactly 1 payload ;;
    match p with
    | [b] => if Ascii.eqb b "000" then Decoded (CV_Boolean false)
             else if Ascii.eqb b "001" then Decoded (CV_Boolean true)
             else Failed UnknownTypeTag
    | _ => Failed TruncatedBuffer
    end
  | VT_BLOB => Decoded (CV_Bytes payload)
  | VT_STRING => Decoded (CV_String (string_of_list_ascii payload))
  | VT_INF_MIN | VT_INF_MAX | VT_AUTO_INCREMENT => Failed UnknownTypeTag
  end.

(** One key column, after its type tag [t]. *)
Definition decode_pk (t : ValueType) (buf : bytes) : decoded (PrimaryKeyColumn * bytes) :=
  ' (name, buf) <- read_block buf ;;
  ' (payload, buf) <- read_block buf ;;
  ' v <- decode_pk_value t payload ;;
  Decoded (mkPrimaryKeyColumn (string_of_list_ascii name) v, buf).

Definition decode_timestamp (buf : bytes) : decoded (option Z * bytes) :=
  match buf with
  | [] => Failed TruncatedBuffer
  | mark :: buf =>
    if Ascii.eqb mark NO_TIMESTAMP then Decoded (None, buf)
    else if Ascii.eqb mark HAS_TIMESTAMP then
      ' (t, buf) <- read_bytes 8 buf ;;
      Decoded (Some (decode_int64 t), buf)
    else Failed UnknownTypeTag
  end.

(** One cell, after its type tag [t]. *)
Definition decode_cell (t : ValueType) (buf : bytes) : decoded (DataColumn * bytes) :=
  ' (name, buf) <- read_block buf ;;
  ' (payload, buf) <- read_block buf ;;
  ' v <- decode_cv_value t payload ;;
  ' (ts, buf) <- decode_timestamp buf ;;
  Decoded (mkDataColumn (string_of_list_ascii name) v ts, buf).

(** Modelled from the spec: walk a section, collecting its entries until
    the end-of-section marker.  [fuel] bounds the number of entries; an
    entry takes at least one byte, so the length of the buffer is
    enough. *)
Fixpoint decode_section {A : Type} (entry : ValueType -> bytes -> decoded (A * bytes))
    (fuel : nat) (buf : bytes) : decoded (list A * bytes) :=
  match buf with
  | [] => Failed TruncatedBuffer
  | b :: buf =>
    if Ascii.eqb b END_OF_SECTION then Decoded ([], buf)
    else
      match fuel with
      | O => Failed TruncatedBuffer
      | S fuel =>
        match tag_of_byte b with
        | None => Failed UnknownTypeTag
        | Some t =>
          ' (a, buf) <- entry t buf ;;
          ' (more, buf) <- decode_section entry fuel buf ;;
          Decoded (a :: more, buf)
        end
      end
  end.

Fixpoint bytes_eqb (a b : bytes) : bool :=
  match a, b with
  | [], [] => true
  | x :: a, y :: b => Ascii.eqb x y && bytes_eqb a b
  | _, _ => false
  end.

(** Modelled from the spec: one row from the head of the buffer: the
    header marker, the two sections, and the checksum byte, which must be
    the checksum of the bytes the two sections took. *)
Definition decode_row (buf : bytes) : decoded (Row * bytes) :=
  ' (head, body) <- read_bytes 4 buf ;;
  if negb (bytes_eqb head HEADER) then Failed MalformedHeader
  else
    ' (key, buf) <- decode_section decode_pk (List.length body) body ;;
    ' (columns, buf) <- decode_section decode_cell (List.length buf) buf ;;
    match buf with
    | [] => Failed TruncatedBuffer
    | sum :: rest =>
      let taken := firstn (List.length body - List.length buf) body in
      if Ascii.eqb sum (checksum taken) then Decoded (mkRow key columns, rest)
      else Failed ChecksumMismatch
    end.

(** Modelled from the spec: [decodeRows], whose source is not under
    src/.  Decode a row, and go on with the next row while bytes remain;
    any error aborts the whole decode. *)
Fixpoint decode_rows (fuel : nat) (buf : bytes) : decoded (list Row) :=
  match fuel with
  | O => Failed TruncatedBuffer
  | S fuel =>
    ' (row, rest) <- decode_row buf ;;
    match rest with
    | [] => Decoded [row]
    | _ :: _ =>
      ' rows <- decode_rows fuel rest ;;
      Decoded (row :: rows)
    end
  end.

Definition decodeRows (buf : bytes) : decoded (list Row) :=
  decode_rows (S (List.length buf)) buf.

(** *** Valid rows *)

Definition int64_range (z : Z) : Prop := (- 2 ^ 63 <= z < 2 ^ 63)%Z.
Definition block_size (n : nat) : Prop := (Z.of_nat n < 2 ^ 32)%Z.

Definition valid_pk_value (v : PrimaryKeyValue) : Prop :=
  match v with
  | PK_Integer z => int64_range z
  | PK_Bytes b => block_size (List.length b)
  | PK_String s => block_size (String.length s)
  | PK_AutoIncrement | PK_InfMin | PK_InfMax => True
  end.

Definition valid_cv_value (v : ColumnValue) : Prop :=
  match v with
  | CV_Integer z => int64_range z
  | CV_Double bits => (0 <= bits < 2 ^ 64)%Z
  | CV_Boolean _ => True
  | CV_Bytes b => block_size (List.length b)
  | CV_String s => block_size (String.length s)
  end.

Definition valid_pk (c : PrimaryKeyColumn) : Prop :=
  block_size (String.length (pk_name c)) /\ valid_pk_value (pk_value c).

Definition valid_cell (c : DataColumn) : Prop :=
  block_size (String.length (col_name c)) /\ valid_cv_value (col_value c) /\
  match col_timestamp c with
  | Some t => int64_range t
  | None => True
  end.

Definition valid_row (r : Row) : Prop :=
  Forall valid_pk (row_key r) /\ Forall valid_cell (row_columns r).

(** The row of the specification's example: key [pk = 1], one cell
    [col = "v"] at timestamp 100. *)
Definition example_row : Row :=
  mkRow [mkPrimaryKeyColumn "pk" (PK_Integer 1)]
        [mkDataColumn "col" (CV_String "v") (Some 100%Z)].

End RowCodec.

(** ** Vocabulary of the statements *)

(** The headers [doRequest] signs for a request with body [body] built
    at the date [date] (api.go:102-107). *)
Definition signed_headers (E : Env) (c : TableStoreClient) (date body : string) : OtsHeaders :=
  [ (xOtsDate E, date);
    (xOtsApiversion E, ApiVersion E);
    (xOtsAccesskeyid E, accessKeyId c);
    (xOtsContentmd5 E, base64_EncodeToString E (md5_Sum E body));
    (xOtsInstanceName E, instanceName c) ].

(** The request [doRequest] hands to [postReq] (api.go:84-114), as a
    function of the body, the date and the signature. *)
Definition built_request (E : Env) (c : TableStoreClient) (url body date sign : string)
    : HttpRequest :=
  let hreq := mkHttpRequest "POST" url body [] in
  let hreq := hreq_Header_Set hreq "User-Agent" "skyeye" in
  let hreq := hreq_Header_Set hreq (xOtsDate E) date in
  let hreq := hreq_Header_Set hreq (xOtsApiversion E) (ApiVersion E) in
  let hreq := hreq_Header_Set hreq (xOtsAccesskeyid E) (accessKeyId c) in
  let hreq := hreq_Header_Set hreq (xOtsInstanceName E) (instanceName c) in
  let hreq :=
    hreq_Header_Set hreq (xOtsContentmd5 E) (base64_EncodeToString E (md5_Sum E body)) in
  hreq_Header_Set hreq (xOtsSignature E) sign.

(** The request that a pass of the loop of [doRequest] builds in the
    world [w] around the body [body] (api.go:84-114): the date is the
    clock's at [w], the signature is the signer's for the five signed
    headers.  [None] when [http.NewRequest] or the signer fails. *)
Definition attempt_request (E : Env) (c : TableStoreClient) (uri url body : string)
    (w : World) : option HttpRequest :=
  match http_NewRequest_error E "POST" url with
  | Some _ => None
  | None =>
    let date := time_Now_UTC_Format E w (xOtsDateFormat E) in
    match signature E (signed_headers E c date body) uri "POST" (accessKeySecret c) with
    | Ok sign => Some (built_request E c url body date sign)
    | Err _ => None
    end
  end.

(** The pass made in the world [w] with the body [body0] posts [hreq],
    and the service answers this request with [body] and [err].  Nothing
    is said of the answer to any other request. *)
Definition answered (E : Env) (c : TableStoreClient) (uri url body0 : string) (w : World)
    (hreq : HttpRequest) (body : string) (err : option string) : Prop :=
  attempt_request E c uri url body0 w = Some hreq /\
  postReq E w hreq url = (body, err).

(** [body] is the body of a failure response that decodes to the error
    message [e]. *)
Definition decodes_to (E : Env) (body : string) (e : pb_Error) : Prop :=
  0 < len body /\ @proto_Unmarshal pb_Error (pm_Error E) body = Ok e.

(** The attempt made in the world [w] around the body [body0], and each
    of the [n] attempts that follow it in a call, is posted and gets a
    failure response whose body decodes to a transient code: the next
    attempt is made after the post and the sleep, around the body of the
    failed response. *)
Fixpoint transient_attempts (E : Env) (c : TableStoreClient) (uri url : string)
    (n : nat) (body0 : string) (w : World) : Prop :=
  exists hreq body err e,
    answered E c uri url body0 w hreq body (Some err) /\
    decodes_to E body e /\ is_transient (Code e) = true /\
    match n with
    | O => True
    | S n' => transient_attempts E c uri url n' body (w ++ [EvPost hreq; EvSleep 10])%list
    end.

(** A service that is busy for good: every attempt of a call on [uri],
    in whatever world and around whatever body it is made, is posted and
    gets a failure response whose body decodes to a transient code. *)
Definition always_transient (E : Env) (c : TableStoreClient) (uri url : string) : Prop :=
  forall w body0, exists hreq body err e,
    answered E c uri url body0 w hreq body (Some err) /\
    decodes_to E body e /\ is_transient (Code e) = true.

(** What [doRequest] does with the answer to an attempt (api.go:118-145),
    as a function of the answer. *)
Definition after_post (E : Env) (c : TableStoreClient) (uri url : string)
    (fuel : nat) (count : Z) (body : string) (err : option string) : M (error + string) :=
  match err with
  | Some err =>
    if (0 <? len body)%Z then
      match @proto_Unmarshal pb_Error (pm_Error E) body with
      | Err errn =>
        if (uint_incr count <=? RetryTimes (config c))%Z then
          doRequest_retry E c uri url fuel body (uint_incr count)
        else
          ret (inl (Errorf ("decode resp failed: " ++ errn ++ ": " ++ err ++ ": " ++ body)))
      | Ok e =>
        if is_transient (Code e) then
          time_Sleep 10 ;;;
          if (uint_incr count <=? RetryTimes (config c))%Z then
            doRequest_retry E c uri url fuel body (uint_incr count)
          else
            ret (inl (Errorf (Code e)))
        else
          ret (inl (Errorf (Code e)))
      end
    else
      ret (inl (ErrorText err))
  | None => ret (inr body)
  end.


(** ** A simulated service

    A concrete [Env] for running the model: the fixed answer [reply] to
    every request, and an error body written [code|message]. *)

Fixpoint split_bar (s : string) : option (string * string) :=
  match s with
  | EmptyString => None
  | String a s' =>
    if Ascii.eqb a "|" then Some (EmptyString, s')
    else match split_bar s' with
         | Some (l, r) => Some (String a l, r)
         | None => None
         end
  end.

Definition sim_Error : ProtoMessage pb_Error := {|
  proto_Marshal := fun e => Ok (Code e);
  proto_Unmarshal := fun body =>
    match split_bar body with
    | Some (code, message) => Ok (mk_pb_Error code (Some message))
    | None => Err "unexpected EOF"
    end;
  proto_Partial := fun _ _ => mk_pb_Error "" None
|}.

Definition sim_message {T : Type} (zero : T) : ProtoMessage T := {|
  proto_Marshal := fun _ => Ok "request";
  proto_Unmarshal := fun _ => Ok zero;
  proto_Partial := fun _ _ => zero
|}.

Definition sim_rows (buf : string) : result (list PlainBufferRow) :=
  Ok [mkPlainBufferRow
        [mkPlainBufferCell "pk1" (V_int64 1) 0; mkPlainBufferCell "pk2" (V_string "b") 0]
        [mkPlainBufferCell "col" (V_string "v") 100]].

Definition sim_response : pb_GetRangeResponse :=
  mk_pb_GetRangeResponse
    (Some (mk_pb_ConsumedCapacity (Some (mk_pb_CapacityUnit (Some 1) (Some 0)))))
    "rows" "next".

Definition sim_env (reply : World -> string * option string) : Env := {|
  xOtsDate := "x-ots-date";
  xOtsApiversion := "x-ots-apiversion";
  xOtsAccesskeyid := "x-ots-accesskeyid";
  xOtsContentmd5 := "x-ots-contentmd5";
  xOtsInstanceName := "x-ots-instancename";
  xOtsSignature := "x-ots-signature";
  xOtsDateFormat := "2006-01-02T15:04:05.123Z";
  ApiVersion := "2015-12-31";
  maxTableNameLength := 8;
  maxPrimaryKeyNum := 4;
  http_NewRequest_error := fun _ _ => None;
  time_Now_UTC_Format := fun _ _ => "2017-01-01T00:00:00.000Z";
  md5_Sum := fun body => body;
  base64_EncodeToString := fun s => s;
  signature := fun _ _ _ _ => Ok "sign";
  postReq := fun w _ _ => reply w;
  pm_Error := sim_Error;
  pm_CreateTableRequest := sim_message (mk_pb_CreateTableRequest None None None);
  pm_CreateTableResponse := sim_message mk_pb_CreateTableResponse;
  pm_ListTableResponse := sim_message (mk_pb_ListTableResponse []);
  pm_PutRowRequest := sim_message (mk_pb_PutRowRequest None "" None);
  pm_PutRowResponse := sim_message (mk_pb_PutRowResponse None);
  pm_GetRowRequest := sim_message (mk_pb_GetRowRequest None "" [] None None None);
  pm_GetRowResponse := sim_message (mk_pb_GetRowResponse None "");
  pm_GetRangeRequest := sim_message (mk_pb_GetRangeRequest None None [] None None "" "" None);
  pm_GetRangeResponse := sim_message sim_response;
  PrimaryKey_Build := fun _ _ => "pk";
  PutRowChange_Serialize := fun _ => "row";
  buildCondition := fun cond => Some (rc_RowExistenceExpectation cond);
  getColumnsToGet := srq_ColumnsToGet;
  ToDirection := fun d => d;
  readRowsWithHeader := sim_rows
|}.

Definition sim_client (retries : Z) : TableStoreClient :=
  mkClient "http://ots.example" "instance" "id" "secret" (mkConfig retries).

(** The service is busy on every attempt. *)
Definition busy : World -> string * option string :=
  fun _ => ("OTSServerBusy|try again", Some "500").

(** The service rejects the request. *)
Definition rejected : World -> string * option string :=
  fun _ => ("OTSParameterInvalid|table name is empty", Some "400").

(** The service answers a failure with a body that is no error message. *)
Definition garbled : World -> string * option string :=
  fun _ => ("<html>", Some "502").

(** The connection fails. *)
Definition unreachable : World -> string * option string :=
  fun _ => ("", Some "connection refused").

(** The service answers with a response message. *)
Definition served : World -> string * option string :=
  fun _ => ("response", None).

(** Requests used to run the operations. *)

Definition long_name_request : CreateTableRequest :=
  mkCreateTableRequest
    (Some (mkTableMeta "a_table_name_that_is_too_long"
             [Some (mkPrimaryKeySchema (Some "pk"%string) (Some 1%Z) None)]))
    (Some (mkTableOption (-1) 1)) (Some (mkReservedThroughput 0 0)).

Definition no_key_request : CreateTableRequest :=
  mkCreateTableRequest (Some (mkTableMeta "t" []))
    (Some (mkTableOption (-1) 1)) (Some (mkReservedThroughput 0 0)).

Definition timed_criteria : SingleRowQueryCriteria :=
  mkSingleRowQueryCriteria ["col"%string] "t"
    (Some (mkPrimaryKey [mkPrimaryKeyColumn "pk" (V_int64 1)]))
    0 (Some (mkTimeRange 0 100 0)) None.

Definition scan_request : GetRangeRequest :=
  mkGetRangeRequest
    (Some (mkRangeRowQueryCriteria "t"
             (Some (mkPrimaryKey [mkPrimaryKeyColumn "pk1" (V_int64 0);
                                  mkPrimaryKeyColumn "pk2" (V_string "a")]))
             (Some (mkPrimaryKey [mkPrimaryKeyColumn "pk1" (V_int64 9);
                                  mkPrimaryKeyColumn "pk2" (V_string "z")]))
             [] 1 None None 0 10)).


(** ** More vocabulary: what a call leaves in the world *)

(** Milliseconds slept in a run of events. *)
Fixpoint slept (w : World) : Z :=
  match w with
  | [] => 0
  | EvPost _ :: t => slept t
  | EvSleep ms :: t => ms + slept t
  end.

(** What [doRequest] may add to the world [w], event by event: a POST
    of the request that a pass builds in the world of that moment around
    some body (so signed at that moment's date over that body), or a
    sleep of 10 ms. *)
Fixpoint done_by_doRequest (E : Env) (c : TableStoreClient) (uri url : string)
    (w : World) (evs : list Event) : Prop :=
  match evs with
  | [] => True
  | EvPost hreq :: rest =>
    (exists body, attempt_request E c uri url body w = Some hreq) /\
    done_by_doRequest E c uri url (w ++ [EvPost hreq])%list rest
  | EvSleep ms :: rest =>
    ms = 10%Z /\
    done_by_doRequest E c uri url (w ++ [EvSleep ms])%list rest
  end.

(** A message type whose marshalling fails, for running [doRequest] on a
    request that cannot be marshalled. *)
Inductive unset_message : Type := Unset.

Definition sim_unset : ProtoMessage unset_message := {|
  proto_Marshal := fun _ => Err "proto: required field not set";
  proto_Unmarshal := fun _ => Err "proto: required field not set";
  proto_Partial := fun _ _ => Unset
|}.

(** A response message type that never decodes. *)
Definition sim_undecodable : ProtoMessage pb_ListTableResponse := {|
  proto_Marshal := fun _ => Ok "request";
  proto_Unmarshal := fun _ => Err "proto: bad wiretype";
  proto_Partial := fun _ _ => mk_pb_ListTableResponse []
|}.

(** Criteria with one field replaced. *)
Definition with_ColumnsToGet (crit : RangeRowQueryCriteria) (columns : list string)
    : RangeRowQueryCriteria :=
  mkRangeRowQueryCriteria (rrq_TableName crit) (rrq_StartPrimaryKey crit)
    (rrq_EndPrimaryKey crit) columns (rrq_MaxVersion crit) (rrq_TimeRange crit)
    (rrq_Filter crit) (rrq_Direction crit) (rrq_Limit crit).

Definition with_TimeRange (crit : SingleRowQueryCriteria) (range : option TimeRange)
    : SingleRowQueryCriteria :=
  mkSingleRowQueryCriteria (srq_ColumnsToGet crit) (srq_TableName crit) (srq_PrimaryKey crit)
    (srq_MaxVersion crit) range (srq_Filter crit).

(** A service whose answer has no error and no body. *)
Definition silent : World -> string * option string :=
  fun _ => ("", None).

(** ** The messages the operations send

    The [tsprotocol] request that an operation hands to [doRequest], as
    a function of the caller's request. *)

(** [PutRow] for the change [change] with the condition [cond]
    (api.go:326-336). *)
Definition PutRow_message (E : Env) (change : PutRowChange) (cond : RowCondition)
    : pb_PutRowRequest :=
  mk_pb_PutRowRequest (Some (prc_TableName change)) (PutRowChange_Serialize E change)
    (Some (mk_pb_Condition (buildCondition E cond)
             (match rc_ColumnCondition cond with
              | Some filter => Some (cf_Serialize filter)
              | None => None
              end))).

(** [GetRow] for criteria with a [MaxVersion] other than 0
    (api.go:376-397): the time range is never set. *)
Definition GetRow_message (E : Env) (crit : SingleRowQueryCriteria) : pb_GetRowRequest :=
  mk_pb_GetRowRequest (Some (srq_TableName crit))
    (PrimaryKey_Build E (srq_PrimaryKey crit) false)
    (if nonempty (getColumnsToGet E crit) then getColumnsToGet E crit else [])
    None
    (Some (int32_of (srq_MaxVersion crit)))
    (match srq_Filter crit with
     | Some filter => Some (cf_Serialize filter)
     | None => None
     end).

(** [GetRange] (api.go:576-597): the columns to get are never set. *)
Definition GetRange_message (E : Env) (crit : RangeRowQueryCriteria) : pb_GetRangeRequest :=
  mk_pb_GetRangeRequest (Some (rrq_TableName crit))
    (Some (ToDirection E (rrq_Direction crit)))
    []
    (if negb (rrq_MaxVersion crit =? 0)%Z then Some (rrq_MaxVersion crit) else None)
    (if negb (rrq_Limit crit =? 0)%Z then Some (rrq_Limit crit) else None)
    (PrimaryKey_Build E (rrq_StartPrimaryKey crit) false)
    (PrimaryKey_Build E (rrq_EndPrimaryKey crit) false)
    (match rrq_Filter crit with
     | Some filter => Some (cf_Serialize filter)
     | None => None
     end).

Definition put_request : PutRowRequest :=
  mkPutRowRequest
    (Some (mkPutRowChange "t" (Some (mkPrimaryKey [mkPrimaryKeyColumn "pk" (V_int64 1)]))
             [mkDataColumn "col" (V_string "v") 0]
             (Some (mkRowCondition 0 None)))).

Definition versioned_criteria : SingleRowQueryCriteria :=
  mkSingleRowQueryCriteria [] "t"
    (Some (mkPrimaryKey [mkPrimaryKeyColumn "pk" (V_int64 1)])) 1 None None.

(** The simulated service with chosen response messages. *)
Definition sim_env_of (reply : World -> string * option string)
    (tables : pb_ListTableResponse) (put : pb_PutRowResponse)
    (row : pb_GetRowResponse) (range : pb_GetRangeResponse) : Env := {|
  xOtsDate := "x-ots-date";
  xOtsApiversion := "x-ots-apiversion";
  xOtsAccesskeyid := "x-ots-accesskeyid";
  xOtsContentmd5 := "x-ots-contentmd5";
  xOtsInstanceName := "x-ots-instancename";
  xOtsSignature := "x-ots-signature";
  xOtsDateFormat := "2006-01-02T15:04:05.123Z";
  ApiVersion := "2015-12-31";
  maxTableNameLength := 8;
  maxPrimaryKeyNum := 4;
  http_NewRequest_error := fun _ _ => None;
  time_Now_UTC_Format := fun _ _ => "2017-01-01T00:00:00.000Z";
  md5_Sum := fun body => body;
  base64_EncodeToString := fun s => s;
  signature := fun _ _ _ _ => Ok "sign";
  postReq := fun w _ _ => reply w;
  pm_Error := sim_Error;
  pm_CreateTableRequest := sim_message (mk_pb_CreateTableRequest None None None);
  pm_CreateTableResponse := sim_message mk_pb_CreateTableResponse;
  pm_ListTableResponse := sim_message tables;
  pm_PutRowRequest := sim_message (mk_pb_PutRowRequest None "" None);
  pm_PutRowResponse := sim_message put;
  pm_GetRowRequest := sim_message (mk_pb_GetRowRequest None "" [] None None None);
  pm_GetRowResponse := sim_message row;
  pm_GetRangeRequest := sim_message (mk_pb_GetRangeRequest None None [] None None "" "" None);
  pm_GetRangeResponse := sim_message range;
  PrimaryKey_Build := fun _ _ => "pk";
  PutRowChange_Serialize := fun _ => "row";
  buildCondition := fun cond => Some (rc_RowExistenceExpectation cond);
  getColumnsToGet := srq_ColumnsToGet;
  ToDirection := fun d => d;
  readRowsWithHeader := sim_rows
|}.

Definition sim_consumed (read write : Z) : option pb_ConsumedCapacity :=
  Some (mk_pb_ConsumedCapacity (Some (mk_pb_CapacityUnit (Some read) (Some write)))).

Definition sim_row_response : pb_GetRowResponse :=
  mk_pb_GetRowResponse (sim_consumed 1 0) "row".

(** A page of a scan without rows but with a next-start key. *)
Definition empty_page : pb_GetRangeResponse :=
  mk_pb_GetRangeResponse (sim_consumed 1 0) "" "next".

Definition sim_env_row : Env :=
  sim_env_of served (mk_pb_ListTableResponse ["t1"; "t2"])
    (mk_pb_PutRowResponse (sim_consumed 0 1)) sim_row_response sim_response.

Definition sim_env_empty_page : Env :=
  sim_env_of served (mk_pb_ListTableResponse [])
    (mk_pb_PutRowResponse (sim_consumed 0 1)) sim_row_response empty_page.

(** The [tsprotocol.PrimaryKeySchema] that [CreateTable] builds from a
    schema entry (api.go:186-192). *)
Definition schema_of (entry : option PrimaryKeySchema) : pb_PrimaryKeySchema :=
  match entry with
  | Some key => mk_pb_PrimaryKeySchema (pks_Name key) (pks_Type key) (pks_Option key)
  | None => mk_pb_PrimaryKeySchema None None None
  end.

(** [CreateTable] for a request that passed the tests, with its
    throughput and options set (api.go:181-203). *)
Definition CreateTable_message (meta : TableMeta) (throughput : ReservedThroughput)
    (option : TableOption) : pb_CreateTableRequest :=
  mk_pb_CreateTableRequest
    (Some (mk_pb_TableMeta (Some (tm_TableName meta)) (map schema_of (tm_SchemaEntry meta))))
    (Some (mk_pb_ReservedThroughput
             (Some (mk_pb_CapacityUnit (Some (int32_of (rt_Readcap throughput)))
                                       (Some (int32_of (rt_Writecap throughput)))))))
    (Some (mk_pb_TableOptions (Some (int32_of (to_TimeToAlive option)))
                              (Some (int32_of (to_MaxVersion option))))).

(** A schema entry that is not nil and has its [Type] set. *)
Definition typed_entry (entry : option PrimaryKeySchema) : Prop :=
  exists key keyType, entry = Some key /\ pks_Type key = Some keyType.

Definition typed_entryb (entry : option PrimaryKeySchema) : bool :=
  match entry with
  | Some key => match pks_Type key with Some _ => true | None => false end
  | None => false
  end.

(** A request at both bounds of the simulated service: a name of 8
    bytes and 4 key columns. *)
Definition bound_request : CreateTableRequest :=
  mkCreateTableRequest
    (Some (mkTableMeta "12345678"
             [Some (mkPrimaryKeySchema (Some "a") (Some 1%Z) None);
              Some (mkPrimaryKeySchema (Some "b") (Some 2%Z) (Some 1%Z));
              Some (mkPrimaryKeySchema (Some "c") (Some 3%Z) None);
              Some (mkPrimaryKeySchema (Some "d") (Some 1%Z) None)]))
    (Some (mkTableOption (-1) 1)) (Some (mkReservedThroughput 0 0)).

(** A request with a schema entry that has no [Type]. *)
Definition untyped_request : CreateTableRequest :=
  mkCreateTableRequest
    (Some (mkTableMeta "t"
             [Some (mkPrimaryKeySchema (Some "a") (Some 1%Z) None);
              Some (mkPrimaryKeySchema (Some "b") None None)]))
    (Some (mkTableOption (-1) 1)) (Some (mkReservedThroughput 0 0)).

(** * The other operations of [api.go]

    [DeleteTable], [DescribeTable], [UpdateTable], [DeleteRow],
    [UpdateRow], [BatchGetRow] and [BatchWriteRow], with their structs
    and messages.
    The collaborators they need beyond those of [Env] are the fields of
    [MoreEnv]. *)

Definition deleteTableUri := "/DeleteTable".
Definition describeTableUri := "/DescribeTable".
Definition updateTableUri := "/UpdateTable".
Definition deleteRowUri := "/DeleteRow".
Definition updateRowUri := "/UpdateRow".
Definition batchGetRowUri := "/BatchGetRow".
Definition batchWriteRowUri := "/BatchWriteRow".

(** [doRequest(uri, req, nil)], the call of [DeleteTable] (api.go:239):
    there is no message to decode into.  Up to the answer it is
    [doRequest]; an answer without error and with an empty body returns
    nil (api.go:147-149); with any other body [proto.Unmarshal(body, nil)]
    (api.go:151) starts with [Reset] on the nil message, which panics. *)
Definition doRequest_nil {Req : Type} {PReq : ProtoMessage Req}
    (E : Env) (c : TableStoreClient) (fuel : nat)
    (uri : string) (req : option Req) : M (option error) :=
  let url := endPoint c ++ uri in
  match request_body req with
  | Err err => ret (Some (ErrorText err))
  | Ok body =>
    r <- doRequest_retry E c uri url fuel body 0 ;;
    match r with
    | inl err => ret (Some err)
    | inr body =>
      if (len body =? 0)%Z then ret None
      else panic
    end
  end.

Record DeleteTableRequest : Type := mkDeleteTableRequest {
  dlq_TableName : string
}.

Record DeleteTableResponse : Type := mkDeleteTableResponse { }.

Record pb_DeleteTableRequest : Type := mk_pb_DeleteTableRequest {
  pdl_TableName : option string
}.

(** [DeleteTable] (api.go:234-243); [PReq] is the protobuf message type
    of its request. *)
Definition DeleteTable {PReq : ProtoMessage pb_DeleteTableRequest}
    (E : Env) (c : TableStoreClient) (fuel : nat)
    (request : option DeleteTableRequest) : M (option DeleteTableResponse * option error) :=
  request <- deref request ;;
  let req := mk_pb_DeleteTableRequest (Some (dlq_TableName request)) in
  err <- doRequest_nil E c fuel deleteTableUri (Some req) ;;
  match err with
  | Some err => ret (None, Some err)
  | None => ret (Some mkDeleteTableResponse, None)
  end.

Record DescribeTableRequest : Type := mkDescribeTableRequest {
  dtq_TableName : string
}.

Record DescribeTableResponse : Type := mkDescribeTableResponse {
  dts_TableMeta : option TableMeta;
  dts_TableOption : option TableOption;
  dts_ReservedThroughput : option ReservedThroughput
}.

Record UpdateTableRequest : Type := mkUpdateTableRequest {
  utq_TableName : string;
  utq_TableOption : option TableOption;
  utq_ReservedThroughput : option ReservedThroughput
}.

Record UpdateTableResponse : Type := mkUpdateTableResponse {
  uts_TableOption : option TableOption;
  uts_ReservedThroughput : option ReservedThroughput
}.

Record DeleteRowChange : Type := mkDeleteRowChange {
  drc_TableName : string;
  drc_PrimaryKey : option PrimaryKey;
  drc_Condition : option RowCondition
}.

Record DeleteRowRequest : Type := mkDeleteRowRequest {
  drq_DeleteRowChange : option DeleteRowChange
}.

Record DeleteRowResponse : Type := mkDeleteRowResponse {
  drs_ConsumedCapacityUnit : ConsumedCapacityUnit
}.

Record UpdateRowChange : Type := mkUpdateRowChange {
  urc_TableName : string;
  urc_PrimaryKey : option PrimaryKey;
  urc_Columns : list DataColumn;
  urc_Condition : option RowCondition
}.

Record UpdateRowRequest : Type := mkUpdateRowRequest {
  urq_UpdateRowChange : option UpdateRowChange
}.

Record UpdateRowResponse : Type := mkUpdateRowResponse {
  urs_ConsumedCapacityUnit : ConsumedCapacityUnit
}.

Record pb_DescribeTableRequest : Type := mk_pb_DescribeTableRequest {
  pdq_TableName : option string
}.

Record pb_ReservedThroughputDetails : Type := mk_pb_ReservedThroughputDetails {
  prd_CapacityUnit : option pb_CapacityUnit
}.

Record pb_DescribeTableResponse : Type := mk_pb_DescribeTableResponse {
  pds_TableMeta : option pb_TableMeta;
  pds_ReservedThroughputDetails : option pb_ReservedThroughputDetails;
  pds_TableOptions : option pb_TableOptions
}.

Record pb_UpdateTableRequest : Type := mk_pb_UpdateTableRequest {
  puq_TableName : option string;
  puq_ReservedThroughput : option pb_ReservedThroughput;
  puq_TableOptions : option pb_TableOptions
}.

Record pb_UpdateTableResponse : Type := mk_pb_UpdateTableResponse {
  pus_ReservedThroughputDetails : option pb_ReservedThroughputDetails;
  pus_TableOptions : option pb_TableOptions
}.

Record pb_DeleteRowRequest : Type := mk_pb_DeleteRowRequest {
  pdr_TableName : option string;
  pdr_PrimaryKey : string;
  pdr_Condition : option pb_Condition
}.

Record pb_DeleteRowResponse : Type := mk_pb_DeleteRowResponse {
  pdp_Consumed : option pb_ConsumedCapacity
}.

Record pb_UpdateRowRequest : Type := mk_pb_UpdateRowRequest {
  pur_TableName : option string;
  pur_RowChange : string;
  pur_Condition : option pb_Condition
}.

Record pb_UpdateRowResponse : Type := mk_pb_UpdateRowResponse {
  pup_Consumed : option pb_ConsumedCapacity
}.

Record MoreEnv : Type := mkMoreEnv {
  env : Env;
  pm_DescribeTableRequest : ProtoMessage pb_DescribeTableRequest;
  pm_DescribeTableResponse : ProtoMessage pb_DescribeTableResponse;
  pm_UpdateTableRequest : ProtoMessage pb_UpdateTableRequest;
  pm_UpdateTableResponse : ProtoMessage pb_UpdateTableResponse;
  pm_DeleteRowRequest : ProtoMessage pb_DeleteRowRequest;
  pm_DeleteRowResponse : ProtoMessage pb_DeleteRowResponse;
  pm_UpdateRowRequest : ProtoMessage pb_UpdateRowRequest;
  pm_UpdateRowResponse : ProtoMessage pb_UpdateRowResponse;
  (* methods of the row changes, defined in other files *)
  DeleteRowChange_getCondition : DeleteRowChange -> option pb_Condition;
  UpdateRowChange_getCondition : UpdateRowChange -> option pb_Condition;
  UpdateRowChange_Serialize : UpdateRowChange -> string
}.

(** The loop of [DescribeTable] over [resp.TableMeta.PrimaryKey]
    (api.go:264-272), appending to [responseTableMeta.SchemaEntry]. *)
Fixpoint DescribeTable_keys (keys : list pb_PrimaryKeySchema)
    (acc : list (option PrimaryKeySchema)) : M (list (option PrimaryKeySchema)) :=
  match keys with
  | [] => ret acc
  | key :: rest =>
    keyType <- deref (pbk_Type key) ;;
    match pbk_Option key with
    | Some keyOption =>
      DescribeTable_keys rest
        (acc ++ [Some (mkPrimaryKeySchema (pbk_Name key) (Some keyType) (Some keyOption))])%list
    | None =>
      DescribeTable_keys rest
        (acc ++ [Some (mkPrimaryKeySchema (pbk_Name key) (Some keyType) None)])%list
    end
  end.

(** [*(details.CapacityUnit.Read)] and [...Write] as a
    [ReservedThroughput]. *)
Definition read_Details (details : option pb_ReservedThroughputDetails) : M ReservedThroughput :=
  details <- deref details ;;
  unit <- deref (prd_CapacityUnit details) ;;
  read <- deref (pbu_Read unit) ;;
  write <- deref (pbu_Write unit) ;;
  ret (mkReservedThroughput read write).

(** [*options.TimeToLive] and [*options.MaxVersions] as a [TableOption]. *)
Definition read_Options (options : option pb_TableOptions) : M TableOption :=
  options <- deref options ;;
  ttl <- deref (pbo_TimeToLive options) ;;
  versions <- deref (pbo_MaxVersions options) ;;
  ret (mkTableOption ttl versions).

Definition DescribeTable (X : MoreEnv) (c : TableStoreClient) (fuel : nat)
    (request : option DescribeTableRequest) : M (option DescribeTableResponse * option error) :=
  request <- deref request ;;
  let req := mk_pb_DescribeTableRequest (Some (dtq_TableName request)) in
  r <- doRequest (PReq := pm_DescribeTableRequest X) (PResp := pm_DescribeTableResponse X)
         (env X) c fuel describeTableUri (Some req) (mk_pb_DescribeTableResponse None None None) ;;
  let '(resp, err) := r in
  match err with
  | Some err => ret (Some (mkDescribeTableResponse None None None), Some err)
  | None =>
    throughput <- read_Details (pds_ReservedThroughputDetails resp) ;;
    meta <- deref (pds_TableMeta resp) ;;
    name <- deref (pbm_TableName meta) ;;
    entries <- DescribeTable_keys (pbm_PrimaryKey meta) [] ;;
    option <- read_Options (pds_TableOptions resp) ;;
    ret (Some (mkDescribeTableResponse (Some (mkTableMeta name entries)) (Some option)
                 (Some throughput)), None)
  end.

Definition UpdateTable (X : MoreEnv) (c : TableStoreClient) (fuel : nat)
    (request : option UpdateTableRequest) : M (option UpdateTableResponse * option error) :=
  request <- deref request ;;
  let throughput :=
    match utq_ReservedThroughput request with
    | Some throughput =>
      Some (mk_pb_ReservedThroughput
              (Some (mk_pb_CapacityUnit (Some (int32_of (rt_Readcap throughput)))
                                        (Some (int32_of (rt_Writecap throughput))))))
    | None => None
    end in
  let options :=
    match utq_TableOption request with
    | Some option =>
      Some (mk_pb_TableOptions (Some (int32_of (to_TimeToAlive option)))
                               (Some (int32_of (to_MaxVersion option))))
    | None => None
    end in
  let req := mk_pb_UpdateTableRequest (Some (utq_TableName request)) throughput options in
  r <- doRequest (PReq := pm_UpdateTableRequest X) (PResp := pm_UpdateTableResponse X)
         (env X) c fuel updateTableUri (Some req) (mk_pb_UpdateTableResponse None None) ;;
  let '(resp, err) := r in
  match err with
  | Some err => ret (Some (mkUpdateTableResponse None None), Some err)
  | None =>
    throughput <- read_Details (pus_ReservedThroughputDetails resp) ;;
    option <- read_Options (pus_TableOptions resp) ;;
    ret (Some (mkUpdateTableResponse (Some option) (Some throughput)), None)
  end.

Definition DeleteRow (X : MoreEnv) (c : TableStoreClient) (fuel : nat)
    (request : option DeleteRowRequest) : M (option DeleteRowResponse * option error) :=
  request <- deref request ;;
  change <- deref (drq_DeleteRowChange request) ;;
  let req :=
    mk_pb_DeleteRowRequest (Some (drc_TableName change))
      (PrimaryKey_Build (env X) (drc_PrimaryKey change) true)
      (DeleteRowChange_getCondition X change) in
  r <- doRequest (PReq := pm_DeleteRowRequest X) (PResp := pm_DeleteRowResponse X)
         (env X) c fuel deleteRowUri (Some req) (mk_pb_DeleteRowResponse None) ;;
  let '(resp, err) := r in
  match err with
  | Some err => ret (None, Some err)
  | None =>
    consumed <- read_Consumed (pdp_Consumed resp) ;;
    ret (Some (mkDeleteRowResponse consumed), None)
  end.

Definition UpdateRow (X : MoreEnv) (c : TableStoreClient) (fuel : nat)
    (request : option UpdateRowRequest) : M (option UpdateRowResponse * option error) :=
  request <- deref request ;;
  change <- deref (urq_UpdateRowChange request) ;;
  let req :=
    mk_pb_UpdateRowRequest (Some (urc_TableName change))
      (UpdateRowChange_Serialize X change)
      (UpdateRowChange_getCondition X change) in
  r <- doRequest (PReq := pm_UpdateRowRequest X) (PResp := pm_UpdateRowResponse X)
         (env X) c fuel updateRowUri (Some req) (mk_pb_UpdateRowResponse None) ;;
  let '(resp, err) := r in
  match err with
  | Some err => ret (None, Some err)
  | None =>
    consumed <- read_Consumed (pup_Consumed resp) ;;
    ret (Some (mkUpdateRowResponse consumed), None)
  end.

(** ** The batch operations *)

Record MultiRowQueryCriteria : Type := mkMultiRowQueryCriteria {
  mrq_PrimaryKey : list (option PrimaryKey);
  mrq_ColumnsToGet : list string;
  mrq_TableName : string;
  mrq_MaxVersion : Z;
  mrq_Filter : option ColumnFilter
}.

Record BatchGetRowRequest : Type := mkBatchGetRowRequest {
  bgq_MultiRowQueryCriteria : list (option MultiRowQueryCriteria)
}.

(** The package's [Error] struct of a row result. *)
Record RowError : Type := mkRowError {
  re_Code : string;
  re_Message : string
}.

Record RowResult : Type := mkRowResult {
  rr_TableName : string;
  rr_IsSucceed : bool;
  rr_Error : RowError;
  rr_PrimaryKey : PrimaryKey;
  rr_Columns : list DataColumn;
  rr_ConsumedCapacityUnit : ConsumedCapacityUnit
}.

(** A [map[string][]RowResult]: the keys in the order of their first
    insertion, each with its slice. *)
Definition TableToRowsResult := list (string * list RowResult).

(** [m[k]]: nil for a key that is not there. *)
Fixpoint map_lookup (k : string) (m : TableToRowsResult) : list RowResult :=
  match m with
  | [] => []
  | (k', v) :: m' => if String.eqb k' k then v else map_lookup k m'
  end.

(** [m[k] = append(m[k], r)]. *)
Fixpoint map_append (k : string) (r : RowResult) (m : TableToRowsResult) : TableToRowsResult :=
  match m with
  | [] => [(k, [r])]
  | (k', v) :: m' =>
    if String.eqb k' k then (k', (v ++ [r])%list) :: m' else (k', v) :: map_append k r m'
  end.

Record BatchGetRowResponse : Type := mkBatchGetRowResponse {
  bgs_TableToRowsResult : TableToRowsResult
}.

(** A [RowChange] is an interface value; [api.go] calls these three
    methods on it. *)
Record RowChange : Type := mkRowChange {
  rwc_getCondition : option pb_Condition;
  rwc_Serialize : string;
  rwc_getOperationType : Z
}.

(** [RowChangesGroupByTable] is a Go map; it is given here as the pairs
    of the map in the order in which [range] visits them, which the
    language leaves open. *)
Record BatchWriteRowRequest : Type := mkBatchWriteRowRequest {
  bwq_RowChangesGroupByTable : list (string * list (option RowChange))
}.

Record BatchWriteRowResponse : Type := mkBatchWriteRowResponse {
  bws_TableToRowsResult : TableToRowsResult
}.

Record pb_TableInBatchGetRowRequest : Type := mk_pb_TableInBatchGetRowRequest {
  ptg_TableName : option string;
  ptg_PrimaryKey : list string;
  ptg_ColumnsToGet : list string;
  ptg_Filter : option string;
  ptg_MaxVersions : option Z
}.

Record pb_BatchGetRowRequest : Type := mk_pb_BatchGetRowRequest {
  pbgq_Tables : list pb_TableInBatchGetRowRequest
}.

Record pb_RowInBatchGetRowResponse : Type := mk_pb_RowInBatchGetRowResponse {
  prg_IsOk : option bool;
  prg_Error : option pb_Error;
  prg_Consumed : option pb_ConsumedCapacity;
  prg_Row : string
}.

Record pb_TableInBatchGetRowResponse : Type := mk_pb_TableInBatchGetRowResponse {
  ptgs_TableName : option string;
  ptgs_Rows : list pb_RowInBatchGetRowResponse
}.

Record pb_BatchGetRowResponse : Type := mk_pb_BatchGetRowResponse {
  pbgs_Tables : list pb_TableInBatchGetRowResponse
}.

Record pb_RowInBatchWriteRowRequest : Type := mk_pb_RowInBatchWriteRowRequest {
  prw_Type : option Z;
  prw_RowChange : string;
  prw_Condition : option pb_Condition
}.

Record pb_TableInBatchWriteRowRequest : Type := mk_pb_TableInBatchWriteRowRequest {
  ptw_TableName : option string;
  ptw_Rows : list pb_RowInBatchWriteRowRequest
}.

Record pb_BatchWriteRowRequest : Type := mk_pb_BatchWriteRowRequest {
  pbwq_Tables : list pb_TableInBatchWriteRowRequest
}.

Record pb_RowInBatchWriteRowResponse : Type := mk_pb_RowInBatchWriteRowResponse {
  prws_IsOk : option bool;
  prws_Error : option pb_Error;
  prws_Consumed : option pb_ConsumedCapacity
}.

Record pb_TableInBatchWriteRowResponse : Type := mk_pb_TableInBatchWriteRowResponse {
  ptws_TableName : option string;
  ptws_Rows : list pb_RowInBatchWriteRowResponse
}.

Record pb_BatchWriteRowResponse : Type := mk_pb_BatchWriteRowResponse {
  pbws_Tables : list pb_TableInBatchWriteRowResponse
}.

Record BatchEnv : Type := mkBatchEnv {
  more : MoreEnv;
  pm_BatchGetRowRequest : ProtoMessage pb_BatchGetRowRequest;
  pm_BatchGetRowResponse : ProtoMessage pb_BatchGetRowResponse;
  pm_BatchWriteRowRequest : ProtoMessage pb_BatchWriteRowRequest;
  pm_BatchWriteRowResponse : ProtoMessage pb_BatchWriteRowResponse
}.

Definition zero_RowError : RowError := mkRowError "" "".
Definition zero_Consumed : ConsumedCapacityUnit := mkConsumedCapacityUnit 0 0.

(** [Error{Code: *row.Error.Code, Message: *row.Error.Message}]. *)
Definition read_RowError (e : option pb_Error) : M RowError :=
  e <- deref e ;;
  message <- deref (Message e) ;;
  ret (mkRowError (Code e) message).

(** The tables of a [BatchGetRow] request (api.go:453-469). *)
Fixpoint BatchGetRow_tables (E : Env) (criteria : list (option MultiRowQueryCriteria))
    (tablesInBatch : list pb_TableInBatchGetRowRequest)
    : M (list pb_TableInBatchGetRowRequest) :=
  match criteria with
  | [] => ret tablesInBatch
  | Criteria :: rest =>
    Criteria <- deref Criteria ;;
    let filter :=
      match mrq_Filter Criteria with
      | Some filter => Some (cf_Serialize filter)
      | None => None
      end in
    let table :=
      mk_pb_TableInBatchGetRowRequest (Some (mrq_TableName Criteria))
        (map (fun pk => PrimaryKey_Build E pk false) (mrq_PrimaryKey Criteria))
        (mrq_ColumnsToGet Criteria) filter (Some (int32_of (mrq_MaxVersion Criteria))) in
    BatchGetRow_tables E rest (tablesInBatch ++ [table])%list
  end.

(** One row of a [BatchGetRow] response (api.go:482-503): [inl err] is
    [return nil, err]. *)
Definition BatchGetRow_row (E : Env) (tableName : option string)
    (row : pb_RowInBatchGetRowResponse) : M (error + RowResult) :=
  name <- deref tableName ;;
  ok <- deref (prg_IsOk row) ;;
  if negb ok then
    e <- read_RowError (prg_Error row) ;;
    ret (inr (mkRowResult name ok e (mkPrimaryKey []) [] zero_Consumed))
  else
    match readRowsWithHeader E (prg_Row row) with
    | Err err => ret (inl (ErrorText err))
    | Ok rows =>
      match rows with
      | [] => panic   (* rows[0] *)
      | row0 :: _ =>
        consumed <- read_Consumed (prg_Consumed row) ;;
        ret (inr (mkRowResult name ok zero_RowError
                    (mkPrimaryKey (map to_PrimaryKeyColumn (primaryKey row0)))
                    (map to_DataColumn (cells row0)) consumed))
      end
    end.

(** The inner loop, over the rows of one table of the response. *)
Fixpoint BatchGetRow_rows (E : Env) (tableName : option string)
    (rows : list pb_RowInBatchGetRowResponse) (results : TableToRowsResult)
    : M (error + TableToRowsResult) :=
  match rows with
  | [] => ret (inr results)
  | row :: rest =>
    r <- BatchGetRow_row E tableName row ;;
    match r with
    | inl err => ret (inl err)
    | inr rowResult =>
      BatchGetRow_rows E tableName rest
        (map_append (rr_TableName rowResult) rowResult results)
    end
  end.

(** The outer loop, over the tables of the response (api.go:480-508). *)
Fixpoint BatchGetRow_results (E : Env) (tables : list pb_TableInBatchGetRowResponse)
    (results : TableToRowsResult) : M (error + TableToRowsResult) :=
  match tables with
  | [] => ret (inr results)
  | table :: rest =>
    r <- BatchGetRow_rows E (ptgs_TableName table) (ptgs_Rows table) results ;;
    match r with
    | inl err => ret (inl err)
    | inr results => BatchGetRow_results E rest results
    end
  end.

Definition BatchGetRow (B : BatchEnv) (c : TableStoreClient) (fuel : nat)
    (request : option BatchGetRowRequest) : M (option BatchGetRowResponse * option error) :=
  request <- deref request ;;
  tables <- BatchGetRow_tables (env (more B)) (bgq_MultiRowQueryCriteria request) [] ;;
  let req := mk_pb_BatchGetRowRequest tables in
  r <- doRequest (PReq := pm_BatchGetRowRequest B) (PResp := pm_BatchGetRowResponse B)
         (env (more B)) c fuel batchGetRowUri (Some req) (mk_pb_BatchGetRowResponse []) ;;
  let '(resp, err) := r in
  match err with
  | Some err => ret (None, Some err)
  | None =>
    r <- BatchGetRow_results (env (more B)) (pbgs_Tables resp) [] ;;
    match r with
    | inl err => ret (None, Some err)
    | inr results => ret (Some (mkBatchGetRowResponse results), None)
    end
  end.

(** The rows of one table of a [BatchWriteRow] request (api.go:521-527). *)
Fixpoint BatchWriteRow_rows (value : list (option RowChange))
    (rows : list pb_RowInBatchWriteRowRequest) : M (list pb_RowInBatchWriteRowRequest) :=
  match value with
  | [] => ret rows
  | row :: rest =>
    row <- deref row ;;
    let rowInBatch :=
      mk_pb_RowInBatchWriteRowRequest (Some (rwc_getOperationType row)) (rwc_Serialize row)
        (rwc_getCondition row) in
    BatchWriteRow_rows rest (rows ++ [rowInBatch])%list
  end.

(** The tables of a [BatchWriteRow] request (api.go:517-530). *)
Fixpoint BatchWriteRow_tables (groups : list (string * list (option RowChange)))
    (tablesInBatch : list pb_TableInBatchWriteRowRequest)
    : M (list pb_TableInBatchWriteRowRequest) :=
  match groups with
  | [] => ret tablesInBatch
  | (key, value) :: rest =>
    rows <- BatchWriteRow_rows value [] ;;
    BatchWriteRow_tables rest
      (tablesInBatch ++ [mk_pb_TableInBatchWriteRowRequest (Some key) rows])%list
  end.

(** One row of a [BatchWriteRow] response (api.go:544-548). *)
Definition BatchWriteRow_row (tableName : option string)
    (row : pb_RowInBatchWriteRowResponse) : M RowResult :=
  name <- deref tableName ;;
  ok <- deref (prws_IsOk row) ;;
  consumed <- read_Consumed (prws_Consumed row) ;;
  if negb ok then
    e <- read_RowError (prws_Error row) ;;
    ret (mkRowResult name ok e (mkPrimaryKey []) [] consumed)
  else
    ret (mkRowResult name ok zero_RowError (mkPrimaryKey []) [] consumed).

Fixpoint BatchWriteRow_result_rows (tableName : option string)
    (rows : list pb_RowInBatchWriteRowResponse) (results : TableToRowsResult)
    : M TableToRowsResult :=
  match rows with
  | [] => ret results
  | row :: rest =>
    rowResult <- BatchWriteRow_row tableName row ;;
    BatchWriteRow_result_rows tableName rest
      (map_append (rr_TableName rowResult) rowResult results)
  end.

(** The loops over the response (api.go:542-571). *)
Fixpoint BatchWriteRow_results (tables : list pb_TableInBatchWriteRowResponse)
    (results : TableToRowsResult) : M TableToRowsResult :=
  match tables with
  | [] => ret results
  | table :: rest =>
    results <- BatchWriteRow_result_rows (ptws_TableName table) (ptws_Rows table) results ;;
    BatchWriteRow_results rest results
  end.

Definition BatchWriteRow (B : BatchEnv) (c : TableStoreClient) (fuel : nat)
    (request : option BatchWriteRowRequest) : M (option BatchWriteRowResponse * option error) :=
  request <- deref request ;;
  tables <- BatchWriteRow_tables (bwq_RowChangesGroupByTable request) [] ;;
  let req := mk_pb_BatchWriteRowRequest tables in
  r <- doRequest (PReq := pm_BatchWriteRowRequest B) (PResp := pm_BatchWriteRowResponse B)
         (env (more B)) c fuel batchWriteRowUri (Some req) (mk_pb_BatchWriteRowResponse []) ;;
  let '(resp, err) := r in
  match err with
  | Some err => ret (None, Some err)
  | None =>
    results <- BatchWriteRow_results (pbws_Tables resp) [] ;;
    ret (Some (mkBatchWriteRowResponse results), None)
  end.

(** ** Vocabulary for the batch operations *)

(** The rows that the tables named [t] of a response hold, in the order
    of the response. *)
Definition write_rows_named (t : string) (tables : list pb_TableInBatchWriteRowResponse)
    : list pb_RowInBatchWriteRowResponse :=
  flat_map (fun table =>
              match ptws_TableName table with
              | Some name => if String.eqb name t then ptws_Rows table else []
              | None => []
              end) tables.

Definition get_rows_named (t : string) (tables : list pb_TableInBatchGetRowResponse)
    : list pb_RowInBatchGetRowResponse :=
  flat_map (fun table =>
              match ptgs_TableName table with
              | Some name => if String.eqb name t then ptgs_Rows table else []
              | None => []
              end) tables.

(** The consumed capacity of a message, zero where it is not set. *)
Definition consumed_of (consumed : option pb_ConsumedCapacity) : ConsumedCapacityUnit :=
  match consumed with
  | Some (mk_pb_ConsumedCapacity (Some (mk_pb_CapacityUnit (Some read) (Some write)))) =>
    mkConsumedCapacityUnit read write
  | _ => zero_Consumed
  end.

(** The code and the message of a row's error. *)
Definition row_error_of (e : option pb_Error) : RowError :=
  match e with
  | Some (mk_pb_Error code (Some message)) => mkRowError code message
  | _ => zero_RowError
  end.

(** The result of a written row of the table [name]: a failed row
    carries its error, every row its consumed capacity. *)
Definition write_result_of (name : string) (row : pb_RowInBatchWriteRowResponse) : RowResult :=
  match prws_IsOk row with
  | Some false =>
    mkRowResult name false (row_error_of (prws_Error row)) (mkPrimaryKey []) []
      (consumed_of (prws_Consumed row))
  | _ =>
    mkRowResult name true zero_RowError (mkPrimaryKey []) [] (consumed_of (prws_Consumed row))
  end.

(** The result of a read row of the table [name]: a failed row carries
    its error; a row that is ok carries the key, the cells of the first
    row decoded from its buffer and its consumed capacity. *)
Definition get_result_of (E : Env) (name : string) (row : pb_RowInBatchGetRowResponse)
    : RowResult :=
  match prg_IsOk row with
  | Some false =>
    mkRowResult name false (row_error_of (prg_Error row)) (mkPrimaryKey []) [] zero_Consumed
  | _ =>
    match readRowsWithHeader E (prg_Row row) with
    | Ok (row0 :: _) =>
      mkRowResult name true zero_RowError
        (mkPrimaryKey (map to_PrimaryKeyColumn (primaryKey row0)))
        (map to_DataColumn (cells row0)) (consumed_of (prg_Consumed row))
    | _ => mkRowResult name true zero_RowError (mkPrimaryKey []) [] zero_Consumed
    end
  end.

(** A row of a write response that [BatchWriteRow] can read: [IsOk] and
    the consumed capacity are set, and a failed row has an error with a
    message. *)
Definition write_row_complete (row : pb_RowInBatchWriteRowResponse) : Prop :=
  exists ok read write,
    prws_IsOk row = Some ok /\
    prws_Consumed row =
      Some (mk_pb_ConsumedCapacity (Some (mk_pb_CapacityUnit (Some read) (Some write)))) /\
    (ok = false -> exists code message, prws_Error row = Some (mk_pb_Error code (Some message))).

(** A table of a write response that [BatchWriteRow] can read: it has
    no rows, or it has a name and each of its rows can be read. *)
Definition write_table_complete (table : pb_TableInBatchWriteRowResponse) : Prop :=
  ptws_Rows table = [] \/
  ((exists name, ptws_TableName table = Some name) /\
   Forall write_row_complete (ptws_Rows table)).

(** A row of a read response that [BatchGetRow] can read. *)
Definition get_row_complete (E : Env) (row : pb_RowInBatchGetRowResponse) : Prop :=
  (prg_IsOk row = Some false /\
   exists code message, prg_Error row = Some (mk_pb_Error code (Some message))) \/
  (prg_IsOk row = Some true /\
   (exists row0 rest, readRowsWithHeader E (prg_Row row) = Ok (row0 :: rest)) /\
   exists read write,
     prg_Consumed row =
       Some (mk_pb_ConsumedCapacity (Some (mk_pb_CapacityUnit (Some read) (Some write))))).

(** ** The simulated service for these operations *)

Definition sim_more (E : Env) : MoreEnv := {|
  env := E;
  pm_DescribeTableRequest := sim_message (mk_pb_DescribeTableRequest None);
  pm_DescribeTableResponse := sim_message (mk_pb_DescribeTableResponse None None None);
  pm_UpdateTableRequest := sim_message (mk_pb_UpdateTableRequest None None None);
  pm_UpdateTableResponse := sim_message (mk_pb_UpdateTableResponse None None);
  pm_DeleteRowRequest := sim_message (mk_pb_DeleteRowRequest None "" None);
  pm_DeleteRowResponse := sim_message (mk_pb_DeleteRowResponse None);
  pm_UpdateRowRequest := sim_message (mk_pb_UpdateRowRequest None "" None);
  pm_UpdateRowResponse := sim_message (mk_pb_UpdateRowResponse None);
  DeleteRowChange_getCondition := fun _ => None;
  UpdateRowChange_getCondition := fun _ => None;
  UpdateRowChange_Serialize := fun _ => "change"
|}.

Definition sim_batch (E : Env) (read : pb_BatchGetRowResponse)
    (written : pb_BatchWriteRowResponse) : BatchEnv := {|
  more := sim_more E;
  pm_BatchGetRowRequest := sim_message (mk_pb_BatchGetRowRequest []);
  pm_BatchGetRowResponse := sim_message read;
  pm_BatchWriteRowRequest := sim_message (mk_pb_BatchWriteRowRequest []);
  pm_BatchWriteRowResponse := sim_message written
|}.

(** The answer to a write of two rows to [t1] and one to [t2]; the
    second row of [t1] failed. *)
Definition written_rows : pb_BatchWriteRowResponse :=
  mk_pb_BatchWriteRowResponse
    [mk_pb_TableInBatchWriteRowResponse (Some "t1")
       [mk_pb_RowInBatchWriteRowResponse (Some true) None (sim_consumed 0 1);
        mk_pb_RowInBatchWriteRowResponse (Some false)
          (Some (mk_pb_Error "OTSConditionCheckFail" (Some "Condition check failed.")))
          (sim_consumed 0 0)];
     mk_pb_TableInBatchWriteRowResponse (Some "t2")
       [mk_pb_RowInBatchWriteRowResponse (Some true) None (sim_consumed 0 1)]].

(** An answer with a failed row that has no consumed capacity. *)
Definition incomplete_rows : pb_BatchWriteRowResponse :=
  mk_pb_BatchWriteRowResponse
    [mk_pb_TableInBatchWriteRowResponse (Some "t1")
       [mk_pb_RowInBatchWriteRowResponse (Some false)
          (Some (mk_pb_Error "OTSConditionCheckFail" (Some "Condition check failed.")))
          None]].

(** The answer to a read of two rows of [t1]; the second failed. *)
Definition read_rows : pb_BatchGetRowResponse :=
  mk_pb_BatchGetRowResponse
    [mk_pb_TableInBatchGetRowResponse (Some "t1")
       [mk_pb_RowInBatchGetRowResponse (Some true) None (sim_consumed 1 0) "row";
        mk_pb_RowInBatchGetRowResponse (Some false)
          (Some (mk_pb_Error "OTSParameterInvalid" (Some "bad key"))) None ""]].

Definition sim_batch_env : BatchEnv := sim_batch (sim_env served) read_rows written_rows.

Definition write_request : BatchWriteRowRequest :=
  mkBatchWriteRowRequest
    [("t1", [Some (mkRowChange None "put a" 1); Some (mkRowChange None "put b" 1)]);
     ("t2", [Some (mkRowChange None "delete c" 3)])].

Definition read_request : BatchGetRowRequest :=
  mkBatchGetRowRequest
    [Some (mkMultiRowQueryCriteria
             [Some (mkPrimaryKey [mkPrimaryKeyColumn "pk" (V_int64 1)]);
              Some (mkPrimaryKey [mkPrimaryKeyColumn "pk" (V_int64 2)])]
             [] "t1" 1 None)].

(** The schema entry that [DescribeTable] builds from a key schema of
    the response (api.go:265-271). *)
Definition entry_of (key : pb_PrimaryKeySchema) : option PrimaryKeySchema :=
  Some (mkPrimaryKeySchema (pbk_Name key) (pbk_Type key) (pbk_Option key)).

(** The answer to [DescribeTable] for a table with two key columns. *)
Definition described_table : pb_DescribeTableResponse :=
  mk_pb_DescribeTableResponse
    (Some (mk_pb_TableMeta (Some "t")
             [mk_pb_PrimaryKeySchema (Some "a") (Some 1%Z) None;
              mk_pb_PrimaryKeySchema (Some "b") (Some 2%Z) (Some 1%Z)]))
    (Some (mk_pb_ReservedThroughputDetails (Some (mk_pb_CapacityUnit (Some 5%Z) (Some 7%Z)))))
    (Some (mk_pb_TableOptions (Some (-1)%Z) (Some 3%Z))).

Definition sim_describe_env : MoreEnv := {|
  env := sim_env served;
  pm_DescribeTableRequest := sim_message (mk_pb_DescribeTableRequest None);
  pm_DescribeTableResponse := sim_message described_table;
  pm_UpdateTableRequest := sim_message (mk_pb_UpdateTableRequest None None None);
  pm_UpdateTableResponse := sim_message (mk_pb_UpdateTableResponse None None);
  pm_DeleteRowRequest := sim_message (mk_pb_DeleteRowRequest None "" None);
  pm_DeleteRowResponse := sim_message (mk_pb_DeleteRowResponse None);
  pm_UpdateRowRequest := sim_message (mk_pb_UpdateRowRequest None "" None);
  pm_UpdateRowResponse := sim_message (mk_pb_UpdateRowResponse None);
  DeleteRowChange_getCondition := fun _ => None;
  UpdateRowChange_getCondition := fun _ => None;
  UpdateRowChange_Serialize := fun _ => "change"
|}.

(** The [tsprotocol.UpdateTableRequest] that [UpdateTable] builds
    (api.go:282-296): the parts that are nil in the request are left
    out, the numbers are converted to [int32]. *)
Definition update_message (request : UpdateTableRequest) : pb_UpdateTableRequest :=
  mk_pb_UpdateTableRequest (Some (utq_TableName request))
    (match utq_ReservedThroughput request with
     | Some throughput =>
       Some (mk_pb_ReservedThroughput
               (Some (mk_pb_CapacityUnit (Some (int32_of (rt_Readcap throughput)))
                                         (Some (int32_of (rt_Writecap throughput))))))
     | None => None
     end)
    (match utq_TableOption request with
     | Some option =>
       Some (mk_pb_TableOptions (Some (int32_of (to_TimeToAlive option)))
                                (Some (int32_of (to_MaxVersion option))))
     | None => None
     end).

(** The answer to [UpdateTable], and a service that answers
    [UpdateTable], [DeleteRow] and [UpdateRow]. *)
Definition updated_table : pb_UpdateTableResponse :=
  mk_pb_UpdateTableResponse
    (Some (mk_pb_ReservedThroughputDetails (Some (mk_pb_CapacityUnit (Some 5%Z) (Some 7%Z)))))
    (Some (mk_pb_TableOptions (Some 86400%Z) (Some 3%Z))).

Definition sim_update_env : MoreEnv := {|
  env := sim_env served;
  pm_DescribeTableRequest := sim_message (mk_pb_DescribeTableRequest None);
  pm_DescribeTableResponse := sim_message (mk_pb_DescribeTableResponse None None None);
  pm_UpdateTableRequest := sim_message (mk_pb_UpdateTableRequest None None None);
  pm_UpdateTableResponse := sim_message updated_table;
  pm_DeleteRowRequest := sim_message (mk_pb_DeleteRowRequest None "" None);
  pm_DeleteRowResponse := sim_message (mk_pb_DeleteRowResponse (sim_consumed 0 1));
  pm_UpdateRowRequest := sim_message (mk_pb_UpdateRowRequest None "" None);
  pm_UpdateRowResponse := sim_message (mk_pb_UpdateRowResponse (sim_consumed 0 2));
  DeleteRowChange_getCondition := fun _ => None;
  UpdateRowChange_getCondition := fun _ => None;
  UpdateRowChange_Serialize := fun _ => "change"
|}.

Definition delete_request : DeleteRowRequest :=
  mkDeleteRowRequest (Some (mkDeleteRowChange "t" None None)).

Definition update_row_request : UpdateRowRequest :=
  mkUpdateRowRequest (Some (mkUpdateRowChange "t" None [] None)).

Definition update_table_request : UpdateTableRequest :=
  mkUpdateTableRequest "t" (Some (mkTableOption 86400 3)) None.

(** * Properties of the retrying transport *)

Local Open Scope list_scope.

Section Transport.

Variable E : Env.
Variable c : TableStoreClient.
Variables uri url : string.

Lemma attempts_post w hreq : attempts (w ++ [EvPost hreq]) = S (attempts w).
Proof.
  unfold attempts. rewrite filter_app, length_app. simpl. lia.
Qed.

Lemma attempts_sleep w ms : attempts (w ++ [EvSleep ms]) = attempts w.
Proof.
  unfold attempts. rewrite filter_app, length_app. simpl. lia.
Qed.

Lemma uint_incr_small count : (0 <= count < uint_max)%Z -> uint_incr count = (count + 1)%Z.
Proof.
  unfold uint_incr, uint_max. intros H. apply Z.mod_small. lia.
Qed.

(** The counter after [count++]. *)
Lemma uint_incr_wraps count : uint_incr count = ((count + 1) mod 2 ^ 64)%Z.
Proof. reflexivity. Qed.

Lemma uint_incr_le_max count : (uint_incr count <= uint_max)%Z.
Proof.
  unfold uint_incr, uint_max.
  pose proof (Z.mod_pos_bound (count + 1) uint_modulus) as H.
  unfold uint_modulus in *. lia.
Qed.

(** One pass of the loop written out: the request is built and signed
    from the current body and date, posted, and the answer classified. *)
Lemma doRequest_retry_unfold fuel body0 count w :
  doRequest_retry E c uri url (S fuel) body0 count w =
  match http_NewRequest_error E "POST" url with
  | Some msg => Val (inl (ErrorText msg)) w
  | None =>
    let date := time_Now_UTC_Format E w (xOtsDateFormat E) in
    match signature E (signed_headers E c date body0) uri "POST" (accessKeySecret c) with
    | Err msg => Val (inl (ErrorText msg)) w
    | Ok sign =>
      let hreq := built_request E c url body0 date sign in
      after_post E c uri url fuel count
        (fst (postReq E w hreq url)) (snd (postReq E w hreq url)) (w ++ [EvPost hreq])
    end
  end.
Proof.
  cbn [doRequest_retry].
  destruct (http_NewRequest_error E "POST" url) as [msg|]; [reflexivity|].
  unfold bind at 1, now. cbv zeta.
  change (otshead_set
            (otshead_set
               (otshead_set
                  (otshead_set
                     (otshead_set (createOtsHeaders (accessKeySecret c)) (xOtsDate E)
                        (time_Now_UTC_Format E w (xOtsDateFormat E)))
                     (xOtsApiversion E) (ApiVersion E))
                  (xOtsAccesskeyid E) (accessKeyId c))
               (xOtsContentmd5 E) (base64_EncodeToString E (md5_Sum E body0)))
            (xOtsInstanceName E) (instanceName c))
    with (signed_headers E c (time_Now_UTC_Format E w (xOtsDateFormat E)) body0).
  destruct (signature E _ uri "POST" (accessKeySecret c)) as [sign|msg]; [|reflexivity].
  unfold bind at 1, do_postReq.
  fold (built_request E c url body0 (time_Now_UTC_Format E w (xOtsDateFormat E)) sign).
  destruct (postReq E w _ url) as [body err]. reflexivity.
Qed.

(** A request built around [body] carries [body]. *)
Lemma attempt_request_body body w hreq :
  attempt_request E c uri url body w = Some hreq -> hBody hreq = body.
Proof.
  unfold attempt_request.
  destruct (http_NewRequest_error E "POST" url); [discriminate|]. cbv zeta.
  destruct (signature E _ uri "POST" (accessKeySecret c)); [|discriminate].
  intros H. inversion H. reflexivity.
Qed.

(** One pass of the loop: it ends before posting with the error of
    [http.NewRequest] or of the signer, or it posts the request it built
    and classifies the answer to it. *)
Lemma doRequest_retry_pass fuel body0 count w :
  (attempt_request E c uri url body0 w = None /\
   exists msg, doRequest_retry E c uri url (S fuel) body0 count w = Val (inl (ErrorText msg)) w) \/
  (exists hreq,
     attempt_request E c uri url body0 w = Some hreq /\
     doRequest_retry E c uri url (S fuel) body0 count w =
     after_post E c uri url fuel count
       (fst (postReq E w hreq url)) (snd (postReq E w hreq url)) (w ++ [EvPost hreq])).
Proof.
  rewrite doRequest_retry_unfold. unfold attempt_request.
  destruct (http_NewRequest_error E "POST" url) as [msg|];
    [left; split; [reflexivity | exists msg; reflexivity]|].
  cbv zeta.
  destruct (signature E _ uri "POST" (accessKeySecret c)) as [sign|msg];
    [|left; split; [reflexivity | exists msg; reflexivity]].
  right. eexists. split; reflexivity.
Qed.

(** One pass of the loop when the request can be built: it is posted and
    the answer to it is classified. *)
Lemma doRequest_retry_attempt fuel body0 count w hreq :
  attempt_request E c uri url body0 w = Some hreq ->
  doRequest_retry E c uri url (S fuel) body0 count w =
  after_post E c uri url fuel count
    (fst (postReq E w hreq url)) (snd (postReq E w hreq url)) (w ++ [EvPost hreq]).
Proof.
  intros Hreq.
  destruct (doRequest_retry_pass fuel body0 count w) as [[Hnone _] | (hreq' & Hsome & Hrun)].
  - rewrite Hnone in Hreq. discriminate Hreq.
  - rewrite Hsome in Hreq. inversion Hreq; subst. exact Hrun.
Qed.

Lemma doRequest_retry_answered fuel body0 count w hreq body err :
  answered E c uri url body0 w hreq body err ->
  doRequest_retry E c uri url (S fuel) body0 count w =
  after_post E c uri url fuel count body err (w ++ [EvPost hreq]).
Proof.
  intros [Hreq Hpost].
  rewrite (doRequest_retry_attempt fuel body0 count w hreq Hreq), Hpost. reflexivity.
Qed.

Lemma after_post_decoded fuel count body err e :
  decodes_to E body e ->
  after_post E c uri url fuel count body (Some err) =
  if is_transient (Code e) then
    (time_Sleep 10 ;;;
     if (uint_incr count <=? RetryTimes (config c))%Z then
       doRequest_retry E c uri url fuel body (uint_incr count)
     else ret (inl (Errorf (Code e))))%go
  else ret (inl (Errorf (Code e))).
Proof.
  intros [Hlen Hdec]. unfold after_post.
  apply Z.ltb_lt in Hlen. rewrite Hlen, Hdec. reflexivity.
Qed.

(** A service that is busy for good is busy for the attempts of any
    call. *)
Lemma always_transient_attempts (n : nat) :
  always_transient E c uri url ->
  forall body0 w, transient_attempts E c uri url n body0 w.
Proof.
  intros Hbusy. induction n as [|n IH]; intros body0 w;
    destruct (Hbusy w body0) as (hreq & body & err & e & Hans & Hdec & Htrans);
    exists hreq, body, err, e; cbn [transient_attempts]; auto.
Qed.

(** The loop when each of its attempts gets a transient failure: [n] is
    the budget still unused, and the loop ends after [n + 1] more
    attempts. *)
Lemma doRequest_retry_always_transient (n : nat) :
  (RetryTimes (config c) < uint_max)%Z ->
  forall fuel body0 count w,
    transient_attempts E c uri url n body0 w ->
    (0 <= count)%Z ->
    (count + Z.of_nat n = RetryTimes (config c))%Z ->
    (n < fuel)%nat ->
    exists w_last body_last hreq body err e,
      doRequest_retry E c uri url fuel body0 count w =
        Val (inl (ErrorText (Code e))) (w_last ++ [EvPost hreq; EvSleep 10]) /\
      answered E c uri url body_last w_last hreq body (Some err) /\
      decodes_to E body e /\
      is_transient (Code e) = true /\
      attempts (w_last ++ [EvPost hreq; EvSleep 10]) = (attempts w + n + 1)%nat.
Proof.
  intros Hmax.
  induction n as [|n IH]; intros fuel body0 count w Hbusy Hc Hn Hfuel;
    (destruct fuel as [|fuel]; [lia|]);
    destruct Hbusy as (hreq & body & err & e & Hans & Hdec & Htrans & Hnext);
    rewrite (doRequest_retry_answered fuel body0 count w hreq body (Some err) Hans);
    rewrite (after_post_decoded _ _ _ _ _ Hdec), Htrans;
    rewrite uint_incr_small by lia;
    unfold bind at 1, time_Sleep, emit.
  - replace (count + 1 <=? RetryTimes (config c))%Z with false
      by (symmetry; apply Z.leb_gt; lia).
    exists w, body0, hreq, body, err, e.
    rewrite <- app_assoc. cbn [app ret].
    repeat split; try assumption; try apply Hans; try apply Hdec.
    replace (w ++ [EvPost hreq; EvSleep 10]) with ((w ++ [EvPost hreq]) ++ [EvSleep 10])
      by (rewrite <- app_assoc; reflexivity).
    rewrite attempts_sleep, attempts_post. lia.
  - replace (count + 1 <=? RetryTimes (config c))%Z with true
      by (symmetry; apply Z.leb_le; lia).
    replace ((w ++ [EvPost hreq]) ++ [EvSleep 10]) with (w ++ [EvPost hreq; EvSleep 10])
      by (rewrite <- app_assoc; reflexivity).
    destruct (IH fuel body (count + 1)%Z (w ++ [EvPost hreq; EvSleep 10]) Hnext)
      as (w_last & body_last & hreq' & body' & err' & e' & Hres & Hans' & Hdec' & Htrans' & Hatt);
      try lia.
    exists w_last, body_last, hreq', body', err', e'.
    repeat split; try assumption; try apply Hans'; try apply Hdec'.
    rewrite Hatt.
    replace (w ++ [EvPost hreq; EvSleep 10]) with ((w ++ [EvPost hreq]) ++ [EvSleep 10])
      by (rewrite <- app_assoc; reflexivity).
    rewrite attempts_sleep, attempts_post. lia.
Qed.

(** The same loop with the largest budget a [uint] can hold: the counter
    wraps around before it can pass the budget, so no amount of fuel
    lets the loop end. *)
Lemma doRequest_retry_never_ends :
  always_transient E c uri url ->
  RetryTimes (config c) = uint_max ->
  forall fuel body0 count w,
    doRequest_retry E c uri url fuel body0 count w = OutOfFuel.
Proof.
  intros Hbusy Hmax.
  induction fuel as [|fuel IH]; intros body0 count w; [reflexivity|].
  destruct (Hbusy w body0) as (hreq & body & err & e & Hans & Hdec & Htrans).
  rewrite (doRequest_retry_answered fuel body0 count w hreq body (Some err) Hans).
  rewrite (after_post_decoded _ _ _ _ _ Hdec), Htrans.
  unfold bind at 1, time_Sleep, emit.
  replace (uint_incr count <=? RetryTimes (config c))%Z with true
    by (symmetry; apply Z.leb_le; rewrite Hmax; apply uint_incr_le_max).
  apply IH.
Qed.

End Transport.

(** C2, as stated, fails at the largest retry budget.  The service is
    busy on every attempt and the budget is [2^64 - 1], the largest value
    of the [uint] field [RetryTimes]: [count++] wraps to 0 before [count]
    can pass the budget, the test [count <= RetryTimes] never fails, and
    the call does not return, whatever the fuel. *)
Lemma transient_budget_never_ends_at_uint_max :
  RetryTimes (config (sim_client uint_max)) = (2 ^ 64 - 1)%Z /\
  always_transient (sim_env busy) (sim_client uint_max) listTableUri
    (endPoint (sim_client uint_max) ++ listTableUri)%string /\
  forall fuel,
    doRequest (PReq := ProtoMessage_NoMessage) (PResp := pm_ListTableResponse (sim_env busy))
      (sim_env busy) (sim_client uint_max) fuel listTableUri None
      (mk_pb_ListTableResponse []) [] = OutOfFuel.
Proof.
  assert (Hbusy : always_transient (sim_env busy) (sim_client uint_max) listTableUri
                    (endPoint (sim_client uint_max) ++ listTableUri)%string).
  { intros w body0.
    eexists _, "OTSServerBusy|try again"%string, "500"%string,
      (mk_pb_Error "OTSServerBusy" (Some "try again"%string)).
    repeat split. }
  split; [reflexivity|]. split; [exact Hbusy|].
  intros fuel. unfold doRequest. cbn [request_body]. unfold bind.
  rewrite (doRequest_retry_never_ends _ _ _ _ Hbusy eq_refl). reflexivity.
Qed.

(** C2, amended.  When each attempt of a call gets a failure whose body
    decodes to a transient code, a call with a retry budget [RetryTimes]
    below the largest [uint] returns, given fuel for [RetryTimes + 1]
    passes, after exactly [RetryTimes + 1] attempts, and the error it
    returns has as its text the code decoded from the answer to the last
    attempt. *)
Theorem doRequest_transient_budget
    {Req Resp : Type} {PReq : ProtoMessage Req} {PResp : ProtoMessage Resp}
    (E : Env) (c : TableStoreClient) (uri : string)
    (req : option Req) (resp : Resp) (body0 : string) (w : World) (fuel : nat) :
  (0 <= RetryTimes (config c) < uint_max)%Z ->
  request_body req = Ok body0 ->
  transient_attempts E c uri (endPoint c ++ uri)%string
    (Z.to_nat (RetryTimes (config c))) body0 w ->
  (Z.to_nat (RetryTimes (config c)) < fuel)%nat ->
  exists w_last body_last hreq body err e,
    doRequest E c fuel uri req resp w =
      Val (resp, Some (ErrorText (Code e))) (w_last ++ [EvPost hreq; EvSleep 10]) /\
    answered E c uri (endPoint c ++ uri)%string body_last w_last hreq body (Some err) /\
    decodes_to E body e /\
    is_transient (Code e) = true /\
    attempts (w_last ++ [EvPost hreq; EvSleep 10]) =
      (attempts w + (Z.to_nat (RetryTimes (config c)) + 1))%nat.
Proof.
  intros Hrange Hbody Hbusy Hfuel.
  destruct (doRequest_retry_always_transient E c uri (endPoint c ++ uri)%string
              (Z.to_nat (RetryTimes (config c))) (proj2 Hrange)
              fuel body0 0%Z w Hbusy)
    as (w_last & body_last & hreq & body & err & e & Hres & Hans & Hdec & Htrans & Hatt);
    try lia.
  exists w_last, body_last, hreq, body, err, e.
  repeat split; try assumption; try apply Hans; try apply Hdec; try lia.
  unfold doRequest. rewrite Hbody. unfold bind. rewrite Hres. reflexivity.
Qed.

Lemma busy_always_transient retries uri url :
  always_transient (sim_env busy) (sim_client retries) uri url.
Proof.
  intros w body0.
  eexists _, "OTSServerBusy|try again"%string, "500"%string,
    (mk_pb_Error "OTSServerBusy" (Some "try again"%string)).
  repeat split.
Qed.

Lemma doRequest_transient_budget_witness :
  exists w_last body_last hreq body err e,
    doRequest (PReq := ProtoMessage_NoMessage) (PResp := pm_ListTableResponse (sim_env busy))
      (sim_env busy) (sim_client 2) 5 listTableUri None (mk_pb_ListTableResponse []) [] =
      Val (mk_pb_ListTableResponse [], Some (ErrorText (Code e)))
          (w_last ++ [EvPost hreq; EvSleep 10]) /\
    answered (sim_env busy) (sim_client 2) listTableUri
      (endPoint (sim_client 2) ++ listTableUri)%string body_last w_last hreq body (Some err) /\
    decodes_to (sim_env busy) body e /\
    is_transient (Code e) = true /\
    attempts (w_last ++ [EvPost hreq; EvSleep 10]) = (attempts [] + (Z.to_nat 2 + 1))%nat.
Proof.
  apply (doRequest_transient_budget (sim_env busy) (sim_client 2) listTableUri
           None (mk_pb_ListTableResponse []) "" [] 5).
  - unfold uint_max, uint_modulus. simpl. lia.
  - reflexivity.
  - apply always_transient_attempts. apply busy_always_transient.
  - simpl. lia.
Defined.

(** The same call evaluated: three requests, a sleep after each, and the
    busy code as the error. *)
Example doRequest_busy_run :
  match doRequest (PReq := ProtoMessage_NoMessage)
          (PResp := pm_ListTableResponse (sim_env busy))
          (sim_env busy) (sim_client 2) 5 listTableUri None (mk_pb_ListTableResponse []) [] with
  | Val (_, err) w => (err, map is_post w)
  | _ => (None, [])
  end = (Some (ErrorText "OTSServerBusy"), [true; false; true; false; true; false]).
Proof. vm_compute. reflexivity. Qed.

(** The transient set is the two codes of the [switch] (api.go:130-133). *)
Lemma is_transient_spec code :
  is_transient code = true <-> code = "OTSServerBusy"%string \/ code = "OTSTimeout"%string.
Proof.
  unfold is_transient. rewrite orb_true_iff, !String.eqb_eq. reflexivity.
Qed.

(** An error left by the loop is the error of the call; nothing is posted
    after it. *)
Lemma doRequest_returns_loop_error
    {Req Resp : Type} {PReq : ProtoMessage Req} {PResp : ProtoMessage Resp}
    (E : Env) (c : TableStoreClient) (fuel : nat) (uri : string)
    (req : option Req) (resp : Resp) (body0 : string) (w w' : World) (err : error) :
  request_body req = Ok body0 ->
  doRequest_retry E c uri (endPoint c ++ uri)%string fuel body0 0%Z w = Val (inl err) w' ->
  doRequest E c fuel uri req resp w = Val (resp, Some err) w'.
Proof.
  intros Hbody Hloop. unfold doRequest. rewrite Hbody. unfold bind. rewrite Hloop. reflexivity.
Qed.





Lemma busy_answered retries uri url body0 w :
  answered (sim_env busy) (sim_client retries) uri url body0 w
    (built_request (sim_env busy) (sim_client retries) url body0
       "2017-01-01T00:00:00.000Z" "sign")
    "OTSServerBusy|try again" (Some "500"%string).
Proof. split; reflexivity. Qed.



(** A rejected request under a budget of two retries: one request, no
    sleep. *)
Example doRequest_rejected_run :
  match doRequest (PReq := ProtoMessage_NoMessage)
          (PResp := pm_ListTableResponse (sim_env rejected))
          (sim_env rejected) (sim_client 2) 5 listTableUri None
          (mk_pb_ListTableResponse []) [] with
  | Val (_, err) w => (err, map is_post w)
  | _ => (None, [])
  end = (Some (ErrorText "OTSParameterInvalid"), [true]).
Proof. vm_compute. reflexivity. Qed.







(** A garbled failure under a budget of one retry: two requests, no
    sleep, and a decode error in the end. *)
Example doRequest_garbled_run :
  match doRequest (PReq := ProtoMessage_NoMessage)
          (PResp := pm_ListTableResponse (sim_env garbled))
          (sim_env garbled) (sim_client 1) 5 listTableUri None
          (mk_pb_ListTableResponse []) [] with
  | Val (_, err) w => (err, map is_post w)
  | _ => (None, [])
  end = (Some (ErrorText "decode resp failed: unexpected EOF: 502: <html>"), [true; true]).
Proof. vm_compute. reflexivity. Qed.


(** * Properties of the public operations *)

Lemma deref_world {A} (p : option A) (a : A) (w w' : World) :
  deref p w = Val a w' -> w' = w /\ p = Some a.
Proof.
  destruct p; simpl; unfold ret, panic; intros H; inversion H; auto.
Qed.

Lemma read_Consumed_world consumed w a w' :
  read_Consumed consumed w = Val a w' -> w' = w.
Proof.
  unfold read_Consumed, bind. intros H.
  destruct consumed as [[[[[read|] [write|]]|]]|]; simpl in H;
    unfold ret, panic in H; inversion H; reflexivity.
Qed.

(** C1, where the code departs from it.  When the request of [ListTable]
    fails with the error [err], [ListTable] returns an empty response and
    a nil error: the caller never sees [err]. *)
Theorem ListTable_hides_request_error
    (E : Env) (c : TableStoreClient) (fuel : nat) (w w' : World)
    (resp : pb_ListTableResponse) (err : error) :
  doRequest (PReq := ProtoMessage_NoMessage) (PResp := pm_ListTableResponse E)
    E c fuel listTableUri None (mk_pb_ListTableResponse []) w = Val (resp, Some err) w' ->
  ListTable E c fuel w = Val (Some (mkListTableResponse []), None) w'.
Proof.
  intros Hreq. unfold ListTable, bind. rewrite Hreq. reflexivity.
Qed.

Lemma ListTable_hides_request_error_witness :
  exists w',
    attempts w' = 1%nat /\
    ListTable (sim_env unreachable) (sim_client 3) 5 [] =
    Val (Some (mkListTableResponse []), None) w'.
Proof.
  eexists. split; [|
    apply (ListTable_hides_request_error (sim_env unreachable) (sim_client 3) 5 [] _
             (mk_pb_ListTableResponse []) (ErrorText "connection refused"));
    vm_compute; reflexivity ].
  reflexivity.
Defined.

(** C6.  A [CreateTable] request whose table name is longer than
    [maxTableNameLength], or whose schema has no entry or more than
    [maxPrimaryKeyNum] entries, is answered with a validation error and
    the world is left as it was: nothing is posted, whatever the fuel. *)
Theorem CreateTable_rejects_before_sending
    (E : Env) (c : TableStoreClient) (fuel : nat) (w : World)
    (request : CreateTableRequest) (meta : TableMeta) :
  ctr_TableMeta request = Some meta ->
  (len (tm_TableName meta) > maxTableNameLength E)%Z \/
  List.length (tm_SchemaEntry meta) = O \/
  (Z.of_nat (List.length (tm_SchemaEntry meta)) > maxPrimaryKeyNum E)%Z ->
  exists err,
    CreateTable E c fuel (Some request) w = Val (None, Some err) w /\
    (err = errTableNameTooLong (tm_TableName meta) \/
     err = errPrimaryKeyTooMuch \/
     err = errCreateTableNoPrimaryKey).
Proof.
  intros Hmeta Hbad. unfold CreateTable.
  unfold bind at 1. cbn [deref ret]. rewrite Hmeta. unfold bind at 1. cbn [deref ret].
  destruct (Z.gtb_spec (len (tm_TableName meta)) (maxTableNameLength E)) as [Hname|Hname].
  { eexists. split; [reflexivity | auto]. }
  destruct (Z.gtb_spec (Z.of_nat (List.length (tm_SchemaEntry meta))) (maxPrimaryKeyNum E))
    as [Hmany|Hmany].
  { eexists. split; [reflexivity | auto]. }
  destruct (Z.eqb_spec (Z.of_nat (List.length (tm_SchemaEntry meta))) 0) as [Hnone|Hnone].
  { eexists. split; [reflexivity | auto]. }
  exfalso. destruct Hbad as [H | [H | H]]; lia.
Qed.

Lemma CreateTable_rejects_before_sending_witness :
  (exists err,
     CreateTable (sim_env served) (sim_client 3) 5 (Some long_name_request) [] =
       Val (None, Some err) [] /\
     (err = errTableNameTooLong "a_table_name_that_is_too_long" \/
      err = errPrimaryKeyTooMuch \/ err = errCreateTableNoPrimaryKey)) /\
  (exists err,
     CreateTable (sim_env served) (sim_client 3) 5 (Some no_key_request) [] =
       Val (None, Some err) [] /\
     (err = errTableNameTooLong "t" \/
      err = errPrimaryKeyTooMuch \/ err = errCreateTableNoPrimaryKey)).
Proof.
  split.
  - apply (CreateTable_rejects_before_sending (sim_env served) (sim_client 3) 5 []
             long_name_request
             (mkTableMeta "a_table_name_that_is_too_long"
                [Some (mkPrimaryKeySchema (Some "pk"%string) (Some 1%Z) None)]) eq_refl).
    left. reflexivity.
  - apply (CreateTable_rejects_before_sending (sim_env served) (sim_client 3) 5 []
             no_key_request (mkTableMeta "t" []) eq_refl).
    right. left. reflexivity.
Defined.

(** A request that passes the three tests is posted. *)
Example CreateTable_valid_run :
  match CreateTable (sim_env served) (sim_client 3) 5
          (Some (mkCreateTableRequest
                   (Some (mkTableMeta "t"
                            [Some (mkPrimaryKeySchema (Some "pk"%string) (Some 1%Z) None)]))
                   (Some (mkTableOption (-1) 1)) (Some (mkReservedThroughput 0 0)))) [] with
  | Val r w => (r, attempts w)
  | _ => ((None, None), O)
  end = ((Some mkCreateTableResponse, None), 1%nat).
Proof. vm_compute. reflexivity. Qed.

(** C8.  A [GetRow] request whose criteria have [MaxVersion = 0] is
    answered with [errInvalidInput] and nothing is posted, whatever the
    criteria hold as a time range: the test reads the [TimeRange] of the
    outgoing request, which is still nil. *)
Theorem GetRow_zero_MaxVersion_is_invalid
    (E : Env) (c : TableStoreClient) (fuel : nat) (w : World)
    (request : GetRowRequest) (crit : SingleRowQueryCriteria) :
  grr_SingleRowQueryCriteria request = Some crit ->
  srq_MaxVersion crit = 0%Z ->
  GetRow E c fuel (Some request) w = Val (None, Some errInvalidInput) w.
Proof.
  intros Hcrit Hzero. unfold GetRow.
  unfold bind at 1. cbn [deref ret]. rewrite Hcrit. unfold bind at 1. cbn [deref ret].
  rewrite Hzero. cbn [Z.eqb negb].
  destruct (nonempty (getColumnsToGet E crit)); reflexivity.
Qed.

Lemma GetRow_zero_MaxVersion_is_invalid_witness :
  GetRow (sim_env served) (sim_client 3) 5 (Some (mkGetRowRequest (Some timed_criteria))) [] =
  Val (None, Some errInvalidInput) [].
Proof.
  apply (GetRow_zero_MaxVersion_is_invalid (sim_env served) (sim_client 3) 5 []
           (mkGetRowRequest (Some timed_criteria)) timed_criteria eq_refl eq_refl).
Defined.

(** What the loop over the key columns leaves in
    [response.NextStartPrimaryKey]: each pass starts from a new, empty
    key, so only the last column stays. *)
Lemma GetRange_next_snoc front cell next :
  GetRange_next (front ++ [cell]) next = Some (mkPrimaryKey [to_PrimaryKeyColumn cell]).
Proof.
  revert next. induction front as [|pk front IH]; intros next; simpl.
  - reflexivity.
  - apply IH.
Qed.

Lemma GetRange_next_some pks next :
  GetRange_next pks None = Some next ->
  exists front cell, pks = front ++ [cell] /\ PrimaryKeys next = [to_PrimaryKeyColumn cell].
Proof.
  destruct pks as [|pk pks]; [discriminate|].
  destruct (@exists_last _ (pk :: pks)) as (front & cell & Hsnoc); [discriminate|].
  rewrite Hsnoc, GetRange_next_snoc.
  intros Heq. inversion Heq. exists front, cell. split; reflexivity.
Qed.

(** C9.  When [GetRange] returns a response whose [NextStartPrimaryKey]
    is not nil, the service answered with a response message whose
    next-start key decodes to at least one row; the first of these rows
    has a last key column, and the returned key holds that column and no
    other, however many columns come before it. *)
Theorem GetRange_next_start_is_last_key_column
    (E : Env) (c : TableStoreClient) (fuel : nat) (request : option GetRangeRequest)
    (w w' : World) (resp : GetRangeResponse) (err : option error) (next : PrimaryKey) :
  GetRange E c fuel request w = Val (Some resp, err) w' ->
  gns_NextStartPrimaryKey resp = Some next ->
  exists req presp row0 rest front cell,
    doRequest (PReq := pm_GetRangeRequest E) (PResp := pm_GetRangeResponse E)
      E c fuel getRangeUri (Some req) (mk_pb_GetRangeResponse None "" "") w =
      Val (presp, None) w' /\
    readRowsWithHeader E (pbs_NextStartPrimaryKey presp) = Ok (row0 :: rest) /\
    primaryKey row0 = front ++ [cell] /\
    PrimaryKeys next = [to_PrimaryKeyColumn cell].
Proof.
  unfold GetRange. intros Hrun Hnext.
  unfold bind at 1 in Hrun.
  destruct request as [request|]; cbn [deref ret panic] in Hrun; [|discriminate].
  unfold bind at 1 in Hrun.
  destruct (gnr_RangeRowQueryCriteria request) as [crit|];
    cbn [deref ret panic] in Hrun; [|discriminate].
  cbv zeta in Hrun. unfold bind at 1 in Hrun.
  match type of Hrun with
  | match doRequest E c fuel getRangeUri (Some ?r) ?z w with _ => _ end = _ =>
    exists r; destruct (doRequest E c fuel getRangeUri (Some r) z w)
      as [[presp [err0|]] w1| |] eqn:Hreq; cbv beta iota in Hrun; try discriminate Hrun
  end.
  exists presp.
  destruct (len (pbs_Rows presp) =? 0)%Z; [unfold ret in Hrun; inversion Hrun|].
  destruct (readRowsWithHeader E (pbs_Rows presp)) as [rows|msg];
    [|unfold ret in Hrun; inversion Hrun].
  unfold bind in Hrun.
  destruct (read_Consumed (pbs_Consumed presp) w1) as [consumed w2| |] eqn:Hcons;
    cbv beta iota in Hrun; try discriminate Hrun.
  apply read_Consumed_world in Hcons. subst w2.
  destruct (negb (len (pbs_NextStartPrimaryKey presp) =? 0)%Z).
  - destruct (readRowsWithHeader E (pbs_NextStartPrimaryKey presp)) as [[|row0 rest]|msg];
      unfold ret, panic in Hrun; inversion Hrun; subst.
    cbn [gns_NextStartPrimaryKey] in Hnext.
    destruct (GetRange_next_some _ _ Hnext) as (front & cell & Hkey & Hcol).
    exists row0, rest, front, cell. repeat split; try assumption; reflexivity.
  - unfold ret in Hrun. inversion Hrun; subst. discriminate Hnext.
Qed.

Lemma GetRange_next_start_is_last_key_column_witness :
  exists w' req presp row0 rest front cell,
    doRequest (PReq := pm_GetRangeRequest (sim_env served))
      (PResp := pm_GetRangeResponse (sim_env served))
      (sim_env served) (sim_client 3) 5 getRangeUri (Some req)
      (mk_pb_GetRangeResponse None "" "") [] = Val (presp, None) w' /\
    readRowsWithHeader (sim_env served) (pbs_NextStartPrimaryKey presp) = Ok (row0 :: rest) /\
    primaryKey row0 = front ++ [cell] /\
    PrimaryKeys (mkPrimaryKey [mkPrimaryKeyColumn "pk2" (V_string "b")]) =
      [to_PrimaryKeyColumn cell].
Proof.
  eexists.
  eapply (GetRange_next_start_is_last_key_column (sim_env served) (sim_client 3) 5
            (Some scan_request) []).
  - cbv. reflexivity.
  - reflexivity.
Defined.

(** The simulated next-start key has the columns [pk1] and [pk2]; the
    response keeps [pk2] alone. *)
Example GetRange_run :
  match GetRange (sim_env served) (sim_client 3) 5 (Some scan_request) [] with
  | Val (Some resp, None) _ => gns_NextStartPrimaryKey resp
  | _ => None
  end = Some (mkPrimaryKey [mkPrimaryKeyColumn "pk2" (V_string "b")]).
Proof. vm_compute. reflexivity. Qed.

(** C10.  [PutRow] on a nil request, or on a request whose
    [PutRowChange] is nil, returns a nil response and a nil error, and
    nothing is posted. *)
Theorem PutRow_nil_is_silent
    (E : Env) (c : TableStoreClient) (fuel : nat) (w : World)
    (request : option PutRowRequest) :
  request = None \/ (exists r, request = Some r /\ prr_PutRowChange r = None) ->
  PutRow E c fuel request w = Val (None, None) w.
Proof.
  intros [Hnil | (r & Hreq & Hchange)]; subst request; unfold PutRow.
  - reflexivity.
  - rewrite Hchange. reflexivity.
Qed.

Lemma PutRow_nil_is_silent_witness :
  PutRow (sim_env served) (sim_client 3) 5 None [] = Val (None, None) [] /\
  PutRow (sim_env served) (sim_client 3) 5 (Some (mkPutRowRequest None)) [] =
    Val (None, None) [].
Proof.
  split.
  - apply (PutRow_nil_is_silent (sim_env served) (sim_client 3) 5 [] None).
    left. reflexivity.
  - apply (PutRow_nil_is_silent (sim_env served) (sim_client 3) 5 []
             (Some (mkPutRowRequest None))).
    right. exists (mkPutRowRequest None). split; reflexivity.
Defined.

(** * Properties of the row codec *)

Module RowCodecFacts.

Import RowCodec.
Local Open Scope list_scope.

(** The example of the specification, run. *)
Example example_row_roundtrip : decodeRows (encodeRow example_row) = Decoded [example_row].
Proof. vm_compute. reflexivity. Qed.

Lemma le_value_le_bytes n z : le_value (le_bytes n z) = (z mod 256 ^ Z.of_nat n)%Z.
Proof.
  revert z. induction n as [|n IH]; intros z.
  - simpl. rewrite Z.mod_1_r. reflexivity.
  - cbn [le_bytes le_value]. rewrite IH.
    assert (Hb : (0 <= z mod 256 < 256)%Z) by (apply Z.mod_pos_bound; lia).
    rewrite N_ascii_embedding by lia.
    rewrite Z2N.id by lia.
    rewrite Nat2Z.inj_succ, Z.pow_succ_r by lia.
    rewrite Z.rem_mul_r by lia. reflexivity.
Qed.

Lemma length_le_bytes n z : List.length (le_bytes n z) = n.
Proof.
  revert z. induction n as [|n IH]; intros z; simpl; [reflexivity | rewrite IH; reflexivity].
Qed.

Lemma decode_encode_int64 z : int64_range z -> decode_int64 (encode_int64 z) = z.
Proof.
  unfold int64_range, decode_int64, encode_int64. intros Hz.
  rewrite le_value_le_bytes. change (256 ^ Z.of_nat 8)%Z with (2 ^ 64)%Z.
  destruct (Z.ltb_spec z 0) as [Hneg|Hpos].
  - replace (z mod 2 ^ 64)%Z with (z + 2 ^ 64)%Z
      by (apply Z.mod_unique with (q := (-1)%Z); lia).
    destruct (Z.ltb_spec (z + 2 ^ 64) (2 ^ 63)); lia.
  - rewrite Z.mod_small by lia.
    destruct (Z.ltb_spec z (2 ^ 63)); lia.
Qed.

Lemma read_bytes_exact n a rest :
  List.length a = n -> read_bytes n (a ++ rest) = Decoded (a, rest).
Proof.
  intros <-. unfold read_bytes.
  replace (List.length (a ++ rest) <? List.length a)%nat with false
    by (symmetry; apply Nat.ltb_ge; rewrite length_app; lia).
  rewrite firstn_app, Nat.sub_diag, firstn_all, firstn_O, app_nil_r.
  rewrite skipn_app, Nat.sub_diag, skipn_all, skipn_O. reflexivity.
Qed.

Lemma read_block_encode b rest :
  block_size (List.length b) -> read_block (encode_block b ++ rest) = Decoded (b, rest).
Proof.
  unfold block_size, read_block, encode_block. intros Hsize.
  rewrite <- app_assoc, read_bytes_exact by apply length_le_bytes.
  cbn [and_then]. rewrite le_value_le_bytes.
  change (256 ^ Z.of_nat 4)%Z with (2 ^ 32)%Z.
  rewrite Z.mod_small by lia. rewrite Nat2Z.id.
  apply read_bytes_exact. reflexivity.
Qed.

Lemma tag_of_tag_byte t : tag_of_byte (tag_byte t) = Some t.
Proof. destruct t; reflexivity. Qed.

Lemma tag_byte_not_end t : Ascii.eqb (tag_byte t) END_OF_SECTION = false.
Proof. destruct t; reflexivity. Qed.

Lemma length_list_ascii_of_string s :
  List.length (list_ascii_of_string s) = String.length s.
Proof.
  induction s as [|a s IH]; simpl; [reflexivity | rewrite IH; reflexivity].
Qed.

Lemma decode_pk_value_encode v :
  valid_pk_value v -> decode_pk_value (pk_type v) (pk_payload v) = Decoded v.
Proof.
  destruct v as [z|b|s| | |];
    cbn [pk_type pk_payload decode_pk_value valid_pk_value]; intros Hv; try reflexivity.
  - unfold exactly, encode_int64. rewrite length_le_bytes. cbn [Nat.eqb and_then].
    f_equal. f_equal. apply decode_encode_int64. exact Hv.
  - rewrite string_of_list_ascii_of_string. reflexivity.
Qed.

Lemma decode_cv_value_encode v :
  valid_cv_value v -> decode_cv_value (cv_type v) (cv_payload v) = Decoded v.
Proof.
  destruct v as [z|bits|[|]|b|s];
    cbn [cv_type cv_payload decode_cv_value valid_cv_value]; intros Hv; try reflexivity.
  - unfold exactly, encode_int64. rewrite length_le_bytes. cbn [Nat.eqb and_then].
    f_equal. f_equal. apply decode_encode_int64. exact Hv.
  - unfold exactly. rewrite length_le_bytes. cbn [Nat.eqb and_then].
    rewrite le_value_le_bytes. change (256 ^ Z.of_nat 8)%Z with (2 ^ 64)%Z.
    rewrite Z.mod_small by lia. reflexivity.
  - rewrite string_of_list_ascii_of_string. reflexivity.
Qed.

(** An encoded key column starts with a type tag, and the rest of it
    decodes to the column, leaving what follows. *)
Lemma decode_pk_encode c rest :
  valid_pk c ->
  exists tail,
    encode_pk c = tag_byte (pk_type (pk_value c)) :: tail /\
    decode_pk (pk_type (pk_value c)) (tail ++ rest) = Decoded (c, rest).
Proof.
  intros [Hname Hvalue]. unfold encode_pk. eexists. split; [reflexivity|].
  unfold decode_pk. rewrite <- app_assoc.
  rewrite read_block_encode by (rewrite length_list_ascii_of_string; exact Hname).
  cbn [and_then].
  rewrite read_block_encode
    by (destruct (pk_value c); simpl in *; unfold encode_int64;
        rewrite ?length_le_bytes, ?length_list_ascii_of_string;
        unfold block_size; simpl; try exact Hvalue; lia).
  cbn [and_then]. rewrite decode_pk_value_encode by exact Hvalue.
  cbn [and_then]. rewrite string_of_list_ascii_of_string.
  destruct c; reflexivity.
Qed.

Lemma decode_timestamp_encode t rest :
  match t with Some t => int64_range t | None => True end ->
  decode_timestamp (encode_timestamp t ++ rest) = Decoded (t, rest).
Proof.
  destruct t as [t|]; intros Ht; [|reflexivity].
  cbn [encode_timestamp app decode_timestamp].
  change (Ascii.eqb HAS_TIMESTAMP NO_TIMESTAMP) with false.
  change (Ascii.eqb HAS_TIMESTAMP HAS_TIMESTAMP) with true. cbv iota.
  rewrite read_bytes_exact by apply length_le_bytes.
  cbn [and_then]. rewrite decode_encode_int64 by exact Ht.
  reflexivity.
Qed.

Lemma decode_cell_encode c rest :
  valid_cell c ->
  exists tail,
    encode_cell c = tag_byte (cv_type (col_value c)) :: tail /\
    decode_cell (cv_type (col_value c)) (tail ++ rest) = Decoded (c, rest).
Proof.
  intros (Hname & Hvalue & Htime). unfold encode_cell. eexists. split; [reflexivity|].
  unfold decode_cell. rewrite <- !app_assoc.
  rewrite read_block_encode by (rewrite length_list_ascii_of_string; exact Hname).
  cbn [and_then].
  rewrite read_block_encode
    by (destruct (col_value c) as [z|bits|b|b|s]; simpl in *; unfold encode_int64;
        rewrite ?length_le_bytes, ?length_list_ascii_of_string;
        unfold block_size; simpl; try exact Hvalue; lia).
  cbn [and_then]. rewrite decode_cv_value_encode by exact Hvalue.
  cbn [and_then]. rewrite decode_timestamp_encode by exact Htime.
  cbn [and_then]. rewrite string_of_list_ascii_of_string.
  destruct c; reflexivity.
Qed.

Section Sections.

Context {A : Type}.
Variable valid : A -> Prop.
Variable type_of : A -> ValueType.
Variable encode : A -> bytes.
Variable entry : ValueType -> bytes -> decoded (A * bytes).

Hypothesis entry_encode : forall a rest,
  valid a ->
  exists tail,
    encode a = tag_byte (type_of a) :: tail /\
    entry (type_of a) (tail ++ rest) = Decoded (a, rest).

(** A section of valid entries decodes to these entries and leaves what
    follows the end-of-section marker. *)
Lemma decode_section_encode xs rest fuel :
  Forall valid xs ->
  (List.length xs <= fuel)%nat ->
  decode_section entry fuel (List.concat (map encode xs) ++ END_OF_SECTION :: rest) =
  Decoded (xs, rest).
Proof.
  intros Hvalid. revert fuel.
  induction Hvalid as [|a xs Ha Hxs IH]; intros fuel Hfuel.
  - destruct fuel; simpl; reflexivity.
  - destruct fuel as [|fuel]; [simpl in Hfuel; lia|].
    destruct (entry_encode a (List.concat (map encode xs) ++ END_OF_SECTION :: rest) Ha)
      as (tail & Henc & Hdec).
    cbn [map List.concat]. rewrite Henc, <- app_assoc. cbn [app decode_section].
    rewrite tag_byte_not_end, tag_of_tag_byte, Hdec. cbn [and_then].
    rewrite IH by (simpl in Hfuel; lia). reflexivity.
Qed.

Lemma length_section xs :
  Forall valid xs -> (List.length xs <= List.length (List.concat (map encode xs)))%nat.
Proof.
  induction 1 as [|a xs Ha Hxs IH]; simpl; [lia|].
  destruct (entry_encode a [] Ha) as (tail & Henc & _).
  rewrite length_app, Henc. simpl. lia.
Qed.

End Sections.

Lemma bytes_eqb_refl b : bytes_eqb b b = true.
Proof.
  induction b as [|x b IH]; simpl; [reflexivity | rewrite Ascii.eqb_refl, IH; reflexivity].
Qed.

(** One encoded row at the head of a buffer decodes to the row and
    leaves the rest of the buffer. *)
Lemma decode_row_encode r rest :
  valid_row r -> decode_row (encodeRow r ++ rest) = Decoded (r, rest).
Proof.
  intros [Hkey Hcols]. unfold decode_row, encodeRow.
  rewrite <- app_assoc, read_bytes_exact by reflexivity.
  cbn [and_then]. rewrite bytes_eqb_refl. cbn [negb].
  remember (checksum (encode_sections r)) as sum eqn:Hsum.
  set (cells := List.concat (map encode_cell (row_columns r))).
  set (after_key := cells ++ END_OF_SECTION :: sum :: rest).
  assert (Hbody : (encode_sections r ++ [sum]) ++ rest =
                  List.concat (map encode_pk (row_key r)) ++ END_OF_SECTION :: after_key).
  { unfold encode_sections, after_key, cells. rewrite <- !app_assoc. reflexivity. }
  assert (Htaken : firstn (List.length ((encode_sections r ++ [sum]) ++ rest) -
                           List.length (sum :: rest))
                     ((encode_sections r ++ [sum]) ++ rest) = encode_sections r).
  { rewrite <- app_assoc. cbn [app].
    replace (List.length (encode_sections r ++ sum :: rest) - List.length (sum :: rest))%nat
      with (List.length (encode_sections r)) by (rewrite length_app; simpl; lia).
    rewrite firstn_app, Nat.sub_diag, firstn_all, firstn_O, app_nil_r. reflexivity. }
  pose proof (length_section valid_pk (fun c => pk_type (pk_value c)) encode_pk decode_pk
                decode_pk_encode (row_key r) Hkey) as Hlen_key.
  pose proof (length_section valid_cell (fun c => cv_type (col_value c)) encode_cell
                decode_cell decode_cell_encode (row_columns r) Hcols) as Hlen_cells.
  fold cells in Hlen_cells.
  assert (Hpk : decode_section decode_pk (List.length ((encode_sections r ++ [sum]) ++ rest))
                  ((encode_sections r ++ [sum]) ++ rest) = Decoded (row_key r, after_key)).
  { rewrite Hbody.
    apply (decode_section_encode valid_pk (fun c => pk_type (pk_value c)) encode_pk decode_pk
             decode_pk_encode); [exact Hkey|].
    rewrite length_app. lia. }
  assert (Hcell : decode_section decode_cell (List.length after_key) after_key =
                  Decoded (row_columns r, sum :: rest)).
  { unfold after_key.
    apply (decode_section_encode valid_cell (fun c => cv_type (col_value c)) encode_cell
             decode_cell decode_cell_encode); [exact Hcols|].
    rewrite length_app. lia. }
  rewrite Hpk. cbn [and_then]. rewrite Hcell. cbn [and_then].
  rewrite Htaken, Hsum, Ascii.eqb_refl. destruct r; reflexivity.
Qed.

(** C7.  Decoding the buffer that encodes a valid row gives that row and
    no other. *)
Theorem decodeRows_encodeRow (r : Row) :
  valid_row r -> decodeRows (encodeRow r) = Decoded [r].
Proof.
  intros Hvalid. unfold decodeRows. cbn [decode_rows].
  pose proof (decode_row_encode r [] Hvalid) as Hrow.
  rewrite app_nil_r in Hrow. rewrite Hrow. reflexivity.
Qed.

Lemma example_row_valid : valid_row example_row.
Proof.
  unfold valid_row, example_row. simpl. split.
  - repeat constructor; unfold block_size, int64_range; simpl; lia.
  - repeat constructor; unfold block_size, int64_range; simpl; lia.
Qed.

Lemma decodeRows_encodeRow_witness :
  decodeRows (encodeRow example_row) = Decoded [example_row].
Proof.
  apply (decodeRows_encodeRow example_row example_row_valid).
Defined.

(** The decoder is not lenient: a buffer cut short, a flipped value
    byte, a wrong header and an unknown tag are all refused. *)
Example truncated_row_refused :
  decodeRows (removelast (encodeRow example_row)) = Failed TruncatedBuffer.
Proof. vm_compute. reflexivity. Qed.

Example corrupted_row_refused :
  decodeRows (firstn 20 (encodeRow example_row) ++ ["002"%char]
              ++ skipn 21 (encodeRow example_row)) = Failed ChecksumMismatch.
Proof. vm_compute. reflexivity. Qed.

Example wrong_header_refused :
  decodeRows ("118"%char :: tl (encodeRow example_row)) = Failed MalformedHeader.
Proof. vm_compute. reflexivity. Qed.

Example unknown_tag_refused :
  decodeRows (HEADER ++ ["100"%char; "000"%char]) = Failed UnknownTypeTag.
Proof. vm_compute. reflexivity. Qed.

(** Rows written one after the other are read back in order. *)
Lemma decode_rows_encode rows : forall r fuel,
  Forall valid_row (r :: rows) ->
  (List.length rows < fuel)%nat ->
  decode_rows fuel (List.concat (map encodeRow (r :: rows))) = Decoded (r :: rows).
Proof.
  induction rows as [|r' rows IH]; intros r fuel Hvalid Hfuel;
    (destruct fuel as [|fuel]; [lia|]); inversion Hvalid as [|? ? Hr Hrows]; subst.
  - cbn [map List.concat decode_rows]. rewrite decode_row_encode by exact Hr. reflexivity.
  - cbn [map List.concat decode_rows]. rewrite decode_row_encode by exact Hr.
    cbn [and_then].
    assert (Hnext : List.concat (map encodeRow (r' :: rows)) =
                    encodeRow r' ++ List.concat (map encodeRow rows)) by reflexivity.
    change (encodeRow r' ++ List.concat (map encodeRow rows))
      with (List.concat (map encodeRow (r' :: rows))).
    rewrite IH by (try exact Hrows; simpl in Hfuel; lia).
    cbn [and_then].
    destruct (List.concat (map encodeRow (r' :: rows))) eqn:Hbuf; [|reflexivity].
    unfold encodeRow, HEADER in Hnext. cbn [app] in Hnext. discriminate Hnext.
Qed.

End RowCodecFacts.

(** * Further properties of the retrying transport *)

Ltac bounds :=
  unfold attempts in *; cbn [filter is_post List.length slept app] in *; lia.

Section TransportMore.

Variable E : Env.
Variable c : TableStoreClient.
Variables uri url : string.

Lemma attempts_app w evs : attempts (w ++ evs) = (attempts w + attempts evs)%nat.
Proof. unfold attempts. rewrite filter_app, length_app. reflexivity. Qed.

Lemma slept_app w evs : slept (w ++ evs) = (slept w + slept evs)%Z.
Proof.
  induction w as [|[hreq|ms] w IH]; simpl; rewrite ?IH; lia.
Qed.

(** The loop from a counter that is [n] below the budget: with fuel for
    [n + 1] passes it returns, after at most [n + 1] requests and at most
    10 ms of sleep per request. *)
Lemma doRequest_retry_bounded (n : nat) :
  (RetryTimes (config c) < uint_max)%Z ->
  forall fuel body0 count w,
    (0 <= count)%Z ->
    (count + Z.of_nat n = RetryTimes (config c))%Z ->
    (n < fuel)%nat ->
    exists r evs,
      doRequest_retry E c uri url fuel body0 count w = Val r (w ++ evs) /\
      (attempts evs <= n + 1)%nat /\
      (0 <= slept evs <= 10 * Z.of_nat (attempts evs))%Z.
Proof.
  intros Hmax.
  induction n as [|n IH]; intros fuel body0 count w Hc Hn Hfuel;
    (destruct fuel as [|fuel]; [lia|]);
    (destruct (doRequest_retry_pass E c uri url fuel body0 count w)
       as [[_ [msg Hrun]] | (hreq & _ & Hrun)];
     [exists (inl (ErrorText msg)), []; rewrite app_nil_r; split; [exact Hrun | bounds]|]);
    rewrite Hrun; destruct (postReq E w hreq url) as [body [err|]]; cbn [fst snd after_post];
    try (exists (inr body), [EvPost hreq]; simpl; split; [reflexivity | bounds]);
    (destruct (0 <? len body)%Z;
     [|exists (inl (ErrorText err)), [EvPost hreq]; simpl; split; [reflexivity | bounds]]);
    rewrite uint_incr_small by lia;
    destruct (@proto_Unmarshal pb_Error (pm_Error E) body) as [e|errn].
  - destruct (is_transient (Code e)).
    + unfold bind, time_Sleep, emit.
      replace (count + 1 <=? RetryTimes (config c))%Z with false
        by (symmetry; apply Z.leb_gt; lia).
      exists (inl (Errorf (Code e))), [EvPost hreq; EvSleep 10].
      rewrite <- app_assoc. cbn [app]. split; [reflexivity | bounds].
    + exists (inl (Errorf (Code e))), [EvPost hreq]. cbn [app]. split; [reflexivity | bounds].
  - replace (count + 1 <=? RetryTimes (config c))%Z with false
      by (symmetry; apply Z.leb_gt; lia).
    eexists _, [EvPost hreq]. cbn [app]. split; [reflexivity | bounds].
  - destruct (is_transient (Code e)).
    + unfold bind, time_Sleep, emit.
      replace (count + 1 <=? RetryTimes (config c))%Z with true
        by (symmetry; apply Z.leb_le; lia).
      destruct (IH fuel body (count + 1)%Z ((w ++ [EvPost hreq]) ++ [EvSleep 10]))
        as (r & evs & Hres & Hatt & Hsl); try lia.
      exists r, (EvPost hreq :: EvSleep 10 :: evs).
      rewrite Hres, <- !app_assoc. cbn [app]. split; [reflexivity|].
      bounds.
    + exists (inl (Errorf (Code e))), [EvPost hreq]. cbn [app]. split; [reflexivity | bounds].
  - replace (count + 1 <=? RetryTimes (config c))%Z with true
      by (symmetry; apply Z.leb_le; lia).
    destruct (IH fuel body (count + 1)%Z (w ++ [EvPost hreq]))
      as (r & evs & Hres & Hatt & Hsl); try lia.
    exists r, (EvPost hreq :: evs).
    rewrite Hres, <- !app_assoc. cbn [app]. split; [reflexivity|].
    unfold attempts in *. simpl. split; lia.
Qed.

(** Whatever the loop returns, it has only added to the world the
    requests it built and 10 ms sleeps; and a fall-through with a body
    comes from an answer without error to the last request posted. *)
Lemma doRequest_retry_trace fuel :
  forall body0 count w r w',
    doRequest_retry E c uri url fuel body0 count w = Val r w' ->
    (exists evs, w' = w ++ evs /\ done_by_doRequest E c uri url w evs) /\
    (forall body, r = inr body ->
       exists w1 hreq, w' = w1 ++ [EvPost hreq] /\ postReq E w1 hreq url = (body, None)).
Proof.
  induction fuel as [|fuel IH]; intros body0 count w r w' Hrun; [discriminate Hrun|].
  destruct (doRequest_retry_pass E c uri url fuel body0 count w)
    as [[_ [msg Hpass]] | (hreq & Hbuilt & Hpass)]; rewrite Hpass in Hrun.
  { inversion Hrun; subst. split.
    - exists []. rewrite app_nil_r. split; [reflexivity | exact I].
    - intros body Hr. discriminate Hr. }
  assert (Hpost1 : exists body1, attempt_request E c uri url body1 w = Some hreq)
    by (exists body0; exact Hbuilt).
  assert (Hone : forall r0, Val r0 (w ++ [EvPost hreq]) = Val r w' ->
            (exists evs, w' = w ++ evs /\ done_by_doRequest E c uri url w evs)).
  { intros r0 Heq. inversion Heq; subst. exists [EvPost hreq].
    split; [reflexivity | split; [exact Hpost1 | exact I]]. }
  destruct (postReq E w hreq url) as [body [err|]] eqn:Hpost; cbn [fst snd after_post] in Hrun.
  2:{ split; [apply (Hone (inr body)); exact Hrun|].
      inversion Hrun; subst. intros b Hb. inversion Hb; subst.
      exists w, hreq. split; [reflexivity | exact Hpost]. }
  destruct (0 <? len body)%Z.
  2:{ split; [apply (Hone (inl (ErrorText err))); exact Hrun|].
      inversion Hrun; subst. intros b Hb. discriminate Hb. }
  destruct (@proto_Unmarshal pb_Error (pm_Error E) body) as [e|errn].
  - destruct (is_transient (Code e)).
    + unfold bind, time_Sleep, emit in Hrun.
      destruct (uint_incr count <=? RetryTimes (config c))%Z.
      * destruct (IH _ _ _ _ _ Hrun) as [(evs & Hw & Hevs) Hsucc]. split; [|exact Hsucc].
        exists (EvPost hreq :: EvSleep 10 :: evs).
        split; [rewrite Hw, <- !app_assoc; reflexivity|].
        split; [exact Hpost1|]. split; [reflexivity | exact Hevs].
      * inversion Hrun; subst. split; [|intros b Hb; discriminate Hb].
        exists [EvPost hreq; EvSleep 10].
        split; [rewrite <- app_assoc; reflexivity|].
        split; [exact Hpost1|]. split; [reflexivity | exact I].
    + split; [apply (Hone (inl (Errorf (Code e)))); exact Hrun|].
      inversion Hrun; subst. intros b Hb. discriminate Hb.
  - destruct (uint_incr count <=? RetryTimes (config c))%Z.
    + destruct (IH _ _ _ _ _ Hrun) as [(evs & Hw & Hevs) Hsucc]. split; [|exact Hsucc].
      exists (EvPost hreq :: evs).
      split; [rewrite Hw, <- !app_assoc; reflexivity|].
      split; [exact Hpost1 | exact Hevs].
    + split; [eapply Hone; exact Hrun|].
      inversion Hrun; subst. intros b Hb. discriminate Hb.
Qed.

End TransportMore.

(** X1.  For any service, a call with retry budget [RetryTimes] below the
    largest [uint] and fuel for [RetryTimes + 1] passes comes to an end,
    having posted at most [RetryTimes + 1] requests and slept at most
    10 ms per request.  Called with a response message, as by every
    operation but [DeleteTable], it returns.  Called with a nil [resp],
    as by [DeleteTable], it makes the same requests and then returns or
    panics, and it panics only on an answer without error and with a
    non-empty body to the last request. *)
Theorem doRequest_returns_within_budget
    {Req Resp : Type} {PReq : ProtoMessage Req} {PResp : ProtoMessage Resp}
    (E : Env) (c : TableStoreClient) (uri : string)
    (req : option Req) (resp : Resp) (w : World) (fuel : nat) :
  (0 <= RetryTimes (config c) < uint_max)%Z ->
  (Z.to_nat (RetryTimes (config c)) < fuel)%nat ->
  exists evs,
    (attempts evs <= Z.to_nat (RetryTimes (config c)) + 1)%nat /\
    (0 <= slept evs <= 10 * Z.of_nat (attempts evs))%Z /\
    (exists r, doRequest E c fuel uri req resp w = Val r (w ++ evs)) /\
    ((exists err, doRequest_nil E c fuel uri req w = Val err (w ++ evs)) \/
     (doRequest_nil E c fuel uri req w = Panic (w ++ evs) /\
      exists w1 hreq body,
        w ++ evs = w1 ++ [EvPost hreq] /\
        postReq E w1 hreq (endPoint c ++ uri)%string = (body, None) /\
        len body <> 0%Z)).
Proof.
  intros Hrange Hfuel. unfold doRequest, doRequest_nil.
  destruct (request_body req) as [body0|msg].
  2:{ exists []. rewrite app_nil_r. split; [bounds|]. split; [bounds|].
      split; [eexists; reflexivity | left; eexists; reflexivity]. }
  destruct (doRequest_retry_bounded E c uri (endPoint c ++ uri)%string
              (Z.to_nat (RetryTimes (config c))) (proj2 Hrange) fuel body0 0%Z w)
    as (r & evs & Hres & Hatt & Hsl); try lia.
  exists evs. split; [exact Hatt|]. split; [exact Hsl|].
  unfold bind. rewrite Hres.
  destruct r as [err|body].
  - split; [eexists; reflexivity | left; eexists; reflexivity].
  - destruct (Z.eqb_spec (len body) 0) as [Hlen|Hlen].
    + split; [eexists; reflexivity | left; eexists; reflexivity].
    + split; [destruct (proto_Unmarshal body); eexists; reflexivity|].
      right. split; [reflexivity|].
      destruct (doRequest_retry_trace E c uri _ fuel _ _ _ _ _ Hres) as [_ Hsucc].
      destruct (Hsucc body eq_refl) as (w1 & hreq & Hw & Hpost).
      exists w1, hreq, body. auto.
Qed.

Lemma doRequest_returns_within_budget_witness :
  exists evs,
    (attempts evs <= Z.to_nat (RetryTimes (config (sim_client 2))) + 1)%nat /\
    (0 <= slept evs <= 10 * Z.of_nat (attempts evs))%Z /\
    (exists r,
       doRequest (PReq := sim_message (mk_pb_DeleteTableRequest None))
         (PResp := pm_ListTableResponse (sim_env served))
         (sim_env served) (sim_client 2) 3 deleteTableUri
         (Some (mk_pb_DeleteTableRequest (Some "t"%string))) (mk_pb_ListTableResponse []) [] =
       Val r ([] ++ evs)) /\
    ((exists err,
        doRequest_nil (PReq := sim_message (mk_pb_DeleteTableRequest None))
          (sim_env served) (sim_client 2) 3 deleteTableUri
          (Some (mk_pb_DeleteTableRequest (Some "t"%string))) [] = Val err ([] ++ evs)) \/
     (doRequest_nil (PReq := sim_message (mk_pb_DeleteTableRequest None))
        (sim_env served) (sim_client 2) 3 deleteTableUri
        (Some (mk_pb_DeleteTableRequest (Some "t"%string))) [] = Panic ([] ++ evs) /\
      exists w1 hreq body,
        [] ++ evs = w1 ++ [EvPost hreq] /\
        postReq (sim_env served) w1 hreq (endPoint (sim_client 2) ++ deleteTableUri)%string =
          (body, None) /\
        len body <> 0%Z)).
Proof.
  apply (doRequest_returns_within_budget (PReq := sim_message (mk_pb_DeleteTableRequest None))
           (PResp := pm_ListTableResponse (sim_env served))
           (sim_env served) (sim_client 2) deleteTableUri
           (Some (mk_pb_DeleteTableRequest (Some "t"%string))) (mk_pb_ListTableResponse []) [] 3).
  - unfold uint_max, uint_modulus. simpl. lia.
  - simpl. lia.
Defined.

(** X2.  Whatever a call returns, all it has done to the world is to
    append events, each a sleep of 10 ms or the POST of a request that a
    pass of the loop builds at that moment: the request carries the date
    of that moment and the signature the signer gives for that date, the
    api version, the access key id, the md5 of the request's own body
    and the instance name. *)
Theorem doRequest_only_posts_signed_requests
    {Req Resp : Type} {PReq : ProtoMessage Req} {PResp : ProtoMessage Resp}
    (E : Env) (c : TableStoreClient) (uri : string)
    (req : option Req) (resp : Resp) (w w' : World) (fuel : nat)
    (r : Resp * option error) :
  doRequest E c fuel uri req resp w = Val r w' ->
  exists evs,
    w' = w ++ evs /\
    done_by_doRequest E c uri (endPoint c ++ uri)%string w evs.
Proof.
  unfold doRequest. intros Hrun.
  destruct (request_body req) as [body0|msg].
  2:{ inversion Hrun; subst. exists []. rewrite app_nil_r. split; [reflexivity | exact I]. }
  unfold bind in Hrun.
  destruct (doRequest_retry E c uri (endPoint c ++ uri)%string fuel body0 0%Z w)
    as [r0 w0| |] eqn:Hloop; try discriminate Hrun.
  destruct (doRequest_retry_trace E c uri _ fuel _ _ _ _ _ Hloop) as [Htrace _].
  assert (w' = w0); [|subst; exact Htrace].
  destruct r0 as [err|body]; [inversion Hrun; reflexivity|].
  destruct (len body =? 0)%Z; [inversion Hrun; reflexivity|].
  destruct (proto_Unmarshal body); inversion Hrun; reflexivity.
Qed.

Lemma doRequest_only_posts_signed_requests_witness :
  exists evs,
    [EvPost (built_request (sim_env garbled) (sim_client 1)
               "http://ots.example/ListTable" "" "2017-01-01T00:00:00.000Z" "sign");
     EvPost (built_request (sim_env garbled) (sim_client 1)
               "http://ots.example/ListTable" "<html>" "2017-01-01T00:00:00.000Z" "sign")] =
      [] ++ evs /\
    done_by_doRequest (sim_env garbled) (sim_client 1) listTableUri
      (endPoint (sim_client 1) ++ listTableUri)%string [] evs.
Proof.
  apply (doRequest_only_posts_signed_requests (PReq := ProtoMessage_NoMessage)
           (PResp := pm_ListTableResponse (sim_env garbled))
           (sim_env garbled) (sim_client 1) listTableUri None
           (mk_pb_ListTableResponse []) [] _ 3
           (mk_pb_ListTableResponse [],
            Some (ErrorText "decode resp failed: unexpected EOF: 502: <html>"))).
  vm_compute. reflexivity.
Defined.

(** X3.  A call returns a nil error only from an answer without error to
    the last request it posted: the response is then left as it was when
    that answer has no body, and is the message decoded from the body
    otherwise. *)
Theorem doRequest_success_comes_from_an_answer
    {Req Resp : Type} {PReq : ProtoMessage Req} {PResp : ProtoMessage Resp}
    (E : Env) (c : TableStoreClient) (uri : string)
    (req : option Req) (resp resp' : Resp) (w w' : World) (fuel : nat) :
  doRequest E c fuel uri req resp w = Val (resp', None) w' ->
  exists w1 hreq body,
    w' = w1 ++ [EvPost hreq] /\
    postReq E w1 hreq (endPoint c ++ uri)%string = (body, None) /\
    ((len body = 0 /\ resp' = resp) \/
     (0 < len body /\ proto_Unmarshal body = Ok resp'))%Z.
Proof.
  unfold doRequest. intros Hrun.
  destruct (request_body req) as [body0|msg]; [|discriminate Hrun].
  unfold bind in Hrun.
  destruct (doRequest_retry E c uri (endPoint c ++ uri)%string fuel body0 0%Z w)
    as [[err|body] w0| |] eqn:Hloop; try discriminate Hrun.
  destruct (doRequest_retry_trace E c uri _ fuel _ _ _ _ _ Hloop) as [_ Hsucc].
  destruct (Hsucc body eq_refl) as (w1 & hreq & Hw & Hpost).
  exists w1, hreq, body.
  destruct (Z.eqb_spec (len body) 0) as [Hlen|Hlen].
  - inversion Hrun; subst. repeat split; auto.
  - destruct (proto_Unmarshal body) as [decoded|msg] eqn:Hdec; inversion Hrun; subst.
    repeat split; auto. right. split; [unfold len in *; lia | reflexivity].
Qed.

Lemma doRequest_success_comes_from_an_answer_witness :
  exists w1 hreq body,
    [EvPost (built_request (sim_env served) (sim_client 2)
               "http://ots.example/ListTable" "" "2017-01-01T00:00:00.000Z" "sign")] =
      w1 ++ [EvPost hreq] /\
    postReq (sim_env served) w1 hreq (endPoint (sim_client 2) ++ listTableUri)%string =
      (body, None) /\
    ((len body = 0 /\ mk_pb_ListTableResponse [] = mk_pb_ListTableResponse []) \/
     (0 < len body /\
      @proto_Unmarshal _ (pm_ListTableResponse (sim_env served)) body =
        Ok (mk_pb_ListTableResponse [])))%Z.
Proof.
  apply (doRequest_success_comes_from_an_answer (PReq := ProtoMessage_NoMessage)
           (PResp := pm_ListTableResponse (sim_env served))
           (sim_env served) (sim_client 2) listTableUri None
           (mk_pb_ListTableResponse []) (mk_pb_ListTableResponse []) [] _ 3).
  vm_compute. reflexivity.
Defined.




(** X5.  When the first request [hreq] is answered without error by a
    body that does not decode as the response message, the call returns
    the error "decode resp failed: ..." after that one request: a
    success that cannot be read is not retried.  [resp] is then what the
    failed decoding left of it, not what it was. *)
Theorem unreadable_success_is_an_error
    {Req Resp : Type} {PReq : ProtoMessage Req} {PResp : ProtoMessage Resp}
    (E : Env) (c : TableStoreClient) (uri : string)
    (req : option Req) (resp : Resp) (w : World) (fuel : nat)
    (body0 : string) (hreq : HttpRequest) (body msg : string) :
  request_body req = Ok body0 ->
  answered E c uri (endPoint c ++ uri)%string body0 w hreq body None ->
  (0 < len body)%Z ->
  @proto_Unmarshal Resp PResp body = Err msg ->
  doRequest E c (S fuel) uri req resp w =
  Val (proto_Partial resp body, Some (ErrorText ("decode resp failed: " ++ msg)%string))
      (w ++ [EvPost hreq]).
Proof.
  intros Hbody Hans Hlen Hdec.
  unfold doRequest. rewrite Hbody. unfold bind.
  rewrite (doRequest_retry_answered E c uri _ fuel body0 0%Z w hreq body None Hans).
  cbn [after_post ret].
  replace (len body =? 0)%Z with false by (symmetry; apply Z.eqb_neq; lia).
  rewrite Hdec. reflexivity.
Qed.

Lemma served_answered retries uri url body0 w :
  answered (sim_env served) (sim_client retries) uri url body0 w
    (built_request (sim_env served) (sim_client retries) url body0
       "2017-01-01T00:00:00.000Z" "sign")
    "response" None.
Proof. split; reflexivity. Qed.

Lemma unreadable_success_is_an_error_witness :
  doRequest (PReq := ProtoMessage_NoMessage) (PResp := sim_undecodable)
    (sim_env served) (sim_client 5) (S 9) listTableUri None
    (mk_pb_ListTableResponse ["stale"%string]) [] =
  Val (mk_pb_ListTableResponse [],
       Some (ErrorText ("decode resp failed: " ++ "proto: bad wiretype")%string))
      ([] ++ [EvPost (built_request (sim_env served) (sim_client 5)
                        "http://ots.example/ListTable" "" "2017-01-01T00:00:00.000Z" "sign")]).
Proof.
  apply (unreadable_success_is_an_error (PReq := ProtoMessage_NoMessage)
           (PResp := sim_undecodable) (sim_env served) (sim_client 5) listTableUri None
           (mk_pb_ListTableResponse ["stale"%string]) [] 9 "" _ "response"
           "proto: bad wiretype"
           eq_refl (served_answered _ _ _ _ _) eq_refl eq_refl).
Defined.

(** X6.  When the request cannot be marshalled, or [http.NewRequest]
    refuses the URL, or the signer fails, the call returns that error
    and nothing is posted. *)
Theorem doRequest_fails_before_posting
    {Req Resp : Type} {PReq : ProtoMessage Req} {PResp : ProtoMessage Resp}
    (E : Env) (c : TableStoreClient) (uri : string)
    (req : option Req) (resp : Resp) (w : World) (fuel : nat) (msg : string) :
  request_body req = Err msg \/
  ((exists body0, request_body req = Ok body0) /\
   (http_NewRequest_error E "POST" (endPoint c ++ uri)%string = Some msg \/
    (http_NewRequest_error E "POST" (endPoint c ++ uri)%string = None /\
     forall h, signature E h uri "POST" (accessKeySecret c) = Err msg))) ->
  doRequest E c (S fuel) uri req resp w = Val (resp, Some (ErrorText msg)) w.
Proof.
  unfold doRequest.
  intros [Hbody | [[body0 Hbody] Hfail]]; rewrite Hbody; [reflexivity|].
  unfold bind. rewrite doRequest_retry_unfold.
  destruct Hfail as [Hnew | [Hnew Hsig]]; rewrite Hnew; [reflexivity|].
  cbv zeta. rewrite Hsig. reflexivity.
Qed.

Lemma doRequest_fails_before_posting_witness :
  doRequest (PReq := sim_unset) (PResp := pm_ListTableResponse (sim_env served))
    (sim_env served) (sim_client 5) (S 9) listTableUri (Some Unset)
    (mk_pb_ListTableResponse []) [] =
  Val (mk_pb_ListTableResponse [], Some (ErrorText "proto: required field not set")) [].
Proof.
  apply (doRequest_fails_before_posting (PReq := sim_unset)
           (PResp := pm_ListTableResponse (sim_env served))
           (sim_env served) (sim_client 5) listTableUri (Some Unset)
           (mk_pb_ListTableResponse []) [] 9 "proto: required field not set").
  left. reflexivity.
Defined.

(** X7.  The request of a retry does not carry the request body again:
    when the first request [hreq1], built around the body [body0], is
    answered with a transient failure and there is budget left, the
    second request posted is the one built around [body1], the body of
    the failed response (the source keeps both in the variable [body]),
    and it is signed over that body. *)
Theorem retry_posts_the_failed_response_body
    (E : Env) (c : TableStoreClient) (uri url : string) (fuel : nat)
    (body0 : string) (count : Z) (w : World) (hreq1 hreq2 : HttpRequest)
    (body1 err : string) (e : pb_Error) :
  answered E c uri url body0 w hreq1 body1 (Some err) ->
  decodes_to E body1 e ->
  is_transient (Code e) = true ->
  ((count + 1) mod 2 ^ 64 <= RetryTimes (config c))%Z ->
  attempt_request E c uri url body1 (w ++ [EvPost hreq1; EvSleep 10]) = Some hreq2 ->
  hBody hreq1 = body0 /\
  hBody hreq2 = body1 /\
  doRequest_retry E c uri url (S (S fuel)) body0 count w =
  after_post E c uri url fuel ((count + 1) mod 2 ^ 64)%Z
    (fst (postReq E (w ++ [EvPost hreq1; EvSleep 10]) hreq2 url))
    (snd (postReq E (w ++ [EvPost hreq1; EvSleep 10]) hreq2 url))
    (w ++ [EvPost hreq1; EvSleep 10; EvPost hreq2]).
Proof.
  intros Hans Hdec Htrans Hbudget Hsecond.
  split; [exact (attempt_request_body E c uri url _ _ _ (proj1 Hans))|].
  split; [exact (attempt_request_body E c uri url _ _ _ Hsecond)|].
  rewrite (doRequest_retry_answered E c uri url (S fuel) body0 count w hreq1 body1 (Some err)
             Hans).
  rewrite (after_post_decoded E c uri url (S fuel) count body1 err e Hdec), Htrans.
  rewrite <- (uint_incr_wraps count) in *.
  unfold bind, time_Sleep, emit. apply Z.leb_le in Hbudget. rewrite Hbudget.
  rewrite <- app_assoc in *. cbn [app] in *.
  rewrite (doRequest_retry_attempt E c uri url fuel body1 (uint_incr count) _ hreq2 Hsecond).
  rewrite <- !app_assoc. reflexivity.
Qed.

Lemma retry_posts_the_failed_response_body_witness :
  hBody (built_request (sim_env busy) (sim_client 2) "http://ots.example/PutRow" "request"
           "2017-01-01T00:00:00.000Z" "sign") = "request"%string /\
  hBody (built_request (sim_env busy) (sim_client 2) "http://ots.example/PutRow"
           "OTSServerBusy|try again" "2017-01-01T00:00:00.000Z" "sign") =
    "OTSServerBusy|try again"%string /\
  doRequest_retry (sim_env busy) (sim_client 2) putRowUri "http://ots.example/PutRow"
    (S (S 3)) "request" 0 [] =
  after_post (sim_env busy) (sim_client 2) putRowUri "http://ots.example/PutRow" 3
    ((0 + 1) mod 2 ^ 64)%Z
    (fst (postReq (sim_env busy)
            ([] ++ [EvPost (built_request (sim_env busy) (sim_client 2)
                              "http://ots.example/PutRow" "request"
                              "2017-01-01T00:00:00.000Z" "sign"); EvSleep 10])
            (built_request (sim_env busy) (sim_client 2) "http://ots.example/PutRow"
               "OTSServerBusy|try again" "2017-01-01T00:00:00.000Z" "sign")
            "http://ots.example/PutRow"))
    (snd (postReq (sim_env busy)
            ([] ++ [EvPost (built_request (sim_env busy) (sim_client 2)
                              "http://ots.example/PutRow" "request"
                              "2017-01-01T00:00:00.000Z" "sign"); EvSleep 10])
            (built_request (sim_env busy) (sim_client 2) "http://ots.example/PutRow"
               "OTSServerBusy|try again" "2017-01-01T00:00:00.000Z" "sign")
            "http://ots.example/PutRow"))
    ([] ++ [EvPost (built_request (sim_env busy) (sim_client 2)
                      "http://ots.example/PutRow" "request"
                      "2017-01-01T00:00:00.000Z" "sign");
            EvSleep 10;
            EvPost (built_request (sim_env busy) (sim_client 2) "http://ots.example/PutRow"
                      "OTSServerBusy|try again" "2017-01-01T00:00:00.000Z" "sign")]).
Proof.
  apply (retry_posts_the_failed_response_body (sim_env busy) (sim_client 2) putRowUri
           "http://ots.example/PutRow" 3 "request" 0 [] _ _ "OTSServerBusy|try again" "500"
           (mk_pb_Error "OTSServerBusy" (Some "try again"%string))
           (busy_answered _ _ _ _ _) (conj eq_refl eq_refl) eq_refl).
  - discriminate.
  - reflexivity.
Defined.

(** The bodies of the requests of a busy call: the marshalled request
    first, the failed response afterwards. *)
Example retry_bodies_run :
  match doRequest (PReq := pm_PutRowRequest (sim_env busy))
          (PResp := pm_PutRowResponse (sim_env busy))
          (sim_env busy) (sim_client 2) 5 putRowUri
          (Some (mk_pb_PutRowRequest None "" None)) (mk_pb_PutRowResponse None) [] with
  | Val _ w => map (fun e => match e with EvPost h => hBody h | EvSleep _ => "zzz" end) w
  | _ => []
  end = ["request"; "zzz"; "OTSServerBusy|try again"; "zzz"; "OTSServerBusy|try again"; "zzz"]%string.
Proof. vm_compute. reflexivity. Qed.

(** * Further properties of the public operations *)

(** The first request is answered without error and without body: the
    call returns nil and leaves [resp] as it was. *)
Lemma doRequest_empty_success
    {Req Resp : Type} {PReq : ProtoMessage Req} {PResp : ProtoMessage Resp}
    (E : Env) (c : TableStoreClient) (uri : string)
    (req : option Req) (resp : Resp) (w : World) (fuel : nat)
    (body0 : string) (hreq : HttpRequest) (body : string) :
  request_body req = Ok body0 ->
  answered E c uri (endPoint c ++ uri)%string body0 w hreq body None ->
  len body = 0%Z ->
  doRequest E c (S fuel) uri req resp w = Val (resp, None) (w ++ [EvPost hreq]).
Proof.
  intros Hbody Hans Hlen.
  unfold doRequest. rewrite Hbody. unfold bind.
  rewrite (doRequest_retry_answered E c uri _ fuel body0 0%Z w hreq body None Hans).
  cbn [after_post ret]. rewrite Hlen. reflexivity.
Qed.

(** X8.  [PutRow] reads the consumed capacity of the response without a
    test: when the request it sends is answered without error and
    without body, the response message is still empty and [PutRow]
    panics, after its request has been posted. *)
Theorem PutRow_panics_on_empty_success
    (E : Env) (c : TableStoreClient) (fuel : nat) (w : World)
    (change : PutRowChange) (cond : RowCondition)
    (body0 : string) (hreq : HttpRequest) (body : string) :
  prc_Condition change = Some cond ->
  @proto_Marshal _ (pm_PutRowRequest E) (PutRow_message E change cond) = Ok body0 ->
  answered E c putRowUri (endPoint c ++ putRowUri)%string body0 w hreq body None ->
  len body = 0%Z ->
  PutRow E c (S fuel) (Some (mkPutRowRequest (Some change))) w = Panic (w ++ [EvPost hreq]).
Proof.
  intros Hcond Hmarshal Hans Hlen. unfold PutRow. cbn [prr_PutRowChange].
  rewrite Hcond. unfold bind at 1. cbn [deref ret]. cbv zeta.
  change (mk_pb_PutRowRequest _ _ _) with (PutRow_message E change cond).
  unfold bind at 1.
  rewrite (doRequest_empty_success (PReq := pm_PutRowRequest E) (PResp := pm_PutRowResponse E)
             E c putRowUri (Some (PutRow_message E change cond)) (mk_pb_PutRowResponse None)
             w fuel body0 hreq body Hmarshal Hans Hlen).
  reflexivity.
Qed.

Lemma silent_answered retries uri url body0 w :
  answered (sim_env silent) (sim_client retries) uri url body0 w
    (built_request (sim_env silent) (sim_client retries) url body0
       "2017-01-01T00:00:00.000Z" "sign")
    "" None.
Proof. split; reflexivity. Qed.

Lemma PutRow_panics_on_empty_success_witness :
  PutRow (sim_env silent) (sim_client 3) (S 4) (Some put_request) [] =
  Panic ([] ++ [EvPost (built_request (sim_env silent) (sim_client 3)
                          "http://ots.example/PutRow" "request"
                          "2017-01-01T00:00:00.000Z" "sign")]).
Proof.
  apply (PutRow_panics_on_empty_success (sim_env silent) (sim_client 3) 4 []
           (mkPutRowChange "t" (Some (mkPrimaryKey [mkPrimaryKeyColumn "pk" (V_int64 1)]))
              [mkDataColumn "col" (V_string "v") 0] (Some (mkRowCondition 0 None)))
           (mkRowCondition 0 None) "request" _ "" eq_refl eq_refl
           (silent_answered _ _ _ _ _) eq_refl).
Defined.

(** X9.  [GetRange] never sends the columns to get: the test before the
    assignment reads the new outgoing request, so the call is the same
    whatever the criteria list as [ColumnsToGet]. *)
Theorem GetRange_ignores_ColumnsToGet
    (E : Env) (c : TableStoreClient) (fuel : nat) (w : World)
    (crit : RangeRowQueryCriteria) (columns : list string) :
  GetRange E c fuel (Some (mkGetRangeRequest (Some (with_ColumnsToGet crit columns)))) w =
  GetRange E c fuel (Some (mkGetRangeRequest (Some crit))) w.
Proof.
  unfold GetRange, with_ColumnsToGet.
  unfold bind at 1. cbn [deref ret]. unfold bind at 1. cbn [deref ret gnr_RangeRowQueryCriteria].
  unfold bind at 1. cbn [deref ret]. unfold bind at 1. cbn [deref ret gnr_RangeRowQueryCriteria].
  cbn [rrq_TableName rrq_StartPrimaryKey rrq_EndPrimaryKey rrq_MaxVersion rrq_Filter
       rrq_Direction rrq_Limit nonempty].
  reflexivity.
Qed.

(** X10.  The time range of the criteria never reaches the service: as
    long as [getColumnsToGet] does not read it, [GetRow] does the same
    whatever the criteria hold as [TimeRange]. *)
Theorem GetRow_ignores_TimeRange
    (E : Env) (c : TableStoreClient) (fuel : nat) (w : World)
    (crit : SingleRowQueryCriteria) (range : option TimeRange) :
  getColumnsToGet E (with_TimeRange crit range) = getColumnsToGet E crit ->
  GetRow E c fuel (Some (mkGetRowRequest (Some (with_TimeRange crit range)))) w =
  GetRow E c fuel (Some (mkGetRowRequest (Some crit))) w.
Proof.
  intros Hcols. unfold GetRow.
  unfold bind at 1. cbn [deref ret]. unfold bind at 1. cbn [deref ret grr_SingleRowQueryCriteria].
  unfold bind at 1. cbn [deref ret]. unfold bind at 1. cbn [deref ret grr_SingleRowQueryCriteria].
  rewrite Hcols. reflexivity.
Qed.

Lemma GetRow_ignores_TimeRange_witness :
  GetRow (sim_env served) (sim_client 3) 5
    (Some (mkGetRowRequest
             (Some (with_TimeRange versioned_criteria (Some (mkTimeRange 0 100 0)))))) [] =
  GetRow (sim_env served) (sim_client 3) 5
    (Some (mkGetRowRequest (Some versioned_criteria))) [].
Proof.
  apply (GetRow_ignores_TimeRange (sim_env served) (sim_client 3) 5 [] versioned_criteria
           (Some (mkTimeRange 0 100 0)) eq_refl).
Defined.

(** What [GetRow_send] returns with a response. *)
Lemma GetRow_send_response
    (E : Env) (c : TableStoreClient) (fuel : nat) (w w' : World)
    (crit : SingleRowQueryCriteria) (req0 : pb_GetRowRequest)
    (resp : GetRowResponse) (err : option error) :
  GetRow_send E c fuel crit req0 w = Val (Some resp, err) w' ->
  err = None /\
  exists req presp row0 rest consumed,
    doRequest (PReq := pm_GetRowRequest E) (PResp := pm_GetRowResponse E)
      E c fuel getRowUri (Some req) (mk_pb_GetRowResponse None "") w = Val (presp, None) w' /\
    readRowsWithHeader E (pbh_Row presp) = Ok (row0 :: rest) /\
    read_Consumed (pbh_Consumed presp) w' = Val consumed w' /\
    resp = mkGetRowResponse (mkPrimaryKey (map to_PrimaryKeyColumn (primaryKey row0)))
             (map to_DataColumn (cells row0)) consumed.
Proof.
  unfold GetRow_send. cbv zeta. intros Hrun. unfold bind at 1 in Hrun.
  match type of Hrun with
  | match doRequest E c fuel getRowUri (Some ?r) ?z w with _ => _ end = _ =>
    destruct (doRequest E c fuel getRowUri (Some r) z w)
      as [[presp [err0|]] w1| |] eqn:Hreq; cbv beta iota in Hrun; try discriminate Hrun
  end.
  destruct (len (pbh_Row presp) =? 0)%Z; [unfold ret in Hrun; inversion Hrun|].
  destruct (readRowsWithHeader E (pbh_Row presp)) as [[|row0 rest]|msg] eqn:Hrows;
    unfold ret, panic in Hrun; try (inversion Hrun; fail).
  unfold bind in Hrun.
  destruct (read_Consumed (pbh_Consumed presp) w1) as [consumed w2| |] eqn:Hcons;
    cbv beta iota in Hrun; try discriminate Hrun.
  pose proof (read_Consumed_world _ _ _ _ Hcons) as Hw. subst w2.
  inversion Hrun; subst.
  split; [reflexivity|]. eexists _, presp, row0, rest, consumed.
  split; [exact Hreq|]. repeat split; try reflexivity; assumption.
Qed.

(** X11.  When [GetRow] returns a response, the error is nil, the
    request was answered without error, and the response holds the key
    columns and the cells of the first row decoded from the answer, in
    their order and with their timestamps; rows after the first are
    dropped. *)
Theorem GetRow_returns_the_first_row
    (E : Env) (c : TableStoreClient) (fuel : nat) (w w' : World)
    (request : option GetRowRequest) (resp : GetRowResponse) (err : option error) :
  GetRow E c fuel request w = Val (Some resp, err) w' ->
  err = None /\
  exists req presp row0 rest consumed,
    doRequest (PReq := pm_GetRowRequest E) (PResp := pm_GetRowResponse E)
      E c fuel getRowUri (Some req) (mk_pb_GetRowResponse None "") w = Val (presp, None) w' /\
    readRowsWithHeader E (pbh_Row presp) = Ok (row0 :: rest) /\
    read_Consumed (pbh_Consumed presp) w' = Val consumed w' /\
    resp = mkGetRowResponse (mkPrimaryKey (map to_PrimaryKeyColumn (primaryKey row0)))
             (map to_DataColumn (cells row0)) consumed.
Proof.
  unfold GetRow. intros Hrun.
  unfold bind at 1 in Hrun.
  destruct request as [request|]; cbn [deref ret panic] in Hrun; [|discriminate].
  unfold bind at 1 in Hrun.
  destruct (grr_SingleRowQueryCriteria request) as [crit|];
    cbn [deref ret panic] in Hrun; [|discriminate].
  cbv zeta in Hrun.
  destruct (negb (srq_MaxVersion crit =? 0)%Z).
  - eapply GetRow_send_response. exact Hrun.
  - destruct (nonempty (getColumnsToGet E crit)); cbn [pbg_TimeRange] in Hrun;
      unfold ret in Hrun; inversion Hrun.
Qed.

Lemma GetRow_returns_the_first_row_witness :
  @None error = None /\
  exists req presp row0 rest consumed,
    doRequest (PReq := pm_GetRowRequest sim_env_row) (PResp := pm_GetRowResponse sim_env_row)
      sim_env_row (sim_client 3) 5 getRowUri (Some req) (mk_pb_GetRowResponse None "") [] =
      Val (presp, None)
          [EvPost (built_request sim_env_row (sim_client 3) "http://ots.example/GetRow"
                     "request" "2017-01-01T00:00:00.000Z" "sign")] /\
    readRowsWithHeader sim_env_row (pbh_Row presp) = Ok (row0 :: rest) /\
    read_Consumed (pbh_Consumed presp)
      [EvPost (built_request sim_env_row (sim_client 3) "http://ots.example/GetRow"
                 "request" "2017-01-01T00:00:00.000Z" "sign")] =
      Val consumed
        [EvPost (built_request sim_env_row (sim_client 3) "http://ots.example/GetRow"
                   "request" "2017-01-01T00:00:00.000Z" "sign")] /\
    mkGetRowResponse
      (mkPrimaryKey [mkPrimaryKeyColumn "pk1" (V_int64 1); mkPrimaryKeyColumn "pk2" (V_string "b")])
      [mkDataColumn "col" (V_string "v") 100] (mkConsumedCapacityUnit 1 0) =
    mkGetRowResponse (mkPrimaryKey (map to_PrimaryKeyColumn (primaryKey row0)))
      (map to_DataColumn (cells row0)) consumed.
Proof.
  apply (GetRow_returns_the_first_row sim_env_row (sim_client 3) 5 [] _
           (Some (mkGetRowRequest (Some versioned_criteria)))).
  vm_compute. reflexivity.
Defined.

(** X12.  A row that is not there is no error: when the request that
    [GetRow] sends for criteria with a [MaxVersion] is answered without
    error and the response message carries no row, [GetRow] returns a
    nil response and a nil error (the consumed capacity of the answer is
    not handed on). *)
Theorem GetRow_without_row_returns_nil
    (E : Env) (c : TableStoreClient) (fuel : nat) (w w' : World)
    (request : GetRowRequest) (crit : SingleRowQueryCriteria) (presp : pb_GetRowResponse) :
  grr_SingleRowQueryCriteria request = Some crit ->
  srq_MaxVersion crit <> 0%Z ->
  doRequest (PReq := pm_GetRowRequest E) (PResp := pm_GetRowResponse E)
    E c fuel getRowUri (Some (GetRow_message E crit)) (mk_pb_GetRowResponse None "") w =
    Val (presp, None) w' ->
  len (pbh_Row presp) = 0%Z ->
  GetRow E c fuel (Some request) w = Val (None, None) w'.
Proof.
  intros Hcrit Hversion Hreq Hrow. unfold GetRow.
  unfold bind at 1. cbn [deref ret]. rewrite Hcrit. unfold bind at 1. cbn [deref ret].
  cbv zeta.
  replace (srq_MaxVersion crit =? 0)%Z with false by (symmetry; apply Z.eqb_neq; exact Hversion).
  cbn [negb]. unfold GetRow_send. cbv zeta. unfold bind at 1.
  match goal with
  | |- context [doRequest E c fuel getRowUri (Some ?r) _ w] =>
    replace r with (GetRow_message E crit)
      by (unfold GetRow_message;
          destruct (nonempty (getColumnsToGet E crit)); destruct (srq_Filter crit);
          reflexivity)
  end.
  rewrite Hreq. cbv beta iota. rewrite Hrow. reflexivity.
Qed.

Lemma GetRow_without_row_returns_nil_witness :
  GetRow (sim_env silent) (sim_client 3) 5
    (Some (mkGetRowRequest (Some versioned_criteria))) [] =
  Val (None, None)
    [EvPost (built_request (sim_env silent) (sim_client 3) "http://ots.example/GetRow"
               "request" "2017-01-01T00:00:00.000Z" "sign")].
Proof.
  apply (GetRow_without_row_returns_nil (sim_env silent) (sim_client 3) 5 [] _
           (mkGetRowRequest (Some versioned_criteria)) versioned_criteria
           (mk_pb_GetRowResponse None "") eq_refl).
  - discriminate.
  - vm_compute. reflexivity.
  - reflexivity.
Defined.

(** X13.  A page without rows ends the scan for the caller: when the
    request that [GetRange] sends is answered without error and the
    response message carries no rows, the call returns a nil response
    and a nil error, also when the message carries a next-start key. *)
Theorem GetRange_without_rows_returns_nil
    (E : Env) (c : TableStoreClient) (fuel : nat) (w w' : World)
    (request : GetRangeRequest) (crit : RangeRowQueryCriteria) (presp : pb_GetRangeResponse) :
  gnr_RangeRowQueryCriteria request = Some crit ->
  doRequest (PReq := pm_GetRangeRequest E) (PResp := pm_GetRangeResponse E)
    E c fuel getRangeUri (Some (GetRange_message E crit)) (mk_pb_GetRangeResponse None "" "") w =
    Val (presp, None) w' ->
  len (pbs_Rows presp) = 0%Z ->
  GetRange E c fuel (Some request) w = Val (None, None) w'.
Proof.
  intros Hcrit Hreq Hrows. unfold GetRange.
  unfold bind at 1. cbn [deref ret]. rewrite Hcrit. unfold bind at 1. cbn [deref ret].
  cbv zeta. unfold bind at 1.
  change (mk_pb_GetRangeRequest _ _ _ _ _ _ _ _) with (GetRange_message E crit).
  rewrite Hreq. cbv beta iota. rewrite Hrows. reflexivity.
Qed.

Lemma GetRange_without_rows_returns_nil_witness :
  GetRange sim_env_empty_page (sim_client 3) 5 (Some scan_request) [] =
  Val (None, None)
    [EvPost (built_request sim_env_empty_page (sim_client 3) "http://ots.example/GetRange"
               "request" "2017-01-01T00:00:00.000Z" "sign")].
Proof.
  apply (GetRange_without_rows_returns_nil sim_env_empty_page (sim_client 3) 5 [] _
           scan_request
           (mkRangeRowQueryCriteria "t"
              (Some (mkPrimaryKey [mkPrimaryKeyColumn "pk1" (V_int64 0);
                                   mkPrimaryKeyColumn "pk2" (V_string "a")]))
              (Some (mkPrimaryKey [mkPrimaryKeyColumn "pk1" (V_int64 9);
                                   mkPrimaryKeyColumn "pk2" (V_string "z")]))
              [] 1 None None 0 10)
           empty_page eq_refl).
  - vm_compute. reflexivity.
  - reflexivity.
Defined.

(** X14.  When [GetRange] returns a response, the error is nil, the
    request was answered without error with a message that carries
    rows, and the response lists one row per row decoded from it, in
    the order of the buffer, each with its key columns and its cells. *)
Theorem GetRange_returns_the_rows_in_order
    (E : Env) (c : TableStoreClient) (fuel : nat) (w w' : World)
    (request : option GetRangeRequest) (resp : GetRangeResponse) (err : option error) :
  GetRange E c fuel request w = Val (Some resp, err) w' ->
  err = None /\
  exists req presp rows,
    doRequest (PReq := pm_GetRangeRequest E) (PResp := pm_GetRangeResponse E)
      E c fuel getRangeUri (Some req) (mk_pb_GetRangeResponse None "" "") w =
      Val (presp, None) w' /\
    (0 < len (pbs_Rows presp))%Z /\
    readRowsWithHeader E (pbs_Rows presp) = Ok rows /\
    gns_Rows resp = map to_Row rows /\
    read_Consumed (pbs_Consumed presp) w' = Val (gns_ConsumedCapacityUnit resp) w'.
Proof.
  unfold GetRange. intros Hrun.
  unfold bind at 1 in Hrun.
  destruct request as [request|]; cbn [deref ret panic] in Hrun; [|discriminate].
  unfold bind at 1 in Hrun.
  destruct (gnr_RangeRowQueryCriteria request) as [crit|];
    cbn [deref ret panic] in Hrun; [|discriminate].
  cbv zeta in Hrun. unfold bind at 1 in Hrun.
  match type of Hrun with
  | match doRequest E c fuel getRangeUri (Some ?r) ?z w with _ => _ end = _ =>
    destruct (doRequest E c fuel getRangeUri (Some r) z w)
      as [[presp [err0|]] w1| |] eqn:Hreq; cbv beta iota in Hrun; try discriminate Hrun
  end.
  destruct (Z.eqb_spec (len (pbs_Rows presp)) 0) as [Hlen|Hlen];
    [unfold ret in Hrun; inversion Hrun|].
  destruct (readRowsWithHeader E (pbs_Rows presp)) as [rows|msg] eqn:Hrows;
    [|unfold ret in Hrun; inversion Hrun].
  unfold bind in Hrun.
  destruct (read_Consumed (pbs_Consumed presp) w1) as [consumed w2| |] eqn:Hcons;
    cbv beta iota in Hrun; try discriminate Hrun.
  pose proof (read_Consumed_world _ _ _ _ Hcons) as Hw. subst w2.
  assert (Hpos : (0 < len (pbs_Rows presp))%Z) by (unfold len in *; lia).
  destruct (negb (len (pbs_NextStartPrimaryKey presp) =? 0)%Z).
  - destruct (readRowsWithHeader E (pbs_NextStartPrimaryKey presp)) as [[|row0 rest]|msg];
      unfold ret, panic in Hrun; inversion Hrun; subst.
    split; [reflexivity|]. eexists _, presp, rows.
    split; [exact Hreq|]. repeat split; assumption.
  - unfold ret in Hrun. inversion Hrun; subst.
    split; [reflexivity|]. eexists _, presp, rows.
    split; [exact Hreq|]. repeat split; assumption.
Qed.

Lemma GetRange_returns_the_rows_in_order_witness :
  @None error = None /\
  exists req presp rows,
    doRequest (PReq := pm_GetRangeRequest (sim_env served))
      (PResp := pm_GetRangeResponse (sim_env served))
      (sim_env served) (sim_client 3) 5 getRangeUri (Some req)
      (mk_pb_GetRangeResponse None "" "") [] =
      Val (presp, None)
          [EvPost (built_request (sim_env served) (sim_client 3) "http://ots.example/GetRange"
                     "request" "2017-01-01T00:00:00.000Z" "sign")] /\
    (0 < len (pbs_Rows presp))%Z /\
    readRowsWithHeader (sim_env served) (pbs_Rows presp) = Ok rows /\
    gns_Rows
      (mkGetRangeResponse
         [mkRow (Some (mkPrimaryKey [mkPrimaryKeyColumn "pk1" (V_int64 1);
                                     mkPrimaryKeyColumn "pk2" (V_string "b")]))
                [mkDataColumn "col" (V_string "v") 100]]
         (mkConsumedCapacityUnit 1 0)
         (Some (mkPrimaryKey [mkPrimaryKeyColumn "pk2" (V_string "b")]))) =
      map to_Row rows /\
    read_Consumed (pbs_Consumed presp)
      [EvPost (built_request (sim_env served) (sim_client 3) "http://ots.example/GetRange"
                 "request" "2017-01-01T00:00:00.000Z" "sign")] =
      Val (mkConsumedCapacityUnit 1 0)
        [EvPost (built_request (sim_env served) (sim_client 3) "http://ots.example/GetRange"
                   "request" "2017-01-01T00:00:00.000Z" "sign")].
Proof.
  apply (GetRange_returns_the_rows_in_order (sim_env served) (sim_client 3) 5 [] _
           (Some scan_request)).
  vm_compute. reflexivity.
Defined.

(** The first request is answered without error, by a body that is
    empty or decodes: the call returns nil after that one request. *)
Lemma doRequest_answered_without_error
    {Req Resp : Type} {PReq : ProtoMessage Req} {PResp : ProtoMessage Resp}
    (E : Env) (c : TableStoreClient) (uri : string)
    (req : option Req) (resp : Resp) (w : World) (fuel : nat)
    (body0 : string) (hreq : HttpRequest) (body : string) :
  request_body req = Ok body0 ->
  answered E c uri (endPoint c ++ uri)%string body0 w hreq body None ->
  len body = 0%Z \/ (exists m, @proto_Unmarshal Resp PResp body = Ok m) ->
  exists resp',
    doRequest E c (S fuel) uri req resp w = Val (resp', None) (w ++ [EvPost hreq]).
Proof.
  intros Hbody Hans Hgood.
  unfold doRequest. rewrite Hbody. unfold bind.
  rewrite (doRequest_retry_answered E c uri _ fuel body0 0%Z w hreq body None Hans).
  cbn [after_post ret].
  destruct (len body =? 0)%Z eqn:Hlen; [exists resp; reflexivity|].
  destruct Hgood as [Hzero | [m Hm]].
  - rewrite Hzero in Hlen. discriminate Hlen.
  - rewrite Hm. exists m. reflexivity.
Qed.

(** The loop over the schema: entries that are set and typed are
    converted in order; the first entry that is nil or has no [Type]
    panics. *)
Lemma CreateTable_keys_typed entries : forall acc w,
  Forall typed_entry entries ->
  CreateTable_keys entries acc w = Val (acc ++ map schema_of entries) w.
Proof.
  induction entries as [|entry entries IH]; intros acc w Htyped.
  - simpl. rewrite app_nil_r. reflexivity.
  - inversion Htyped as [|? ? (key & keyType & -> & Htype) Hrest]; subst.
    cbn [CreateTable_keys]. unfold bind at 1. cbn [deref ret].
    rewrite Htype. unfold bind at 1. cbn [deref ret map schema_of].
    rewrite Htype.
    destruct (pks_Option key); rewrite IH by exact Hrest; rewrite <- app_assoc; reflexivity.
Qed.

Lemma CreateTable_keys_untyped entries : forall acc w,
  forallb typed_entryb entries = false ->
  CreateTable_keys entries acc w = Panic w.
Proof.
  induction entries as [|entry entries IH]; intros acc w Hbad; [discriminate Hbad|].
  cbn [CreateTable_keys]. cbn [forallb] in Hbad.
  destruct entry as [key|]; [|reflexivity].
  unfold bind at 1. cbn [deref ret]. cbn [typed_entryb] in Hbad.
  destruct (pks_Type key) as [keyType|]; [|reflexivity].
  unfold bind at 1. cbn [deref ret]. cbn [andb] in Hbad.
  destruct (pks_Option key); apply IH; exact Hbad.
Qed.

(** X15.  The bounds of [CreateTable] are inclusive: a request with
    its throughput and options set, whose name is at most
    [maxTableNameLength] bytes long, with between one and
    [maxPrimaryKeyNum] schema entries, all typed, is posted; when the
    request sent is answered without error (by a body that is empty or
    decodes) the call returns an empty response and a nil error after
    that one request. *)
Theorem CreateTable_within_bounds_is_sent
    (E : Env) (c : TableStoreClient) (fuel : nat) (w : World)
    (request : CreateTableRequest) (meta : TableMeta)
    (throughput : ReservedThroughput) (option : TableOption)
    (body0 : string) (hreq : HttpRequest) (body : string) :
  ctr_TableMeta request = Some meta ->
  ctr_ReservedThroughput request = Some throughput ->
  ctr_TableOption request = Some option ->
  (len (tm_TableName meta) <= maxTableNameLength E)%Z ->
  (1 <= Z.of_nat (List.length (tm_SchemaEntry meta)) <= maxPrimaryKeyNum E)%Z ->
  Forall typed_entry (tm_SchemaEntry meta) ->
  @proto_Marshal _ (pm_CreateTableRequest E) (CreateTable_message meta throughput option) =
    Ok body0 ->
  answered E c createTableUri (endPoint c ++ createTableUri)%string body0 w hreq body None ->
  len body = 0%Z \/
    (exists m, @proto_Unmarshal _ (pm_CreateTableResponse E) body = Ok m) ->
  CreateTable E c (S fuel) (Some request) w =
  Val (Some mkCreateTableResponse, None) (w ++ [EvPost hreq]).
Proof.
  intros Hmeta Hthroughput Hoption Hname Hkeys Htyped Hmarshal Hans Hgood.
  unfold CreateTable.
  unfold bind at 1. cbn [deref ret]. rewrite Hmeta. unfold bind at 1. cbn [deref ret].
  replace (len (tm_TableName meta) >? maxTableNameLength E)%Z with false
    by (symmetry; rewrite Z.gtb_ltb; apply Z.ltb_ge; lia).
  replace (Z.of_nat (List.length (tm_SchemaEntry meta)) >? maxPrimaryKeyNum E)%Z with false
    by (symmetry; rewrite Z.gtb_ltb; apply Z.ltb_ge; lia).
  replace (Z.of_nat (List.length (tm_SchemaEntry meta)) =? 0)%Z with false
    by (symmetry; apply Z.eqb_neq; lia).
  unfold bind at 1. rewrite (CreateTable_keys_typed _ _ _ Htyped).
  rewrite Hthroughput. unfold bind at 1. cbn [deref ret].
  rewrite Hoption. unfold bind at 1. cbn [deref ret]. cbv zeta.
  cbn [app].
  change (mk_pb_CreateTableRequest _ _ _) with (CreateTable_message meta throughput option).
  destruct (doRequest_answered_without_error (PReq := pm_CreateTableRequest E)
              (PResp := pm_CreateTableResponse E) E c createTableUri
              (Some (CreateTable_message meta throughput option)) mk_pb_CreateTableResponse
              w fuel body0 hreq body Hmarshal Hans Hgood) as (resp' & Hrun).
  unfold bind at 1. rewrite Hrun. reflexivity.
Qed.

Lemma CreateTable_within_bounds_is_sent_witness :
  CreateTable (sim_env served) (sim_client 3) (S 4) (Some bound_request) [] =
  Val (Some mkCreateTableResponse, None)
    ([] ++ [EvPost (built_request (sim_env served) (sim_client 3)
                      "http://ots.example/CreateTable" "request"
                      "2017-01-01T00:00:00.000Z" "sign")]).
Proof.
  apply (CreateTable_within_bounds_is_sent (sim_env served) (sim_client 3) 4 []
           bound_request
           (mkTableMeta "12345678"
              [Some (mkPrimaryKeySchema (Some "a"%string) (Some 1%Z) None);
               Some (mkPrimaryKeySchema (Some "b"%string) (Some 2%Z) (Some 1%Z));
               Some (mkPrimaryKeySchema (Some "c"%string) (Some 3%Z) None);
               Some (mkPrimaryKeySchema (Some "d"%string) (Some 1%Z) None)])
           (mkReservedThroughput 0 0) (mkTableOption (-1) 1) "request" _ "response"
           eq_refl eq_refl eq_refl).
  - cbv. discriminate.
  - split; cbv; discriminate.
  - repeat constructor; eexists _, _; split; reflexivity.
  - reflexivity.
  - apply served_answered.
  - right. exists mk_pb_CreateTableResponse. reflexivity.
Defined.

(** X16.  A request that passes the three tests but has a schema entry
    that is nil or has no [Type] makes [CreateTable] panic, before
    anything is posted. *)
Theorem CreateTable_untyped_entry_panics
    (E : Env) (c : TableStoreClient) (fuel : nat) (w : World)
    (request : CreateTableRequest) (meta : TableMeta) :
  ctr_TableMeta request = Some meta ->
  (len (tm_TableName meta) <= maxTableNameLength E)%Z ->
  (Z.of_nat (List.length (tm_SchemaEntry meta)) <= maxPrimaryKeyNum E)%Z ->
  forallb typed_entryb (tm_SchemaEntry meta) = false ->
  CreateTable E c fuel (Some request) w = Panic w.
Proof.
  intros Hmeta Hname Hkeys Hbad. unfold CreateTable.
  unfold bind at 1. cbn [deref ret]. rewrite Hmeta. unfold bind at 1. cbn [deref ret].
  replace (len (tm_TableName meta) >? maxTableNameLength E)%Z with false
    by (symmetry; rewrite Z.gtb_ltb; apply Z.ltb_ge; lia).
  replace (Z.of_nat (List.length (tm_SchemaEntry meta)) >? maxPrimaryKeyNum E)%Z with false
    by (symmetry; rewrite Z.gtb_ltb; apply Z.ltb_ge; lia).
  replace (Z.of_nat (List.length (tm_SchemaEntry meta)) =? 0)%Z with false
    by (symmetry; apply Z.eqb_neq; destruct (tm_SchemaEntry meta); [discriminate Hbad|];
        simpl; lia).
  unfold bind at 1. rewrite (CreateTable_keys_untyped _ _ _ Hbad). reflexivity.
Qed.

Lemma CreateTable_untyped_entry_panics_witness :
  CreateTable (sim_env served) (sim_client 3) 5 (Some untyped_request) [] = Panic [].
Proof.
  apply (CreateTable_untyped_entry_panics (sim_env served) (sim_client 3) 5 []
           untyped_request
           (mkTableMeta "t"
              [Some (mkPrimaryKeySchema (Some "a"%string) (Some 1%Z) None);
               Some (mkPrimaryKeySchema (Some "b"%string) None None)]) eq_refl).
  - cbv. discriminate.
  - cbv. discriminate.
  - reflexivity.
Defined.

(** X17.  When [PutRow] returns a response, the error is nil, the
    request was answered without error, and the response carries the
    consumed read and write capacity of the answer. *)
Theorem PutRow_returns_the_consumed_capacity
    (E : Env) (c : TableStoreClient) (fuel : nat) (w w' : World)
    (request : option PutRowRequest) (resp : PutRowResponse) (err : option error) :
  PutRow E c fuel request w = Val (Some resp, err) w' ->
  err = None /\
  exists req presp,
    doRequest (PReq := pm_PutRowRequest E) (PResp := pm_PutRowResponse E)
      E c fuel putRowUri (Some req) (mk_pb_PutRowResponse None) w = Val (presp, None) w' /\
    read_Consumed (pbq_Consumed presp) w' = Val (prs_ConsumedCapacityUnit resp) w'.
Proof.
  unfold PutRow. intros Hrun.
  destruct request as [request|]; [|inversion Hrun].
  destruct (prr_PutRowChange request) as [change|]; [|inversion Hrun].
  cbv zeta in Hrun. unfold bind at 1 in Hrun.
  destruct (prc_Condition change) as [cond|]; cbn [deref ret panic] in Hrun; [|discriminate].
  unfold bind at 1 in Hrun.
  match type of Hrun with
  | match doRequest E c fuel putRowUri (Some ?r) ?z w with _ => _ end = _ =>
    destruct (doRequest E c fuel putRowUri (Some r) z w)
      as [[presp [err0|]] w1| |] eqn:Hreq; cbv beta iota in Hrun; try discriminate Hrun
  end.
  unfold bind in Hrun.
  destruct (read_Consumed (pbq_Consumed presp) w1) as [consumed w2| |] eqn:Hcons;
    cbv beta iota in Hrun; try discriminate Hrun.
  pose proof (read_Consumed_world _ _ _ _ Hcons) as Hw. subst w2.
  unfold ret in Hrun. inversion Hrun; subst.
  split; [reflexivity|]. eexists _, presp. split; [exact Hreq | exact Hcons].
Qed.

Lemma PutRow_returns_the_consumed_capacity_witness :
  @None error = None /\
  exists req presp,
    doRequest (PReq := pm_PutRowRequest sim_env_row) (PResp := pm_PutRowResponse sim_env_row)
      sim_env_row (sim_client 3) 5 putRowUri (Some req) (mk_pb_PutRowResponse None) [] =
      Val (presp, None)
          [EvPost (built_request sim_env_row (sim_client 3) "http://ots.example/PutRow"
                     "request" "2017-01-01T00:00:00.000Z" "sign")] /\
    read_Consumed (pbq_Consumed presp)
      [EvPost (built_request sim_env_row (sim_client 3) "http://ots.example/PutRow"
                 "request" "2017-01-01T00:00:00.000Z" "sign")] =
      Val (prs_ConsumedCapacityUnit (mkPutRowResponse (mkConsumedCapacityUnit 0 1)))
        [EvPost (built_request sim_env_row (sim_client 3) "http://ots.example/PutRow"
                   "request" "2017-01-01T00:00:00.000Z" "sign")].
Proof.
  apply (PutRow_returns_the_consumed_capacity sim_env_row (sim_client 3) 5 [] _
           (Some put_request)).
  vm_compute. reflexivity.
Defined.

(** * Properties of the other operations *)

(** Case analysis along a run that is known to return: the scrutinee of
    the head [match] or [if] of the hypothesis is split, impossible
    cases are closed. *)
Ltac run_step H :=
  match type of H with
  | bind _ _ _ = _ => unfold bind at 1 in H
  | ret _ _ = _ => unfold ret in H
  | panic _ = _ => discriminate H
  | deref ?p _ = _ => destruct p; cbn [deref] in H
  | match ?x with _ => _ end = _ =>
    let Hx := fresh "Hx" in destruct x eqn:Hx; cbv beta iota in H; try discriminate H
  | (match ?x with _ => _ end) _ = _ =>
    let Hx := fresh "Hx" in destruct x eqn:Hx; cbv beta iota in H; try discriminate H
  | (if ?x then _ else _) _ = _ =>
    let Hx := fresh "Hx" in destruct x eqn:Hx; cbv beta iota in H; try discriminate H
  | (let '(_, _) := ?x in _) _ = _ =>
    destruct x; cbv beta iota in H
  end.

Ltac run_all H := cbv zeta in H; repeat run_step H.

Lemma read_Details_world details w a w' :
  read_Details details w = Val a w' -> w' = w.
Proof.
  unfold read_Details, bind. intros H.
  destruct details as [[[[[read|] [write|]]|]]|]; simpl in H;
    unfold ret, panic in H; inversion H; reflexivity.
Qed.

(** X18.  [DescribeTable] and [UpdateTable] are the two operations that
    hand back a response with an error: whenever one of them returns an
    error, the response is not nil and is empty. *)
Theorem DescribeTable_UpdateTable_error_has_empty_response
    (X : MoreEnv) (c : TableStoreClient) (fuel : nat) (w : World) :
  (forall request r err w',
     DescribeTable X c fuel request w = Val (r, Some err) w' ->
     r = Some (mkDescribeTableResponse None None None)) /\
  (forall request r err w',
     UpdateTable X c fuel request w = Val (r, Some err) w' ->
     r = Some (mkUpdateTableResponse None None)).
Proof.
  split; intros request r err w' Hrun.
  - unfold DescribeTable in Hrun. run_all Hrun; inversion Hrun; reflexivity.
  - unfold UpdateTable in Hrun. run_all Hrun; inversion Hrun; reflexivity.
Qed.

(** X19.  The other operations never hand back a response together
    with an error: whenever one of them returns an error, its response
    is nil, so no partial result comes with a failure. *)
Theorem error_comes_without_response
    (B : BatchEnv) (c : TableStoreClient) (fuel : nat) (w : World) :
  let X := more B in
  let E := env X in
  (forall request r err w',
     CreateTable E c fuel request w = Val (r, Some err) w' -> r = None) /\
  (forall request r err w',
     PutRow E c fuel request w = Val (r, Some err) w' -> r = None) /\
  (forall request r err w',
     GetRow E c fuel request w = Val (r, Some err) w' -> r = None) /\
  (forall request r err w',
     GetRange E c fuel request w = Val (r, Some err) w' -> r = None) /\
  (forall request r err w',
     DeleteRow X c fuel request w = Val (r, Some err) w' -> r = None) /\
  (forall request r err w',
     UpdateRow X c fuel request w = Val (r, Some err) w' -> r = None) /\
  (forall request r err w',
     BatchGetRow B c fuel request w = Val (r, Some err) w' -> r = None) /\
  (forall request r err w',
     BatchWriteRow B c fuel request w = Val (r, Some err) w' -> r = None).
Proof.
  cbv zeta. repeat split; intros request r err w' Hrun.
  - unfold CreateTable in Hrun. run_all Hrun; inversion Hrun; reflexivity.
  - unfold PutRow in Hrun. run_all Hrun; inversion Hrun; reflexivity.
  - unfold GetRow, GetRow_send in Hrun. run_all Hrun; inversion Hrun; reflexivity.
  - unfold GetRange in Hrun. run_all Hrun; inversion Hrun; reflexivity.
  - unfold DeleteRow in Hrun. run_all Hrun; inversion Hrun; reflexivity.
  - unfold UpdateRow in Hrun. run_all Hrun; inversion Hrun; reflexivity.
  - unfold BatchGetRow in Hrun. run_all Hrun; inversion Hrun; reflexivity.
  - unfold BatchWriteRow in Hrun. run_all Hrun; inversion Hrun; reflexivity.
Qed.

(** X20.  The key schema goes through [CreateTable] and [DescribeTable]
    unchanged: the entries of a request, all set and typed, are sent as
    as many key schemas in the same order, and [DescribeTable] reads
    these key schemas back as the same entries. *)
Theorem schema_entries_round_trip
    (entries : list (option PrimaryKeySchema)) (w : World) :
  Forall typed_entry entries ->
  CreateTable_keys entries [] w = Val (map schema_of entries) w /\
  DescribeTable_keys (map schema_of entries) [] w = Val entries w.
Proof.
  intros Htyped. split; [apply (CreateTable_keys_typed entries [] w Htyped)|].
  assert (Hgen : forall acc,
            DescribeTable_keys (map schema_of entries) acc w = Val (acc ++ entries) w);
    [|apply (Hgen [])].
  induction Htyped as [|entry entries (key & keyType & -> & Htype) Hrest IH]; intros acc.
  - simpl. rewrite app_nil_r. reflexivity.
  - cbn [map schema_of DescribeTable_keys pbk_Type pbk_Option pbk_Name].
    rewrite Htype. unfold bind at 1. cbn [deref ret].
    destruct key as [name type option]. cbn [pks_Type pks_Option pks_Name] in *. subst type.
    destruct option; rewrite IH, <- app_assoc; reflexivity.
Qed.

Lemma schema_entries_round_trip_witness :
  CreateTable_keys
    [Some (mkPrimaryKeySchema (Some "a"%string) (Some 1%Z) None);
     Some (mkPrimaryKeySchema (Some "b"%string) (Some 2%Z) (Some 1%Z))] [] [] =
    Val (map schema_of
           [Some (mkPrimaryKeySchema (Some "a"%string) (Some 1%Z) None);
            Some (mkPrimaryKeySchema (Some "b"%string) (Some 2%Z) (Some 1%Z))]) [] /\
  DescribeTable_keys
    (map schema_of
       [Some (mkPrimaryKeySchema (Some "a"%string) (Some 1%Z) None);
        Some (mkPrimaryKeySchema (Some "b"%string) (Some 2%Z) (Some 1%Z))]) [] [] =
    Val [Some (mkPrimaryKeySchema (Some "a"%string) (Some 1%Z) None);
         Some (mkPrimaryKeySchema (Some "b"%string) (Some 2%Z) (Some 1%Z))] [].
Proof.
  apply (schema_entries_round_trip
           [Some (mkPrimaryKeySchema (Some "a"%string) (Some 1%Z) None);
            Some (mkPrimaryKeySchema (Some "b"%string) (Some 2%Z) (Some 1%Z))] []).
  repeat constructor; eexists _, _; split; reflexivity.
Defined.

(** Appending under a key changes what is found under that key only. *)
Lemma map_lookup_append t k r m :
  map_lookup t (map_append k r m) =
  if String.eqb k t then map_lookup t m ++ [r] else map_lookup t m.
Proof.
  induction m as [|[k' v] m IH]; cbn [map_append map_lookup].
  - destruct (String.eqb k t); reflexivity.
  - destruct (String.eqb_spec k' k) as [->|Hk]; cbn [map_lookup].
    + destruct (String.eqb k t); reflexivity.
    + destruct (String.eqb_spec k' t) as [->|Ht].
      * destruct (String.eqb_spec k t) as [->|_]; [congruence | reflexivity].
      * exact IH.
Qed.

Lemma read_RowError_world e w a w' :
  read_RowError e w = Val a w' -> w' = w /\ a = row_error_of e.
Proof.
  unfold read_RowError, bind. intros H.
  destruct e as [[code [message|]]|]; simpl in H; unfold ret, panic in H; inversion H.
  split; reflexivity.
Qed.

Lemma read_Consumed_value consumed w a w' :
  read_Consumed consumed w = Val a w' ->
  a = consumed_of consumed /\
  exists read write,
    consumed = Some (mk_pb_ConsumedCapacity (Some (mk_pb_CapacityUnit (Some read) (Some write)))).
Proof.
  unfold read_Consumed, bind. intros H.
  destruct consumed as [[[[[read|] [write|]]|]]|]; simpl in H;
    unfold ret, panic in H; inversion H.
  split; [reflexivity | eauto].
Qed.

(** One row of a write response: the run returns only for a complete
    row, with the world as it was and the result of the row. *)
Lemma BatchWriteRow_row_value tableName row w r w' :
  BatchWriteRow_row tableName row w = Val r w' ->
  w' = w /\ write_row_complete row /\
  exists name, tableName = Some name /\ r = write_result_of name row.
Proof.
  unfold BatchWriteRow_row. intros Hrun.
  unfold bind at 1 in Hrun. destruct tableName as [name|]; cbn [deref ret panic] in Hrun;
    [|discriminate].
  unfold bind at 1 in Hrun. destruct (prws_IsOk row) as [ok|] eqn:Hok;
    cbn [deref ret panic] in Hrun; [|discriminate].
  unfold bind at 1 in Hrun.
  destruct (read_Consumed (prws_Consumed row) w) as [consumed w1| |] eqn:Hcons;
    try discriminate Hrun.
  pose proof (read_Consumed_world _ _ _ _ Hcons) as Hw. subst w1.
  destruct (read_Consumed_value _ _ _ _ Hcons) as (Hcv & read & write & Hc).
  unfold write_row_complete, write_result_of. rewrite Hok.
  destruct ok; cbn [negb] in Hrun.
  - unfold ret in Hrun. inversion Hrun; subst.
    split; [reflexivity|]. split; [|exists name; split; reflexivity].
    exists true, read, write. repeat split; try assumption. discriminate.
  - unfold bind in Hrun.
    destruct (read_RowError (prws_Error row) w) as [e w1| |] eqn:Herr; try discriminate Hrun.
    destruct (read_RowError_world _ _ _ _ Herr) as [Hw He]. subst w1 e.
    unfold ret in Hrun. inversion Hrun; subst.
    split; [reflexivity|]. split; [|exists name; split; reflexivity].
    exists false, read, write. repeat split; try assumption.
    intros _. unfold read_RowError, bind in Herr.
    destruct (prws_Error row) as [[code [message|]]|]; simpl in Herr;
      unfold ret, panic in Herr; try discriminate Herr.
    exists code, message. reflexivity.
Qed.

Lemma BatchWriteRow_result_rows_value tableName rows : forall results w results' w',
  BatchWriteRow_result_rows tableName rows results w = Val results' w' ->
  w' = w /\ Forall write_row_complete rows /\
  (rows = [] /\ results' = results \/
   exists name, tableName = Some name /\
     forall t, map_lookup t results' =
               map_lookup t results ++
               (if String.eqb name t then map (write_result_of name) rows else [])).
Proof.
  induction rows as [|row rows IH]; intros results w results' w' Hrun.
  - inversion Hrun; subst. split; [reflexivity|]. split; [constructor|]. left. auto.
  - cbn [BatchWriteRow_result_rows] in Hrun. unfold bind at 1 in Hrun.
    destruct (BatchWriteRow_row tableName row w) as [r w1| |] eqn:Hrow; try discriminate Hrun.
    destruct (BatchWriteRow_row_value _ _ _ _ _ Hrow) as (Hw & Hcomplete & name & Hname & Hr).
    subst w1 r tableName.
    destruct (IH _ _ _ _ Hrun) as (Hw' & Hall & Hshape).
    split; [exact Hw'|]. split; [constructor; assumption|].
    right. exists name. split; [reflexivity|]. intros t.
    assert (Hname' : rr_TableName (write_result_of name row) = name)
      by (unfold write_result_of; destruct (prws_IsOk row) as [[|]|]; reflexivity).
    rewrite Hname' in Hshape.
    destruct Hshape as [[Hnil Hres] | (name' & Heq & Hlook)].
    + subst rows results'. rewrite map_lookup_append.
      destruct (String.eqb name t); [reflexivity | rewrite app_nil_r; reflexivity].
    + inversion Heq; subst name'. rewrite Hlook, map_lookup_append.
      destruct (String.eqb name t); cbn [map]; rewrite <- ?app_assoc; reflexivity.
Qed.

Lemma BatchWriteRow_results_value tables : forall results w results' w',
  BatchWriteRow_results tables results w = Val results' w' ->
  w' = w /\
  Forall (fun table => Forall write_row_complete (ptws_Rows table)) tables /\
  forall t, map_lookup t results' =
            map_lookup t results ++ map (write_result_of t) (write_rows_named t tables).
Proof.
  induction tables as [|table tables IH]; intros results w results' w' Hrun.
  - inversion Hrun; subst. split; [reflexivity|]. split; [constructor|].
    intros t. simpl. rewrite app_nil_r. reflexivity.
  - cbn [BatchWriteRow_results] in Hrun. unfold bind at 1 in Hrun.
    destruct (BatchWriteRow_result_rows (ptws_TableName table) (ptws_Rows table) results w)
      as [results1 w1| |] eqn:Hrows; try discriminate Hrun.
    destruct (BatchWriteRow_result_rows_value _ _ _ _ _ _ Hrows) as (Hw & Hall & Hshape).
    subst w1.
    destruct (IH _ _ _ _ Hrun) as (Hw' & Halls & Hlook).
    split; [exact Hw'|]. split; [constructor; assumption|].
    intros t. rewrite Hlook. unfold write_rows_named. cbn [flat_map].
    fold (write_rows_named t tables). rewrite map_app, app_assoc. f_equal.
    destruct Hshape as [[Hnil Hres] | (name & Hname & Hlook1)].
    + rewrite Hnil, Hres.
      destruct (ptws_TableName table) as [name|]; [destruct (String.eqb name t)|];
        simpl; rewrite app_nil_r; reflexivity.
    + rewrite Hlook1, Hname.
      destruct (String.eqb_spec name t) as [->|_]; reflexivity.
Qed.

(** Building the request of [BatchWriteRow] leaves the world alone. *)
Lemma BatchWriteRow_tables_world groups : forall acc w tables w',
  BatchWriteRow_tables groups acc w = Val tables w' -> w' = w.
Proof.
  induction groups as [|[key value] groups IH]; intros acc w tables w' Hrun.
  - inversion Hrun. reflexivity.
  - cbn [BatchWriteRow_tables] in Hrun. unfold bind at 1 in Hrun.
    destruct (BatchWriteRow_rows value [] w) as [rows w1| |] eqn:Hrows; try discriminate Hrun.
    assert (w1 = w); [|subst; eapply IH; exact Hrun].
    clear - Hrows. revert Hrows. generalize (@nil pb_RowInBatchWriteRowRequest).
    induction value as [|[row|] value IHv]; intros acc Hrun.
    + inversion Hrun. reflexivity.
    + cbn [BatchWriteRow_rows] in Hrun. unfold bind at 1 in Hrun. cbn [deref ret] in Hrun.
      eapply IHv. exact Hrun.
    + discriminate Hrun.
Qed.

(** A response of [BatchWriteRow] comes from an answer without error,
    read by the loops over its tables. *)
Lemma BatchWriteRow_response
    (B : BatchEnv) (c : TableStoreClient) (fuel : nat) (w w' : World)
    (request : option BatchWriteRowRequest) (resp : BatchWriteRowResponse)
    (err : option error) :
  BatchWriteRow B c fuel request w = Val (Some resp, err) w' ->
  err = None /\
  exists req presp,
    doRequest (PReq := pm_BatchWriteRowRequest B) (PResp := pm_BatchWriteRowResponse B)
      (env (more B)) c fuel batchWriteRowUri (Some req) (mk_pb_BatchWriteRowResponse []) w =
      Val (presp, None) w' /\
    BatchWriteRow_results (pbws_Tables presp) [] w' = Val (bws_TableToRowsResult resp) w'.
Proof.
  unfold BatchWriteRow. intros Hrun.
  unfold bind at 1 in Hrun.
  destruct request as [request|]; cbn [deref ret panic] in Hrun; [|discriminate].
  unfold bind at 1 in Hrun.
  destruct (BatchWriteRow_tables (bwq_RowChangesGroupByTable request) [] w)
    as [tables w0| |] eqn:Htables; try discriminate Hrun.
  apply BatchWriteRow_tables_world in Htables. subst w0.
  cbv zeta in Hrun. unfold bind at 1 in Hrun.
  destruct (doRequest (env (more B)) c fuel batchWriteRowUri
              (Some (mk_pb_BatchWriteRowRequest tables)) (mk_pb_BatchWriteRowResponse []) w)
    as [[presp [err0|]] w1| |] eqn:Hreq; cbv beta iota in Hrun; try discriminate Hrun.
  unfold bind in Hrun.
  destruct (BatchWriteRow_results (pbws_Tables presp) [] w1) as [results w2| |] eqn:Hres;
    try discriminate Hrun.
  destruct (BatchWriteRow_results_value _ _ _ _ _ Hres) as (Hw & _). subst w2.
  unfold ret in Hrun. inversion Hrun; subst.
  split; [reflexivity|]. exists (mk_pb_BatchWriteRowRequest tables), presp.
  split; [exact Hreq | exact Hres].
Qed.

(** X21.  When [BatchWriteRow] returns a response, the error is nil,
    the request was answered without error, and the result found under
    a table name lists, in the order of the answer, one result per row
    of the tables of that name: a failed row is a result with
    [IsSucceed] false, the code and the message of its error, not an
    error of the call. *)
Theorem BatchWriteRow_groups_results_by_table
    (B : BatchEnv) (c : TableStoreClient) (fuel : nat) (w w' : World)
    (request : option BatchWriteRowRequest) (resp : BatchWriteRowResponse)
    (err : option error) :
  BatchWriteRow B c fuel request w = Val (Some resp, err) w' ->
  err = None /\
  exists req presp,
    doRequest (PReq := pm_BatchWriteRowRequest B) (PResp := pm_BatchWriteRowResponse B)
      (env (more B)) c fuel batchWriteRowUri (Some req) (mk_pb_BatchWriteRowResponse []) w =
      Val (presp, None) w' /\
    forall t,
      map_lookup t (bws_TableToRowsResult resp) =
      map (write_result_of t) (write_rows_named t (pbws_Tables presp)).
Proof.
  intros Hrun.
  destruct (BatchWriteRow_response B c fuel w w' request resp err Hrun)
    as (Herr & req & presp & Hreq & Hres).
  split; [exact Herr|]. exists req, presp. split; [exact Hreq|].
  destruct (BatchWriteRow_results_value _ _ _ _ _ Hres) as (_ & _ & Hlook).
  intros t. rewrite Hlook. reflexivity.
Qed.

Lemma BatchWriteRow_groups_results_by_table_witness :
  @None error = None /\
  exists req presp,
    doRequest (PReq := pm_BatchWriteRowRequest sim_batch_env)
      (PResp := pm_BatchWriteRowResponse sim_batch_env)
      (env (more sim_batch_env)) (sim_client 3) 5 batchWriteRowUri (Some req)
      (mk_pb_BatchWriteRowResponse []) [] =
      Val (presp, None)
          [EvPost (built_request (sim_env served) (sim_client 3)
                     "http://ots.example/BatchWriteRow" "request"
                     "2017-01-01T00:00:00.000Z" "sign")] /\
    forall t,
      map_lookup t
        (bws_TableToRowsResult
           (mkBatchWriteRowResponse
              [("t1"%string,
                [mkRowResult "t1" true zero_RowError (mkPrimaryKey []) []
                   (mkConsumedCapacityUnit 0 1);
                 mkRowResult "t1" false
                   (mkRowError "OTSConditionCheckFail" "Condition check failed.")
                   (mkPrimaryKey []) [] (mkConsumedCapacityUnit 0 0)]);
               ("t2"%string,
                [mkRowResult "t2" true zero_RowError (mkPrimaryKey []) []
                   (mkConsumedCapacityUnit 0 1)])])) =
      map (write_result_of t) (write_rows_named t (pbws_Tables presp)).
Proof.
  apply (BatchWriteRow_groups_results_by_table sim_batch_env (sim_client 3) 5 [] _
           (Some write_request)).
  vm_compute. reflexivity.
Defined.

Lemma DescribeTable_UpdateTable_error_has_empty_response_witness :
  exists w',
    DescribeTable (sim_more (sim_env unreachable)) (sim_client 3) 5
      (Some (mkDescribeTableRequest "t")) [] =
    Val (Some (mkDescribeTableResponse None None None),
         Some (ErrorText "connection refused")) w' /\
    Some (mkDescribeTableResponse None None None) =
    Some (mkDescribeTableResponse None None None).
Proof.
  eexists. split; [vm_compute; reflexivity|].
  apply (proj1 (DescribeTable_UpdateTable_error_has_empty_response
                  (sim_more (sim_env unreachable)) (sim_client 3) 5 [])
           (Some (mkDescribeTableRequest "t")) _ (ErrorText "connection refused")
           [EvPost (built_request (sim_env unreachable) (sim_client 3)
                      "http://ots.example/DescribeTable" "request"
                      "2017-01-01T00:00:00.000Z" "sign")]).
  vm_compute. reflexivity.
Defined.

Lemma error_comes_without_response_witness :
  exists w',
    GetRow (sim_env rejected) (sim_client 3) 5
      (Some (mkGetRowRequest (Some versioned_criteria))) [] =
    Val (None, Some (ErrorText "OTSParameterInvalid")) w' /\
    @None GetRowResponse = None.
Proof.
  eexists. split; [vm_compute; reflexivity|].
  apply (proj1 (proj2 (proj2 (error_comes_without_response
                                (sim_batch (sim_env rejected) read_rows written_rows)
                                (sim_client 3) 5 [])))
           (Some (mkGetRowRequest (Some versioned_criteria))) _
           (ErrorText "OTSParameterInvalid")
           [EvPost (built_request (sim_env rejected) (sim_client 3)
                      "http://ots.example/GetRow" "request"
                      "2017-01-01T00:00:00.000Z" "sign")]).
  vm_compute. reflexivity.
Defined.

(** The loops over a write response come to an end: they return, or
    they panic on a nil pointer, and the world stays as it was. *)
Lemma bind_ends {A B} (m : M A) (k : A -> M B) w :
  (exists a, m w = Val a w) \/ m w = Panic w ->
  (forall a, (exists b, k a w = Val b w) \/ k a w = Panic w) ->
  (exists b, bind m k w = Val b w) \/ bind m k w = Panic w.
Proof.
  intros [[a Ha] | Ha] Hk; unfold bind; rewrite Ha; [apply Hk | right; reflexivity].
Qed.

Lemma deref_ends {A} (p : option A) w :
  (exists a, deref p w = Val a w) \/ deref p w = Panic w.
Proof. destruct p; [left; eexists; reflexivity | right; reflexivity]. Qed.

Lemma read_Consumed_ends consumed w :
  (exists a, read_Consumed consumed w = Val a w) \/ read_Consumed consumed w = Panic w.
Proof.
  unfold read_Consumed.
  repeat (apply bind_ends; [apply deref_ends | intros ?]).
  left. eexists. reflexivity.
Qed.

Lemma read_RowError_ends e w :
  (exists a, read_RowError e w = Val a w) \/ read_RowError e w = Panic w.
Proof.
  unfold read_RowError.
  repeat (apply bind_ends; [apply deref_ends | intros ?]).
  left. eexists. reflexivity.
Qed.

Lemma BatchWriteRow_row_ends tableName row w :
  (exists r, BatchWriteRow_row tableName row w = Val r w) \/
  BatchWriteRow_row tableName row w = Panic w.
Proof.
  unfold BatchWriteRow_row.
  apply bind_ends; [apply deref_ends | intros name].
  apply bind_ends; [apply deref_ends | intros ok].
  apply bind_ends; [apply read_Consumed_ends | intros consumed].
  destruct ok; cbn [negb]; [left; eexists; reflexivity|].
  apply bind_ends; [apply read_RowError_ends | intros e].
  left. eexists. reflexivity.
Qed.

Lemma BatchWriteRow_result_rows_ends tableName rows : forall results w,
  (exists r, BatchWriteRow_result_rows tableName rows results w = Val r w) \/
  BatchWriteRow_result_rows tableName rows results w = Panic w.
Proof.
  induction rows as [|row rows IH]; intros results w; [left; eexists; reflexivity|].
  cbn [BatchWriteRow_result_rows].
  apply bind_ends; [apply BatchWriteRow_row_ends | intros r; apply IH].
Qed.

Lemma BatchWriteRow_results_ends tables : forall results w,
  (exists r, BatchWriteRow_results tables results w = Val r w) \/
  BatchWriteRow_results tables results w = Panic w.
Proof.
  induction tables as [|table tables IH]; intros results w; [left; eexists; reflexivity|].
  cbn [BatchWriteRow_results].
  apply bind_ends; [apply BatchWriteRow_result_rows_ends | intros r; apply IH].
Qed.

(** A response whose tables can all be read is read to the end. *)
Lemma BatchWriteRow_row_complete name row w :
  write_row_complete row ->
  exists r, BatchWriteRow_row (Some name) row w = Val r w.
Proof.
  intros (ok & read & write & Hok & Hcons & Herr).
  unfold BatchWriteRow_row.
  unfold bind at 1. cbn [deref ret]. rewrite Hok. unfold bind at 1. cbn [deref ret].
  rewrite Hcons. unfold bind at 1. cbn [read_Consumed deref ret bind pbn_CapacityUnit
    pbu_Read pbu_Write].
  destruct ok; cbn [negb]; [eexists; reflexivity|].
  destruct (Herr eq_refl) as (code & message & He). rewrite He.
  eexists. reflexivity.
Qed.

Lemma BatchWriteRow_result_rows_complete name rows : forall results w,
  Forall write_row_complete rows ->
  exists r, BatchWriteRow_result_rows (Some name) rows results w = Val r w.
Proof.
  induction rows as [|row rows IH]; intros results w Hall; [eexists; reflexivity|].
  inversion Hall as [|? ? Hrow Hrest]; subst.
  cbn [BatchWriteRow_result_rows]. unfold bind at 1.
  destruct (BatchWriteRow_row_complete name row w Hrow) as [r Hr]. rewrite Hr.
  apply IH. exact Hrest.
Qed.

Lemma BatchWriteRow_results_complete tables : forall results w,
  Forall write_table_complete tables ->
  exists r, BatchWriteRow_results tables results w = Val r w.
Proof.
  induction tables as [|table tables IH]; intros results w Hall; [eexists; reflexivity|].
  inversion Hall as [|? ? Htable Hrest]; subst.
  cbn [BatchWriteRow_results]. unfold bind at 1.
  destruct Htable as [Hnil | [[name Hname] Hrows]].
  - rewrite Hnil. cbn [BatchWriteRow_result_rows ret]. apply IH. exact Hrest.
  - rewrite Hname.
    destruct (BatchWriteRow_result_rows_complete name (ptws_Rows table) results w Hrows)
      as [r Hr].
    rewrite Hr. apply IH. exact Hrest.
Qed.

(** And a response that is read to the end has only tables that can be
    read. *)
Lemma BatchWriteRow_results_read tables : forall results w results' w',
  BatchWriteRow_results tables results w = Val results' w' ->
  Forall write_table_complete tables.
Proof.
  induction tables as [|table tables IH]; intros results w results' w' Hrun; [constructor|].
  cbn [BatchWriteRow_results] in Hrun. unfold bind at 1 in Hrun.
  destruct (BatchWriteRow_result_rows (ptws_TableName table) (ptws_Rows table) results w)
    as [results1 w1| |] eqn:Hrows; try discriminate Hrun.
  destruct (BatchWriteRow_result_rows_value _ _ _ _ _ _ Hrows) as (Hw & Hall & Hshape).
  constructor; [|eapply IH; exact Hrun].
  destruct Hshape as [[Hnil _] | (name & Hname & _)].
  - left. exact Hnil.
  - right. split; [exists name; exact Hname | exact Hall].
Qed.

(** X22.  [BatchWriteRow] reads the name of the table, [IsOk] and the
    consumed capacity of every row before it looks at [IsOk], and the
    error and its message of every failed row.  Once its request is
    answered without error, the call returns a response when every
    table of the answer that has rows has a name and every row, failed
    rows included, has [IsOk] and its consumed capacity set and, if it
    failed, an error with a message; otherwise the call panics. *)
Theorem BatchWriteRow_reads_every_row
    (B : BatchEnv) (c : TableStoreClient) (fuel : nat) (w w' : World)
    (request : BatchWriteRowRequest) (tables : list pb_TableInBatchWriteRowRequest)
    (presp : pb_BatchWriteRowResponse) :
  BatchWriteRow_tables (bwq_RowChangesGroupByTable request) [] w = Val tables w ->
  doRequest (PReq := pm_BatchWriteRowRequest B) (PResp := pm_BatchWriteRowResponse B)
    (env (more B)) c fuel batchWriteRowUri (Some (mk_pb_BatchWriteRowRequest tables))
    (mk_pb_BatchWriteRowResponse []) w = Val (presp, None) w' ->
  (Forall write_table_complete (pbws_Tables presp) ->
   exists resp, BatchWriteRow B c fuel (Some request) w = Val (Some resp, None) w') /\
  (~ Forall write_table_complete (pbws_Tables presp) ->
   BatchWriteRow B c fuel (Some request) w = Panic w').
Proof.
  intros Htables Hreq.
  assert (Hrun : BatchWriteRow B c fuel (Some request) w =
                 match BatchWriteRow_results (pbws_Tables presp) [] w' with
                 | Val results w1 => Val (Some (mkBatchWriteRowResponse results), None) w1
                 | Panic w1 => Panic w1
                 | OutOfFuel => OutOfFuel
                 end).
  { unfold BatchWriteRow. unfold bind at 1. cbn [deref ret].
    unfold bind at 1. rewrite Htables. cbv zeta. unfold bind at 1. rewrite Hreq.
    cbv beta iota. unfold bind, ret.
    destruct (BatchWriteRow_results (pbws_Tables presp) [] w'); reflexivity. }
  rewrite Hrun. split.
  - intros Hall.
    destruct (BatchWriteRow_results_complete (pbws_Tables presp) [] w' Hall) as [r Hr].
    rewrite Hr. eexists. reflexivity.
  - intros Hbad.
    destruct (BatchWriteRow_results_ends (pbws_Tables presp) [] w') as [[r Hr] | Hr];
      rewrite Hr; [|reflexivity].
    exfalso. apply Hbad. eapply BatchWriteRow_results_read. exact Hr.
Qed.

Lemma BatchWriteRow_reads_every_row_witness :
  (exists resp,
     BatchWriteRow sim_batch_env (sim_client 3) 5 (Some write_request) [] =
     Val (Some resp, None)
       [EvPost (built_request (sim_env served) (sim_client 3)
                  "http://ots.example/BatchWriteRow" "request"
                  "2017-01-01T00:00:00.000Z" "sign")]) /\
  BatchWriteRow (sim_batch (sim_env served) read_rows incomplete_rows)
    (sim_client 3) 5 (Some write_request) [] =
  Panic [EvPost (built_request (sim_env served) (sim_client 3)
                   "http://ots.example/BatchWriteRow" "request"
                   "2017-01-01T00:00:00.000Z" "sign")].
Proof.
  split.
  - eapply (proj1 (BatchWriteRow_reads_every_row sim_batch_env (sim_client 3) 5 [] _
                     write_request _ written_rows eq_refl eq_refl)).
    constructor; [|constructor; [|constructor]];
      right; (split; [eexists; reflexivity|]).
    + constructor; [|constructor; [|constructor]].
      * exists true, 0%Z, 1%Z.
        split; [reflexivity|]. split; [reflexivity|]. intros Hok. discriminate Hok.
      * exists false, 0%Z, 0%Z.
        split; [reflexivity|]. split; [reflexivity|]. intros _. eexists _, _. reflexivity.
    + constructor; [|constructor].
      exists true, 0%Z, 1%Z.
      split; [reflexivity|]. split; [reflexivity|]. intros Hok. discriminate Hok.
  - eapply (proj2 (BatchWriteRow_reads_every_row
                     (sim_batch (sim_env served) read_rows incomplete_rows)
                     (sim_client 3) 5 [] _ write_request _ incomplete_rows eq_refl eq_refl)).
    intros Hall. inversion Hall as [|? ? [Hnil | [_ Hrows]] _]; [discriminate Hnil|].
    inversion Hrows as [|? ? (ok & read & write & _ & Hcons & _) _]. discriminate Hcons.
Defined.

(** One row of a read response. *)
Lemma BatchGetRow_row_value E tableName row w r w' :
  BatchGetRow_row E tableName row w = Val r w' ->
  w' = w /\
  forall result, r = inr result ->
    get_row_complete E row /\
    exists name, tableName = Some name /\ result = get_result_of E name row.
Proof.
  unfold BatchGetRow_row. intros Hrun.
  unfold bind at 1 in Hrun. destruct tableName as [name|]; cbn [deref ret panic] in Hrun;
    [|discriminate].
  unfold bind at 1 in Hrun. destruct (prg_IsOk row) as [ok|] eqn:Hok;
    cbn [deref ret panic] in Hrun; [|discriminate].
  unfold get_row_complete, get_result_of. rewrite Hok.
  destruct ok; cbn [negb] in Hrun.
  - destruct (readRowsWithHeader E (prg_Row row)) as [[|row0 rest]|msg] eqn:Hrows.
    + discriminate Hrun.
    + unfold bind in Hrun.
      destruct (read_Consumed (prg_Consumed row) w) as [consumed w1| |] eqn:Hcons;
        try discriminate Hrun.
      pose proof (read_Consumed_world _ _ _ _ Hcons) as Hw. subst w1.
      destruct (read_Consumed_value _ _ _ _ Hcons) as (Hcv & read & write & Hc).
      unfold ret in Hrun. inversion Hrun; subst.
      split; [reflexivity|]. intros result Hresult. inversion Hresult; subst.
      split; [|exists name; split; reflexivity].
      right. split; [reflexivity|]. split; eauto.
    + unfold ret in Hrun. inversion Hrun; subst.
      split; [reflexivity|]. intros result Hresult. discriminate Hresult.
  - unfold bind in Hrun.
    destruct (read_RowError (prg_Error row) w) as [e w1| |] eqn:Herr; try discriminate Hrun.
    destruct (read_RowError_world _ _ _ _ Herr) as [Hw He]. subst w1 e.
    unfold ret in Hrun. inversion Hrun; subst.
    split; [reflexivity|]. intros result Hresult. inversion Hresult; subst.
    split; [|exists name; split; reflexivity].
    left. split; [reflexivity|].
    unfold read_RowError, bind in Herr.
    destruct (prg_Error row) as [[code [message|]]|]; simpl in Herr;
      unfold ret, panic in Herr; try discriminate Herr.
    exists code, message. reflexivity.
Qed.

Lemma BatchGetRow_rows_value E tableName rows : forall results w r w',
  BatchGetRow_rows E tableName rows results w = Val r w' ->
  w' = w /\
  forall results', r = inr results' ->
    Forall (get_row_complete E) rows /\
    (rows = [] /\ results' = results \/
     exists name, tableName = Some name /\
       forall t, map_lookup t results' =
                 map_lookup t results ++
                 (if String.eqb name t then map (get_result_of E name) rows else [])).
Proof.
  induction rows as [|row rows IH]; intros results w r w' Hrun.
  - inversion Hrun; subst. split; [reflexivity|]. intros results' Hr. inversion Hr; subst.
    split; [constructor|]. left. auto.
  - cbn [BatchGetRow_rows] in Hrun. unfold bind at 1 in Hrun.
    destruct (BatchGetRow_row E tableName row w) as [r1 w1| |] eqn:Hrow; try discriminate Hrun.
    destruct (BatchGetRow_row_value _ _ _ _ _ _ Hrow) as (Hw & Hvalue). subst w1.
    destruct r1 as [err|result].
    { unfold ret in Hrun. inversion Hrun; subst. split; [reflexivity|].
      intros results' Hr. discriminate Hr. }
    destruct (Hvalue result eq_refl) as (Hcomplete & name & Hname & Hresult).
    subst tableName result.
    destruct (IH _ _ _ _ Hrun) as (Hw' & Hshape).
    split; [exact Hw'|]. intros results' Hr.
    destruct (Hshape results' Hr) as (Hall & Hlook).
    split; [constructor; assumption|].
    right. exists name. split; [reflexivity|]. intros t.
    assert (Hname' : rr_TableName (get_result_of E name row) = name).
    { unfold get_result_of. destruct (prg_IsOk row) as [[|]|];
        try destruct (readRowsWithHeader E (prg_Row row)) as [[|? ?]|]; reflexivity. }
    rewrite Hname' in Hlook.
    destruct Hlook as [[Hnil Hres] | (name' & Heq & Hlook)].
    + subst rows results'. rewrite map_lookup_append.
      destruct (String.eqb name t); [reflexivity | rewrite app_nil_r; reflexivity].
    + inversion Heq; subst name'. rewrite Hlook, map_lookup_append.
      destruct (String.eqb name t); cbn [map]; rewrite <- ?app_assoc; reflexivity.
Qed.

Lemma BatchGetRow_results_value E tables : forall results w r w',
  BatchGetRow_results E tables results w = Val r w' ->
  w' = w /\
  forall results', r = inr results' ->
    Forall (fun table => Forall (get_row_complete E) (ptgs_Rows table)) tables /\
    forall t, map_lookup t results' =
              map_lookup t results ++ map (get_result_of E t) (get_rows_named t tables).
Proof.
  induction tables as [|table tables IH]; intros results w r w' Hrun.
  - inversion Hrun; subst. split; [reflexivity|]. intros results' Hr. inversion Hr; subst.
    split; [constructor|]. intros t. simpl. rewrite app_nil_r. reflexivity.
  - cbn [BatchGetRow_results] in Hrun. unfold bind at 1 in Hrun.
    destruct (BatchGetRow_rows E (ptgs_TableName table) (ptgs_Rows table) results w)
      as [r1 w1| |] eqn:Hrows; try discriminate Hrun.
    destruct (BatchGetRow_rows_value _ _ _ _ _ _ _ Hrows) as (Hw & Hshape). subst w1.
    destruct r1 as [err|results1].
    { unfold ret in Hrun. inversion Hrun; subst. split; [reflexivity|].
      intros results' Hr. discriminate Hr. }
    destruct (Hshape results1 eq_refl) as (Hall & Hlook1).
    destruct (IH _ _ _ _ Hrun) as (Hw' & Hrest).
    split; [exact Hw'|]. intros results' Hr.
    destruct (Hrest results' Hr) as (Halls & Hlook).
    split; [constructor; assumption|].
    intros t. rewrite Hlook. unfold get_rows_named. cbn [flat_map].
    fold (get_rows_named t tables). rewrite map_app, app_assoc. f_equal.
    destruct Hlook1 as [[Hnil Hres] | (name & Hname & Hlook1)].
    + rewrite Hnil, Hres.
      destruct (ptgs_TableName table) as [name|]; [destruct (String.eqb name t)|];
        simpl; rewrite app_nil_r; reflexivity.
    + rewrite Hlook1, Hname.
      destruct (String.eqb_spec name t) as [->|_]; reflexivity.
Qed.

Lemma BatchGetRow_tables_world E criteria : forall acc w tables w',
  BatchGetRow_tables E criteria acc w = Val tables w' -> w' = w.
Proof.
  induction criteria as [|[Criteria|] criteria IH]; intros acc w tables w' Hrun.
  - inversion Hrun. reflexivity.
  - cbn [BatchGetRow_tables] in Hrun. unfold bind at 1 in Hrun. cbn [deref ret] in Hrun.
    eapply IH. exact Hrun.
  - discriminate Hrun.
Qed.

(** X23.  A row that could not be read is a result, not an error of
    the call: when [BatchGetRow] returns a response, the error is nil,
    the request was answered without error, and the result found under
    a table name lists, in the order of the answer, one result per row
    of the tables of that name; a failed row gives [IsSucceed] false
    with the code and the message of its error, a row that is ok the
    key, the cells of the first row decoded from its buffer and its
    consumed capacity. *)
Theorem BatchGetRow_groups_results_by_table
    (B : BatchEnv) (c : TableStoreClient) (fuel : nat) (w w' : World)
    (request : option BatchGetRowRequest) (resp : BatchGetRowResponse)
    (err : option error) :
  BatchGetRow B c fuel request w = Val (Some resp, err) w' ->
  err = None /\
  exists req presp,
    doRequest (PReq := pm_BatchGetRowRequest B) (PResp := pm_BatchGetRowResponse B)
      (env (more B)) c fuel batchGetRowUri (Some req) (mk_pb_BatchGetRowResponse []) w =
      Val (presp, None) w' /\
    Forall (fun table => Forall (get_row_complete (env (more B))) (ptgs_Rows table))
      (pbgs_Tables presp) /\
    forall t,
      map_lookup t (bgs_TableToRowsResult resp) =
      map (get_result_of (env (more B)) t) (get_rows_named t (pbgs_Tables presp)).
Proof.
  unfold BatchGetRow. intros Hrun.
  unfold bind at 1 in Hrun.
  destruct request as [request|]; cbn [deref ret panic] in Hrun; [|discriminate].
  unfold bind at 1 in Hrun.
  destruct (BatchGetRow_tables (env (more B)) (bgq_MultiRowQueryCriteria request) [] w)
    as [tables w0| |] eqn:Htables; try discriminate Hrun.
  apply BatchGetRow_tables_world in Htables. subst w0.
  cbv zeta in Hrun. unfold bind at 1 in Hrun.
  destruct (doRequest (env (more B)) c fuel batchGetRowUri
              (Some (mk_pb_BatchGetRowRequest tables)) (mk_pb_BatchGetRowResponse []) w)
    as [[presp [err0|]] w1| |] eqn:Hreq; cbv beta iota in Hrun; try discriminate Hrun.
  unfold bind in Hrun.
  destruct (BatchGetRow_results (env (more B)) (pbgs_Tables presp) [] w1)
    as [[err1|results] w2| |] eqn:Hres; cbv beta iota in Hrun; try discriminate Hrun.
  destruct (BatchGetRow_results_value _ _ _ _ _ _ Hres) as (Hw & Hvalue). subst w2.
  destruct (Hvalue results eq_refl) as (Hall & Hlook).
  unfold ret in Hrun. inversion Hrun; subst.
  split; [reflexivity|]. exists (mk_pb_BatchGetRowRequest tables), presp.
  split; [exact Hreq|]. split; [exact Hall|].
  intros t. rewrite Hlook. reflexivity.
Qed.

Lemma BatchGetRow_groups_results_by_table_witness :
  @None error = None /\
  exists req presp,
    doRequest (PReq := pm_BatchGetRowRequest sim_batch_env)
      (PResp := pm_BatchGetRowResponse sim_batch_env)
      (env (more sim_batch_env)) (sim_client 3) 5 batchGetRowUri (Some req)
      (mk_pb_BatchGetRowResponse []) [] =
      Val (presp, None)
          [EvPost (built_request (sim_env served) (sim_client 3)
                     "http://ots.example/BatchGetRow" "request"
                     "2017-01-01T00:00:00.000Z" "sign")] /\
    Forall (fun table => Forall (get_row_complete (env (more sim_batch_env))) (ptgs_Rows table))
      (pbgs_Tables presp) /\
    forall t,
      map_lookup t
        (bgs_TableToRowsResult
           (mkBatchGetRowResponse
              [("t1"%string,
                [mkRowResult "t1" true zero_RowError
                   (mkPrimaryKey [mkPrimaryKeyColumn "pk1" (V_int64 1);
                                  mkPrimaryKeyColumn "pk2" (V_string "b")])
                   [mkDataColumn "col" (V_string "v") 100] (mkConsumedCapacityUnit 1 0);
                 mkRowResult "t1" false (mkRowError "OTSParameterInvalid" "bad key")
                   (mkPrimaryKey []) [] zero_Consumed])])) =
      map (get_result_of (env (more sim_batch_env)) t)
        (get_rows_named t (pbgs_Tables presp)).
Proof.
  apply (BatchGetRow_groups_results_by_table sim_batch_env (sim_client 3) 5 [] _
           (Some read_request)).
  vm_compute. reflexivity.
Defined.

Lemma read_Options_value options w a w' :
  read_Options options w = Val a w' ->
  w' = w /\
  exists ttl versions,
    options = Some (mk_pb_TableOptions (Some ttl) (Some versions)) /\
    a = mkTableOption ttl versions.
Proof.
  unfold read_Options, bind. intros H.
  destruct options as [[[ttl|] [versions|]]|]; simpl in H; unfold ret, panic in H;
    inversion H.
  split; [reflexivity | eauto].
Qed.

Lemma read_Details_value details w a w' :
  read_Details details w = Val a w' ->
  w' = w /\
  exists read write,
    details = Some (mk_pb_ReservedThroughputDetails
                      (Some (mk_pb_CapacityUnit (Some read) (Some write)))) /\
    a = mkReservedThroughput read write.
Proof.
  unfold read_Details, bind. intros H.
  destruct details as [[[[[read|] [write|]]|]]|]; simpl in H; unfold ret, panic in H;
    inversion H.
  split; [reflexivity | eauto].
Qed.

Lemma DescribeTable_keys_value keys : forall acc w entries w',
  DescribeTable_keys keys acc w = Val entries w' ->
  w' = w /\ entries = acc ++ map entry_of keys /\
  Forall (fun key => pbk_Type key <> None) keys.
Proof.
  induction keys as [|key keys IH]; intros acc w entries w' Hrun.
  - inversion Hrun; subst. rewrite app_nil_r. repeat split. constructor.
  - cbn [DescribeTable_keys] in Hrun. unfold bind at 1 in Hrun.
    destruct (pbk_Type key) as [keyType|] eqn:Htype; cbn [deref ret panic] in Hrun;
      [|discriminate].
    assert (Hentry : entry_of key =
                     Some (mkPrimaryKeySchema (pbk_Name key) (Some keyType) (pbk_Option key)))
      by (unfold entry_of; rewrite Htype; reflexivity).
    destruct (pbk_Option key) as [keyOption|];
      destruct (IH _ _ _ _ Hrun) as (Hw & Hentries & Hall);
      (split; [exact Hw|]; split;
       [rewrite Hentries, <- app_assoc; cbn [map app]; rewrite Hentry; reflexivity
       |constructor; [rewrite Htype; discriminate | exact Hall]]).
Qed.

(** X24.  When [DescribeTable] returns a response without error, the
    request was answered without error by a message that carries the
    table name, the table options and the reserved throughput, with a
    [Type] in every key schema; the response holds that name, these
    options and throughput, and one schema entry per key schema, in
    order, with its name, type and option. *)
Theorem DescribeTable_returns_the_described_table
    (X : MoreEnv) (c : TableStoreClient) (fuel : nat) (w w' : World)
    (request : option DescribeTableRequest) (resp : DescribeTableResponse) :
  DescribeTable X c fuel request w = Val (Some resp, None) w' ->
  exists name presp keys ttl versions read write,
    request <> None /\
    doRequest (PReq := pm_DescribeTableRequest X) (PResp := pm_DescribeTableResponse X)
      (env X) c fuel describeTableUri
      (Some (mk_pb_DescribeTableRequest
               (match request with Some r => Some (dtq_TableName r) | None => None end)))
      (mk_pb_DescribeTableResponse None None None) w = Val (presp, None) w' /\
    presp = mk_pb_DescribeTableResponse (Some (mk_pb_TableMeta (Some name) keys))
              (Some (mk_pb_ReservedThroughputDetails
                       (Some (mk_pb_CapacityUnit (Some read) (Some write)))))
              (Some (mk_pb_TableOptions (Some ttl) (Some versions))) /\
    Forall (fun key => pbk_Type key <> None) keys /\
    resp = mkDescribeTableResponse (Some (mkTableMeta name (map entry_of keys)))
             (Some (mkTableOption ttl versions)) (Some (mkReservedThroughput read write)).
Proof.
  unfold DescribeTable. intros Hrun.
  unfold bind at 1 in Hrun.
  destruct request as [request|]; cbn [deref ret panic] in Hrun; [|discriminate].
  cbv zeta in Hrun. unfold bind at 1 in Hrun.
  destruct (doRequest (env X) c fuel describeTableUri
              (Some (mk_pb_DescribeTableRequest (Some (dtq_TableName request))))
              (mk_pb_DescribeTableResponse None None None) w)
    as [[presp [err0|]] w1| |] eqn:Hreq; cbv beta iota in Hrun; try discriminate Hrun.
  unfold bind at 1 in Hrun.
  destruct (read_Details (pds_ReservedThroughputDetails presp) w1)
    as [throughput w2| |] eqn:Hdetails; try discriminate Hrun.
  destruct (read_Details_value _ _ _ _ Hdetails) as (Hw & read & write & Hd & Ht). subst w2.
  unfold bind at 1 in Hrun.
  destruct (pds_TableMeta presp) as [meta|] eqn:Hmeta; cbn [deref ret panic] in Hrun;
    [|discriminate].
  unfold bind at 1 in Hrun.
  destruct (pbm_TableName meta) as [name|] eqn:Hname; cbn [deref ret panic] in Hrun;
    [|discriminate].
  unfold bind at 1 in Hrun.
  destruct (DescribeTable_keys (pbm_PrimaryKey meta) [] w1) as [entries w2| |] eqn:Hkeys;
    try discriminate Hrun.
  destruct (DescribeTable_keys_value _ _ _ _ _ Hkeys) as (Hw & Hentries & Htyped). subst w2.
  unfold bind at 1 in Hrun.
  destruct (read_Options (pds_TableOptions presp) w1) as [option w2| |] eqn:Hoptions;
    try discriminate Hrun.
  destruct (read_Options_value _ _ _ _ Hoptions) as (Hw & ttl & versions & Ho & Hto). subst w2.
  unfold ret in Hrun. inversion Hrun; subst.
  exists name, presp, (pbm_PrimaryKey meta), ttl, versions, read, write.
  split; [discriminate|]. split; [reflexivity|].
  split; [|split; [exact Htyped | reflexivity]].
  destruct presp as [m d o]. cbn in *. subst m d o.
  destruct meta as [n k]. cbn in *. subst n. reflexivity.
Qed.

Lemma DescribeTable_returns_the_described_table_witness :
  exists name presp keys ttl versions read write,
    Some (mkDescribeTableRequest "t") <> None /\
    doRequest (PReq := pm_DescribeTableRequest sim_describe_env)
      (PResp := pm_DescribeTableResponse sim_describe_env)
      (env sim_describe_env) (sim_client 3) 5 describeTableUri
      (Some (mk_pb_DescribeTableRequest (Some "t"%string)))
      (mk_pb_DescribeTableResponse None None None) [] =
      Val (presp, None)
          [EvPost (built_request (sim_env served) (sim_client 3)
                     "http://ots.example/DescribeTable" "request"
                     "2017-01-01T00:00:00.000Z" "sign")] /\
    presp = mk_pb_DescribeTableResponse (Some (mk_pb_TableMeta (Some name) keys))
              (Some (mk_pb_ReservedThroughputDetails
                       (Some (mk_pb_CapacityUnit (Some read) (Some write)))))
              (Some (mk_pb_TableOptions (Some ttl) (Some versions))) /\
    Forall (fun key => pbk_Type key <> None) keys /\
    mkDescribeTableResponse
      (Some (mkTableMeta "t"
               [Some (mkPrimaryKeySchema (Some "a"%string) (Some 1%Z) None);
                Some (mkPrimaryKeySchema (Some "b"%string) (Some 2%Z) (Some 1%Z))]))
      (Some (mkTableOption (-1) 3)) (Some (mkReservedThroughput 5 7)) =
    mkDescribeTableResponse (Some (mkTableMeta name (map entry_of keys)))
      (Some (mkTableOption ttl versions)) (Some (mkReservedThroughput read write)).
Proof.
  apply (DescribeTable_returns_the_described_table sim_describe_env (sim_client 3) 5 [] _
           (Some (mkDescribeTableRequest "t"))).
  vm_compute. reflexivity.
Defined.

(** X25.  When [DeleteRow] or [UpdateRow] returns a response, the error
    is nil, the request was answered without error by a message whose
    consumed capacity has its read and write numbers set, and the
    response carries these two numbers. *)
Theorem DeleteRow_UpdateRow_return_the_consumed_capacity
    (X : MoreEnv) (c : TableStoreClient) (fuel : nat) (w w' : World) :
  (forall request resp err,
     DeleteRow X c fuel request w = Val (Some resp, err) w' ->
     err = None /\
     exists req presp read write,
       doRequest (PReq := pm_DeleteRowRequest X) (PResp := pm_DeleteRowResponse X)
         (env X) c fuel deleteRowUri (Some req) (mk_pb_DeleteRowResponse None) w =
         Val (presp, None) w' /\
       pdp_Consumed presp =
         Some (mk_pb_ConsumedCapacity (Some (mk_pb_CapacityUnit (Some read) (Some write)))) /\
       resp = mkDeleteRowResponse (mkConsumedCapacityUnit read write)) /\
  (forall request resp err,
     UpdateRow X c fuel request w = Val (Some resp, err) w' ->
     err = None /\
     exists req presp read write,
       doRequest (PReq := pm_UpdateRowRequest X) (PResp := pm_UpdateRowResponse X)
         (env X) c fuel updateRowUri (Some req) (mk_pb_UpdateRowResponse None) w =
         Val (presp, None) w' /\
       pup_Consumed presp =
         Some (mk_pb_ConsumedCapacity (Some (mk_pb_CapacityUnit (Some read) (Some write)))) /\
       resp = mkUpdateRowResponse (mkConsumedCapacityUnit read write)).
Proof.
  split; intros request resp err Hrun.
  - unfold DeleteRow in Hrun.
    unfold bind at 1 in Hrun.
    destruct request as [request|]; cbn [deref ret panic] in Hrun; [|discriminate].
    unfold bind at 1 in Hrun.
    destruct (drq_DeleteRowChange request) as [change|]; cbn [deref ret panic] in Hrun; [|discriminate].
    cbv zeta in Hrun. unfold bind at 1 in Hrun.
    match type of Hrun with
    | match doRequest ?E c fuel deleteRowUri (Some ?r) ?z w with _ => _ end = _ =>
      destruct (doRequest E c fuel deleteRowUri (Some r) z w)
        as [[presp [err0|]] w1| |] eqn:Hreq; cbv beta iota in Hrun; try discriminate Hrun
    end.
    unfold bind in Hrun.
    destruct (read_Consumed (pdp_Consumed presp) w1) as [consumed w2| |] eqn:Hcons;
      cbv beta iota in Hrun; try discriminate Hrun.
    pose proof (read_Consumed_world _ _ _ _ Hcons) as Hw. subst w2.
    destruct (read_Consumed_value _ _ _ _ Hcons) as (Hval & read & write & Hshape).
    unfold ret in Hrun. inversion Hrun; subst.
    split; [reflexivity|]. eexists _, presp, read, write.
    split; [exact Hreq|]. split; [exact Hshape|].
    rewrite Hshape. reflexivity.
  - unfold UpdateRow in Hrun.
    unfold bind at 1 in Hrun.
    destruct request as [request|]; cbn [deref ret panic] in Hrun; [|discriminate].
    unfold bind at 1 in Hrun.
    destruct (urq_UpdateRowChange request) as [change|]; cbn [deref ret panic] in Hrun; [|discriminate].
    cbv zeta in Hrun. unfold bind at 1 in Hrun.
    match type of Hrun with
    | match doRequest ?E c fuel updateRowUri (Some ?r) ?z w with _ => _ end = _ =>
      destruct (doRequest E c fuel updateRowUri (Some r) z w)
        as [[presp [err0|]] w1| |] eqn:Hreq; cbv beta iota in Hrun; try discriminate Hrun
    end.
    unfold bind in Hrun.
    destruct (read_Consumed (pup_Consumed presp) w1) as [consumed w2| |] eqn:Hcons;
      cbv beta iota in Hrun; try discriminate Hrun.
    pose proof (read_Consumed_world _ _ _ _ Hcons) as Hw. subst w2.
    destruct (read_Consumed_value _ _ _ _ Hcons) as (Hval & read & write & Hshape).
    unfold ret in Hrun. inversion Hrun; subst.
    split; [reflexivity|]. eexists _, presp, read, write.
    split; [exact Hreq|]. split; [exact Hshape|].
    rewrite Hshape. reflexivity.
Qed.

Lemma DeleteRow_UpdateRow_return_the_consumed_capacity_witness :
  @None error = None /\
  exists req presp read write,
    doRequest (PReq := pm_DeleteRowRequest sim_update_env)
      (PResp := pm_DeleteRowResponse sim_update_env)
      (env sim_update_env) (sim_client 3) 5 deleteRowUri (Some req)
      (mk_pb_DeleteRowResponse None) [] =
      Val (presp, None)
          [EvPost (built_request (sim_env served) (sim_client 3)
                     "http://ots.example/DeleteRow" "request"
                     "2017-01-01T00:00:00.000Z" "sign")] /\
    pdp_Consumed presp =
      Some (mk_pb_ConsumedCapacity (Some (mk_pb_CapacityUnit (Some read) (Some write)))) /\
    mkDeleteRowResponse (mkConsumedCapacityUnit 0 1) =
      mkDeleteRowResponse (mkConsumedCapacityUnit read write).
Proof.
  apply (proj1 (DeleteRow_UpdateRow_return_the_consumed_capacity sim_update_env
                  (sim_client 3) 5 []
                  [EvPost (built_request (sim_env served) (sim_client 3)
                             "http://ots.example/DeleteRow" "request"
                             "2017-01-01T00:00:00.000Z" "sign")])
               (Some delete_request)).
  vm_compute. reflexivity.
Defined.

(** X26.  When [UpdateTable] returns a response without error, the
    request sent named the table and carried the throughput and the
    options only where the caller gave them; it was answered without
    error by a message with the reserved throughput details and the
    table options set, and the response holds these capacities and
    options. *)
Theorem UpdateTable_returns_the_updated_table
    (X : MoreEnv) (c : TableStoreClient) (fuel : nat) (w w' : World)
    (request : option UpdateTableRequest) (resp : UpdateTableResponse) :
  UpdateTable X c fuel request w = Val (Some resp, None) w' ->
  exists rq presp ttl versions read write,
    request = Some rq /\
    doRequest (PReq := pm_UpdateTableRequest X) (PResp := pm_UpdateTableResponse X)
      (env X) c fuel updateTableUri (Some (update_message rq))
      (mk_pb_UpdateTableResponse None None) w = Val (presp, None) w' /\
    presp = mk_pb_UpdateTableResponse
              (Some (mk_pb_ReservedThroughputDetails
                       (Some (mk_pb_CapacityUnit (Some read) (Some write)))))
              (Some (mk_pb_TableOptions (Some ttl) (Some versions))) /\
    resp = mkUpdateTableResponse (Some (mkTableOption ttl versions))
             (Some (mkReservedThroughput read write)).
Proof.
  unfold UpdateTable. intros Hrun.
  unfold bind at 1 in Hrun.
  destruct request as [request|]; cbn [deref ret panic] in Hrun; [|discriminate].
  cbv zeta in Hrun. unfold bind at 1 in Hrun.
  change (mk_pb_UpdateTableRequest _ _ _) with (update_message request) in Hrun.
  destruct (doRequest (env X) c fuel updateTableUri (Some (update_message request))
              (mk_pb_UpdateTableResponse None None) w)
    as [[presp [err0|]] w1| |] eqn:Hreq; cbv beta iota in Hrun; try discriminate Hrun.
  unfold bind at 1 in Hrun.
  destruct (read_Details (pus_ReservedThroughputDetails presp) w1)
    as [throughput w2| |] eqn:Hdetails; try discriminate Hrun.
  destruct (read_Details_value _ _ _ _ Hdetails) as (Hw & read & write & Hd & Ht). subst w2.
  unfold bind at 1 in Hrun.
  destruct (read_Options (pus_TableOptions presp) w1) as [option w2| |] eqn:Hoptions;
    try discriminate Hrun.
  destruct (read_Options_value _ _ _ _ Hoptions) as (Hw & ttl & versions & Ho & Hto). subst w2.
  unfold ret in Hrun. inversion Hrun; subst.
  exists request, presp, ttl, versions, read, write.
  split; [reflexivity|]. split; [exact Hreq|]. split; [|reflexivity].
  destruct presp as [d o]. cbn in *. subst d o. reflexivity.
Qed.

Lemma UpdateTable_returns_the_updated_table_witness :
  exists rq presp ttl versions read write,
    Some update_table_request = Some rq /\
    doRequest (PReq := pm_UpdateTableRequest sim_update_env)
      (PResp := pm_UpdateTableResponse sim_update_env)
      (env sim_update_env) (sim_client 3) 5 updateTableUri (Some (update_message rq))
      (mk_pb_UpdateTableResponse None None) [] =
      Val (presp, None)
          [EvPost (built_request (sim_env served) (sim_client 3)
                     "http://ots.example/UpdateTable" "request"
                     "2017-01-01T00:00:00.000Z" "sign")] /\
    presp = mk_pb_UpdateTableResponse
              (Some (mk_pb_ReservedThroughputDetails
                       (Some (mk_pb_CapacityUnit (Some read) (Some write)))))
              (Some (mk_pb_TableOptions (Some ttl) (Some versions))) /\
    mkUpdateTableResponse (Some (mkTableOption 86400 3)) (Some (mkReservedThroughput 5 7)) =
      mkUpdateTableResponse (Some (mkTableOption ttl versions))
        (Some (mkReservedThroughput read write)).
Proof.
  apply (UpdateTable_returns_the_updated_table sim_update_env (sim_client 3) 5 []
           [EvPost (built_request (sim_env served) (sim_client 3)
                      "http://ots.example/UpdateTable" "request"
                      "2017-01-01T00:00:00.000Z" "sign")]
           (Some update_table_request)).
  vm_compute. reflexivity.
Defined.

(** X27.  [DeleteTable] hands no response message to [doRequest], so it
    can only take an answer without body: when the request it sends is
    answered without error, an empty body gives an empty response and a
    nil error after that one request, and any other body makes the call
    panic, after the request has been posted. *)
Theorem DeleteTable_needs_an_empty_answer
    {PReq : ProtoMessage pb_DeleteTableRequest}
    (E : Env) (c : TableStoreClient) (fuel : nat) (w : World)
    (request : DeleteTableRequest) (body0 : string) (hreq : HttpRequest) (body : string) :
  proto_Marshal (mk_pb_DeleteTableRequest (Some (dlq_TableName request))) = Ok body0 ->
  answered E c deleteTableUri (endPoint c ++ deleteTableUri)%string body0 w hreq body None ->
  (len body = 0%Z ->
   DeleteTable E c (S fuel) (Some request) w =
   Val (Some mkDeleteTableResponse, None) (w ++ [EvPost hreq])) /\
  (len body <> 0%Z ->
   DeleteTable E c (S fuel) (Some request) w = Panic (w ++ [EvPost hreq])).
Proof.
  intros Hmarshal Hans.
  assert (Hrun : DeleteTable E c (S fuel) (Some request) w =
                 if (len body =? 0)%Z
                 then Val (Some mkDeleteTableResponse, None) (w ++ [EvPost hreq])
                 else Panic (w ++ [EvPost hreq])).
  { unfold DeleteTable. unfold bind at 1. cbn [deref ret]. cbv zeta.
    unfold bind at 1. unfold doRequest_nil. cbn [request_body]. rewrite Hmarshal.
    unfold bind at 1.
    rewrite (doRequest_retry_answered E c deleteTableUri _ fuel body0 0%Z w hreq body None Hans).
    cbn [after_post ret].
    destruct (len body =? 0)%Z; reflexivity. }
  rewrite Hrun. split; intros Hlen.
  - rewrite Hlen. reflexivity.
  - apply Z.eqb_neq in Hlen. rewrite Hlen. reflexivity.
Qed.

Lemma DeleteTable_needs_an_empty_answer_witness :
  DeleteTable (PReq := sim_message (mk_pb_DeleteTableRequest None))
    (sim_env silent) (sim_client 2) (S 2) (Some (mkDeleteTableRequest "t")) [] =
  Val (Some mkDeleteTableResponse, None)
    ([] ++ [EvPost (built_request (sim_env silent) (sim_client 2)
                      "http://ots.example/DeleteTable" "request"
                      "2017-01-01T00:00:00.000Z" "sign")]) /\
  DeleteTable (PReq := sim_message (mk_pb_DeleteTableRequest None))
    (sim_env served) (sim_client 2) (S 2) (Some (mkDeleteTableRequest "t")) [] =
  Panic ([] ++ [EvPost (built_request (sim_env served) (sim_client 2)
                          "http://ots.example/DeleteTable" "request"
                          "2017-01-01T00:00:00.000Z" "sign")]).
Proof.
  split.
  - apply (proj1 (DeleteTable_needs_an_empty_answer
                    (PReq := sim_message (mk_pb_DeleteTableRequest None))
                    (sim_env silent) (sim_client 2) 2 [] (mkDeleteTableRequest "t")
                    "request" _ "" eq_refl (silent_answered _ _ _ _ _))).
    reflexivity.
  - apply (proj2 (DeleteTable_needs_an_empty_answer
                    (PReq := sim_message (mk_pb_DeleteTableRequest None))
                    (sim_env served) (sim_client 2) 2 [] (mkDeleteTableRequest "t")
                    "request" _ "response" eq_refl (served_answered _ _ _ _ _))).
    discriminate.
Defined.
